(** * FET: the data-access layer (app/utils/db.py) and the dashboard's
    budget alerts (app/pages/1_Dashboard.py), embedded and verified.

    The Python code is embedded shallowly: the SQLite store is an explicit
    state that every accessor takes and returns, Python values that may
    reach a numeric parameter are a small tagged union, REAL numbers are
    IEEE binary64 floats (the kernel's primitive floats), and the clock,
    the random token and the salt are explicit arguments.  What the
    interpreter and its libraries do to a string ([float(s)], [int(s)],
    [json.dumps], [strptime], bcrypt, SHA-256) is a field of the record
    [runtime]; nothing is assumed about these fields unless a lemma says
    so in its hypotheses.

    Operational failures of SQLite (I/O errors, a locked file) are outside
    the model; the constraint violations and binding errors that the
    schema and the sqlite3 module raise on data are inside it.  SQLite
    adds up the doubles of a SUM plainly before version 3.44 and with
    compensation from then on: both ways are modelled, and the field
    [sqlite_compensates] of [runtime] says which one the library takes. *)

From Stdlib Require Import ZArith QArith Qround String Ascii List Floats Lia.
From Stdlib Require Import DecimalString Permutation.
From stdpp Require Import base option list gmap strings fin_maps.

Local Open Scope string_scope.
Local Open Scope Z_scope.

(* ===================================================================== *)
(** * Python values and the builtins the module applies to them          *)
(* ===================================================================== *)

Module Py.

(** A value passed where the code expects a number.  [PyObj t] is any
    other object (a list, a dict, ...) whose truth value is [t]; [float]
    and [int] raise TypeError on it. *)
Inductive pyval : Type :=
| PyNone
| PyBool (b : bool)
| PyInt (z : Z)
| PyFloat (f : float)
| PyStr (s : string)
| PyObj (t : bool).

(** [bool(v)]: what [if v], [not v] and [v or d] test. *)
Definition truthy (v : pyval) : bool :=
  match v with
  | PyNone => false
  | PyBool b => b
  | PyInt z => negb (z =? 0)
  | PyFloat f => negb (f =? 0)%float
  | PyStr s => negb (String.eqb s "")
  | PyObj t => t
  end.

(** The result of a call that may raise. *)
Inductive outcome (A : Type) : Type :=
| Returned (a : A)
| Raised.
Arguments Returned {A} _.
Arguments Raised {A}.

(** [a or b]. *)
Definition py_or (a b : pyval) : pyval := if truthy a then a else b.

(** [s or ""] on an optional string argument. *)
Definition str_or_empty (s : option string) : string :=
  match s with
  | Some x => x
  | None => ""
  end.

(** [float(n)] on an int: the nearest double, ties to even; OverflowError
    ([None]) when the int is too large. *)
Definition float_of_Z (z : Z) : option float :=
  let f := SF2Prim (binary_normalize prec emax z 0 false) in
  if is_infinity f then None else Some f.

(** [int(x)] on a float: truncation toward zero; ValueError or
    OverflowError ([None]) on nan and the infinities. *)
Definition Z_of_float (f : float) : option Z :=
  match Prim2SF f with
  | S754_zero _ => Some 0
  | S754_finite s m e =>
      let a := if 0 <=? e then Zpos m * 2 ^ e else Zpos m / 2 ^ (- e) in
      Some (if s then - a else a)
  | S754_infinity _ | S754_nan => None
  end.

(** [str(n)] on an int. *)
Definition py_str (z : Z) : string := NilZero.string_of_int (Z.to_int z).

(** [f"{n:02d}"] on an int: at least two characters, zero filled, the
    sign counted in the width. *)
Definition fmt_02d (z : Z) : string :=
  if (0 <=? z) && (z <? 10) then "0" ++ py_str z else py_str z.

(** What the interpreter and the libraries compute from strings and
    objects.  [None] stands for a raised exception. *)
Record runtime : Type := {
  (** [float(s)] on a str *)
  float_of_str : string -> option float;
  (** [int(s)] on a str *)
  int_of_str : string -> option Z;
  (** [json.dumps(v)] *)
  json_dumps : pyval -> option string;
  (** [json.loads(s)] does not raise *)
  json_loads_ok : string -> bool;
  (** [time.strftime("%Y-%m-%d", time.localtime(t))] *)
  strftime_local : Z -> option string;
  (** the first of the formats %Y-%m-%d, %d-%m-%Y, %d/%m/%Y, %Y/%m/%d that
      parses the text, reformatted as %Y-%m-%d *)
  reformat_date : string -> option string;
  (** [import bcrypt] succeeded *)
  HAS_BCRYPT : bool;
  (** [bcrypt.hashpw(password, salt)], decoded *)
  bcrypt_hashpw : string -> string -> option string;
  (** [bcrypt.checkpw(password, hashed)] *)
  bcrypt_checkpw : string -> string -> option bool;
  (** [hashlib.sha256(s).hexdigest()] *)
  sha256_hexdigest : string -> string;
  (** the SQLite library adds up the doubles of a SUM with the
      Kahan-Babuska-Neumaier compensation (3.44 and later) rather than
      plainly *)
  sqlite_compensates : bool
}.

Section Builtins.
Context (rt : runtime).

(** [float(v)]. *)
Definition py_float (v : pyval) : option float :=
  match v with
  | PyNone => None
  | PyBool b => Some (if b then 1 else 0)%float
  | PyInt z => float_of_Z z
  | PyFloat f => Some f
  | PyStr s => float_of_str rt s
  | PyObj _ => None
  end.

(** [int(v)]. *)
Definition py_int (v : pyval) : option Z :=
  match v with
  | PyNone => None
  | PyBool b => Some (if b then 1 else 0)
  | PyInt z => Some z
  | PyFloat f => Z_of_float f
  | PyStr s => int_of_str rt s
  | PyObj _ => None
  end.

End Builtins.

(** A runtime that parses no string and formats no date.  It is
    used to run the model on inputs whose path calls none of its fields. *)
Definition bare_runtime : runtime := {|
  float_of_str := fun _ => None;
  int_of_str := fun _ => None;
  json_dumps := fun _ => None;
  json_loads_ok := fun _ => false;
  strftime_local := fun _ => None;
  reformat_date := fun _ => None;
  HAS_BCRYPT := false;
  bcrypt_hashpw := fun _ _ => None;
  bcrypt_checkpw := fun _ _ => None;
  sha256_hexdigest := fun s => s;
  sqlite_compensates := false
|}.

End Py.
Import Py.

(* ===================================================================== *)
(** * The SQLite store                                                   *)
(* ===================================================================== *)

Module Sql.

(** A value as SQLite stores it in a column of INTEGER affinity and as
    sqlite3 hands it back (None, int, float, str). *)
Inductive sqlval : Type :=
| SqlNull
| SqlInt (z : Z)
| SqlReal (f : float)
| SqlText (s : string).

Definition py_of_sql (v : sqlval) : pyval :=
  match v with
  | SqlNull => PyNone
  | SqlInt z => PyInt z
  | SqlReal f => PyFloat f
  | SqlText s => PyStr s
  end.

(** A Python float bound to a REAL column, as the column hands it back:
    SQLite stores nan as NULL, and a whole number as an integer, so that
    a zero comes back as 0.0 whatever its sign. *)
Definition bind_real (f : float) : option float :=
  if is_nan f then None
  else if (f =? 0)%float then Some 0%float
  else Some f.

(** Binding a Python int: sqlite3 raises OverflowError ([None]) outside
    the signed 64-bit range. *)
Definition bind_int (z : Z) : option Z :=
  if (- 2 ^ 63 <=? z) && (z <? 2 ^ 63) then Some z else None.

(** A byte 0x80-0xBF, which continues a UTF-8 character. *)
Definition is_continuation (c : ascii) : bool :=
  ((128 <=? N_of_ascii c) && (N_of_ascii c <? 192))%N.

(** The continuation bytes a text starts with, and what follows them. *)
Fixpoint continuation (s : string) : string * string :=
  match s with
  | EmptyString => (EmptyString, EmptyString)
  | String c s' =>
      if is_continuation c
      then let (k, r) := continuation s' in (String c k, r)
      else (EmptyString, s)
  end.

(** The first character of a text and the rest, as SQLite steps over
    UTF-8: one byte, and after a byte of 0xC0 or more the continuation
    bytes that follow it; [None] at the end of the text, which for the C
    code is also a NUL byte. *)
Definition next_char (s : string) : option (string * string) :=
  match s with
  | EmptyString => None
  | String c s' =>
      if (N_of_ascii c =? 0)%N then None
      else if (192 <=? N_of_ascii c)%N
      then let (k, r) := continuation s' in Some (String c k, r)
      else Some (String c EmptyString, s')
  end.

Fixpoint drop_chars (n : nat) (s : string) : string :=
  match n with
  | O => s
  | S n' =>
      match next_char s with
      | Some (_, r) => drop_chars n' r
      | None => s
      end
  end.

Fixpoint take_chars (n : nat) (s : string) : string :=
  match n with
  | O => EmptyString
  | S n' =>
      match next_char s with
      | Some (c, r) => c ++ take_chars n' r
      | None => EmptyString
      end
  end.

(** [substr(s, start, len)] on a text, for a start of 1 or more
    (1-based) and a length of 0 or more, both counted in characters. *)
Definition substr (s : string) (start len : nat) : string :=
  take_chars len (drop_chars (start - 1) s).

(** The accumulator of SUM over doubles before SQLite 3.44: [rSum += v],
    from 0.0. *)
Definition sum_plain (values : list float) : float :=
  fold_left PrimFloat.add values 0%float.

(** One step of the Kahan-Babuska-Neumaier summation of SQLite 3.44 and
    later on the pair (rSum, rErr):
    [t = s + r; if fabs(s) > fabs(r) then rErr += (s - t) + r
     else rErr += (r - t) + s; rSum = t]. *)
Definition kbn_step (acc : float * float) (r : float) : float * float :=
  let (s, err) := acc in
  let t := (s + r)%float in
  (t,
   if (PrimFloat.abs r <? PrimFloat.abs s)%float then (err + ((s - t) + r))%float
   else (err + ((r - t) + s))%float).

(** The accumulator of SUM over doubles from SQLite 3.44 on: the steps
    from (0.0, 0.0), then [rSum + rErr], or [rSum] alone when [rErr] is
    an infinity or nan. *)
Definition sum_compensated (values : list float) : float :=
  let (s, err) := fold_left kbn_step values (0%float, 0%float) in
  if PrimFloat.is_nan err || PrimFloat.is_infinity err then s else (s + err)%float.

(** A table with an INTEGER PRIMARY KEY AUTOINCREMENT id: its rows in
    rowid order, and the largest id ever handed out. *)
Record table (R : Type) : Type := {
  tbl_rows : list (Z * R);
  tbl_seq : Z
}.
Arguments tbl_rows {R} _.
Arguments tbl_seq {R} _.

Definition empty_table {R : Type} : table R := {| tbl_rows := []; tbl_seq := 0 |}.

Definition max_id {R : Type} (t : table R) : Z :=
  fold_right (fun r acc => Z.max (fst r) acc) (tbl_seq t) (tbl_rows t).

Definition next_id {R : Type} (t : table R) : Z := max_id t + 1.

(** INSERT of one row. *)
Definition insert_row {R : Type} (r : R) (t : table R) : table R :=
  let i := next_id t in {| tbl_rows := tbl_rows t ++ [(i, r)]; tbl_seq := i |}.

(** DELETE ... WHERE p. *)
Definition delete_where {R : Type} (p : R -> bool) (t : table R) : table R :=
  {| tbl_rows := List.filter (fun r => negb (p (snd r))) (tbl_rows t);
     tbl_seq := tbl_seq t |}.

(** UPDATE ... SET f WHERE p. *)
Definition update_where {R : Type} (p : R -> bool) (f : R -> R) (t : table R) : table R :=
  {| tbl_rows := List.map (fun r => if p (snd r) then (fst r, f (snd r)) else r) (tbl_rows t);
     tbl_seq := tbl_seq t |}.

(** SELECT ... WHERE p, then [fetchone()]: the first row of a scan in
    rowid order. *)
Definition fetchone {R : Type} (p : R -> bool) (t : table R) : option R :=
  snd <$> List.find (fun r => p (snd r)) (tbl_rows t).

(** SELECT ... WHERE p ORDER BY id DESC LIMIT 1. *)
Definition latest {R : Type} (p : R -> bool) (t : table R) : option R :=
  snd <$> fold_left
    (fun best r =>
       if p (snd r) then
         match best with
         | Some b => if fst b <? fst r then Some r else best
         | None => Some r
         end
       else best)
    (tbl_rows t) None.

End Sql.
Import Sql.

(* ===================================================================== *)
(** * app/utils/db.py                                                    *)
(* ===================================================================== *)

Module Db.

(** ** The schema created by [init_db] *)

(** users: username TEXT UNIQUE NOT NULL, email TEXT, password_hash TEXT,
    reset_token TEXT, reset_expiry INTEGER. *)
Record user : Type := {
  u_username : string;
  u_email : option string;
  u_password_hash : option string;
  u_reset_token : option string;
  u_reset_expiry : sqlval
}.

(** family: username TEXT NOT NULL, member_name TEXT, relation TEXT,
    monthly_income REAL, age INTEGER, notes TEXT, is_head INTEGER,
    family_name TEXT. *)
Record member : Type := {
  f_username : string;
  f_member_name : option string;
  f_relation : option string;
  f_monthly_income : option float;
  f_age : option Z;
  f_notes : option string;
  f_is_head : option Z;
  f_family_name : option string
}.

(** expenses: username TEXT NOT NULL, date TEXT, amount REAL, category
    TEXT, assigned_member TEXT, split_json TEXT, note TEXT. *)
Record expense : Type := {
  e_username : string;
  e_date : option string;
  e_amount : option float;
  e_category : option string;
  e_assigned_member : option string;
  e_split_json : option string;
  e_note : option string
}.

(** budgets: username TEXT NOT NULL, main_budget REAL,
    category_limits_json TEXT. *)
Record budget : Type := {
  b_username : string;
  b_main_budget : option float;
  b_category_limits_json : option string
}.

(** goals: username TEXT NOT NULL, goal_name TEXT, target_amount REAL,
    months_to_complete INTEGER, created_on TEXT. *)
Record goal : Type := {
  g_username : string;
  g_goal_name : option string;
  g_target_amount : option float;
  g_months_to_complete : option Z;
  g_created_on : option string
}.

(** The database file: five independent tables. *)
Record store : Type := {
  users : table user;
  family : table member;
  expenses : table expense;
  budgets : table budget;
  goals : table goal
}.

Definition empty_store : store := {|
  users := empty_table;
  family := empty_table;
  expenses := empty_table;
  budgets := empty_table;
  goals := empty_table
|}.

Definition with_users (t : table user) (st : store) : store :=
  {| users := t; family := family st; expenses := expenses st;
     budgets := budgets st; goals := goals st |}.

Definition with_family (t : table member) (st : store) : store :=
  {| users := users st; family := t; expenses := expenses st;
     budgets := budgets st; goals := goals st |}.

Definition with_expenses (t : table expense) (st : store) : store :=
  {| users := users st; family := family st; expenses := t;
     budgets := budgets st; goals := goals st |}.

Definition with_budgets (t : table budget) (st : store) : store :=
  {| users := users st; family := family st; expenses := expenses st;
     budgets := t; goals := goals st |}.

Definition with_goals (t : table goal) (st : store) : store :=
  {| users := users st; family := family st; expenses := expenses st;
     budgets := budgets st; goals := t |}.

(** [column = ?] against a text parameter: false on NULL. *)
Definition text_is (column : option string) (param : string) : bool :=
  match column with
  | Some s => String.eqb s param
  | None => false
  end.

(** ** Password hashing helpers *)

Section Accessors.
Context (rt : runtime).

(** [hash_password(plain)]; [salt] is what [bcrypt.gensalt()] returned. *)
Definition hash_password (salt plain : string) : option string :=
  if String.eqb plain "" then Some ""
  else if HAS_BCRYPT rt then bcrypt_hashpw rt plain salt
  else Some (sha256_hexdigest rt plain).

(** [verify_password(plain, hashed)]; a missing hash is [None]. *)
Definition verify_password (plain : string) (hashed : option string) : bool :=
  match hashed with
  | None => false
  | Some h =>
      if String.eqb h "" then false
      else if HAS_BCRYPT rt then
        match bcrypt_checkpw rt plain h with
        | Some b => b
        | None => false
        end
      else String.eqb (sha256_hexdigest rt plain) h
  end.

(** ** User management *)

(** [create_user(username, email, password)].  The INSERT raises
    IntegrityError when the username is taken (UNIQUE). *)
Definition create_user (salt username : string) (email : option string)
    (password : string) (st : store) : bool * store :=
  if String.eqb username "" || String.eqb password "" then (false, st)
  else
    match hash_password salt password with
    | None => (false, st)
    | Some pw_hash =>
        if existsb (fun r => String.eqb (u_username (snd r)) username) (tbl_rows (users st))
        then (false, st)
        else
          (true,
           with_users
             (insert_row
                {| u_username := username;
                   u_email := Some (str_or_empty email);
                   u_password_hash := Some pw_hash;
                   u_reset_token := None;
                   u_reset_expiry := SqlNull |}
                (users st))
             st)
    end.

(** [login_user(username, password)]. *)
Definition login_user (username password : string) (st : store) : bool :=
  if String.eqb username "" || String.eqb password "" then false
  else
    match fetchone (fun r => String.eqb (u_username r) username) (users st) with
    | None => false
    | Some r =>
        verify_password password
          (Some (match u_password_hash r with
                 | Some h => h
                 | None => ""
                 end))
    end.

(** ** Password reset tokens *)

(** A clock reading is the double [time.time()] returned, as the rational
    it denotes.  [int(time.time())]: the reading truncated toward zero. *)
Definition int_of_time (now : Q) : Z := Z.quot (Qnum now) (Zpos (Qden now)).

(** [time.time() > expiry], a float against an int, compared exactly. *)
Definition time_after (now : Q) (expiry : Z) : bool :=
  negb (Qle_bool now (inject_Z expiry)).

Definition set_reset (token : option string) (expiry : sqlval) (r : user) : user :=
  {| u_username := u_username r;
     u_email := u_email r;
     u_password_hash := u_password_hash r;
     u_reset_token := token;
     u_reset_expiry := expiry |}.

(** [create_reset_token(email_or_username, ttl_seconds)]; [now] is the
    reading of [time.time()] and [token] what [secrets.token_urlsafe(24)]
    returned.  Nothing catches the OverflowError of the UPDATE. *)
Definition create_reset_token (email_or_username : string) (ttl_seconds : Z)
    (now : Q) (token : string) (st : store) : outcome (option string) * store :=
  match fetchone
          (fun r => String.eqb (u_username r) email_or_username
                    || text_is (u_email r) email_or_username)
          (users st) with
  | None => (Returned None, st)
  | Some row =>
      let username := u_username row in
      let expiry := int_of_time now + ttl_seconds in
      match bind_int expiry with
      | None => (Raised, st)
      | Some e =>
          (Returned (Some token),
           with_users
             (update_where (fun r => String.eqb (u_username r) username)
                (set_reset (Some token) (SqlInt e))
                (users st))
             st)
      end
  end.

(** The [try: expiry = int(expiry) if expiry else 0 / except: expiry = 0]
    of [verify_reset_token]. *)
Definition coerce_expiry (stored : sqlval) : Z :=
  let v := py_of_sql stored in
  if truthy v then
    match py_int rt v with
    | Some z => z
    | None => 0
    end
  else 0.

(** [verify_reset_token(token)] at clock reading [now]. *)
Definition verify_reset_token (token : string) (now : Q) (st : store) : option string :=
  if String.eqb token "" then None
  else
    match fetchone (fun r => text_is (u_reset_token r) token) (users st) with
    | None => None
    | Some row =>
        let expiry := coerce_expiry (u_reset_expiry row) in
        if negb (expiry =? 0) && time_after now expiry then None
        else Some (u_username row)
    end.

(** ** Family helpers *)

(** The [try: float(v or 0.0) / except: 0.0] of the add operations. *)
Definition float_or_zero (v : pyval) : float :=
  match py_float rt (py_or v (PyFloat 0)) with
  | Some f => f
  | None => 0%float
  end.

(** The [try: int(v or 0) / except: 0] of the add operations. *)
Definition int_or_zero (v : pyval) : Z :=
  match py_int rt (py_or v (PyInt 0)) with
  | Some z => z
  | None => 0
  end.

(** [add_family_member(username, member_name, relation, monthly_income,
    age, notes, is_head, family_name, **kwargs)]; [income] is the legacy
    keyword [income] of [kwargs], when it was passed. *)
Definition add_family_member (username : string) (member_name relation : option string)
    (monthly_income age : pyval) (notes : option string) (is_head : pyval)
    (family_name : option string) (income : option pyval) (st : store) : bool * store :=
  let monthly_income1 :=
    match monthly_income, income with
    | PyNone, Some legacy => PyFloat (float_or_zero legacy)
    | _, _ => monthly_income
    end in
  let monthly_income2 := float_or_zero monthly_income1 in
  let age1 := int_or_zero age in
  match bind_int age1 with
  | None => (false, st)
  | Some a =>
      (true,
       with_family
         (insert_row
            {| f_username := username;
               f_member_name := Some (str_or_empty member_name);
               f_relation := Some (str_or_empty relation);
               f_monthly_income := bind_real monthly_income2;
               f_age := Some a;
               f_notes := Some (str_or_empty notes);
               f_is_head := Some (if truthy is_head then 1 else 0);
               f_family_name := Some (str_or_empty family_name) |}
            (family st))
         st)
  end.

(** ** Expenses *)

(** [add_expense(username, amount, category, assigned_member, split, note,
    date)]; [today] is [time.strftime("%Y-%m-%d")]. *)
Definition add_expense (today username : string) (amount : pyval)
    (category assigned_member : option string) (split : option pyval)
    (note date : option string) (st : store) : bool * store :=
  let date1 :=
    match date with
    | None => today
    | Some d => d
    end in
  let amount_val :=
    match py_float rt amount with
    | Some f => f
    | None => 0%float
    end in
  let split_json :=
    match split with
    | None => ""
    | Some v =>
        match json_dumps rt v with
        | Some js => js
        | None => ""
        end
    end in
  (true,
   with_expenses
     (insert_row
        {| e_username := username;
           e_date := Some date1;
           e_amount := bind_real amount_val;
           e_category := Some (str_or_empty category);
           e_assigned_member := Some (str_or_empty assigned_member);
           e_split_json := Some split_json;
           e_note := Some (str_or_empty note) |}
        (expenses st))
     st).

(** ** Budgets *)

(** [float(main_budget) if main_budget not in (None, "") else None], with
    a failing conversion read as None. *)
Definition coerce_main_budget (main_budget : pyval) : option float :=
  match main_budget with
  | PyNone => None
  | PyStr "" => None
  | v => py_float rt v
  end.

(** The JSON text [set_budget] stores for [category_limits]. *)
Definition coerce_category_limits (category_limits : pyval) : string :=
  match category_limits with
  | PyNone => "{}"
  | PyStr s => if json_loads_ok rt s then s else "{}"
  | v =>
      match json_dumps rt v with
      | Some js => js
      | None => "{}"
      end
  end.

(** [set_budget(username, main_budget, category_limits)]. *)
Definition set_budget (username : string) (main_budget category_limits : pyval)
    (st : store) : bool * store :=
  let mb_val := coerce_main_budget main_budget in
  let cat_json := coerce_category_limits category_limits in
  let deleted := delete_where (fun b => String.eqb (b_username b) username) (budgets st) in
  (true,
   with_budgets
     (insert_row
        {| b_username := username;
           b_main_budget := mb_val ≫= bind_real;
           b_category_limits_json := Some cat_json |}
        deleted)
     st).

(** The dict [load_budget] returns. *)
Record budget_view : Type := {
  main_budget : option float;
  category_limits_json : string
}.

(** [load_budget(username)]. *)
Definition load_budget (username : string) (st : store) : budget_view :=
  match latest (fun b => String.eqb (b_username b) username) (budgets st) with
  | None => {| main_budget := None; category_limits_json := "{}" |}
  | Some row =>
      let cat_json :=
        match b_category_limits_json row with
        | Some js => if String.eqb js "" then "{}" else js
        | None => "{}"
        end in
      {| main_budget := b_main_budget row; category_limits_json := cat_json |}
  end.

(** ** Goals *)

(** The optional [created_on] of [add_goal]: a timestamp or a text. *)
Inductive created_arg : Type :=
| CreatedStamp (t : Z)
| CreatedText (s : string).

(** [add_goal(username, goal_name, target_amount, months, created_on)].
    The conversions [float(target_amount or 0.0)] and [int(months or 1)]
    stand in the outer [try], so a failing one makes the call return
    False.  A timestamp that [time.localtime] rejects is kept as the int
    it is and stored as its decimal text. *)
Definition add_goal (today username : string) (goal_name : option string)
    (target_amount months : pyval) (created_on : option created_arg)
    (st : store) : bool * store :=
  let created1 : option string :=
    match created_on with
    | None => Some today
    | Some (CreatedStamp t) =>
        match strftime_local rt t with
        | Some d => Some d
        | None => py_str <$> bind_int t
        end
    | Some (CreatedText s) =>
        match reformat_date rt s with
        | Some d => Some d
        | None => Some s
        end
    end in
  match py_float rt (py_or target_amount (PyFloat 0)),
        py_int rt (py_or months (PyInt 1)) ≫= bind_int,
        created1 with
  | Some target, Some m, Some created =>
      (true,
       with_goals
         (insert_row
            {| g_username := username;
               g_goal_name := Some (str_or_empty goal_name);
               g_target_amount := bind_real target;
               g_months_to_complete := Some m;
               g_created_on := Some created |}
            (goals st))
         st)
  | _, _, _ => (false, st)
  end.

(** ** Analytics helper *)

(** The WHERE clause of [category_breakdown] on one row, for the bound
    parameters [(username, str(year), f"{int(month):02d}")]. *)
Definition in_month (username year month : string) (e : expense) : bool :=
  String.eqb (e_username e) username
  && match e_date e with
     | Some d => String.eqb (substr d 1 4) year && String.eqb (substr d 6 2) month
     | None => false
     end.

(** SUM(amount) over a group: NULL when every amount is NULL; else the
    doubles added up in scan order, plainly or with compensation as the
    library does, and handed back as NULL when the total is nan. *)
Definition sql_sum (amounts : list (option float)) : option float :=
  match omap id amounts with
  | [] => None
  | vs =>
      let total :=
        if sqlite_compensates rt then sum_compensated vs else sum_plain vs in
      if is_nan total then None else Some total
  end.

(** The order of the GROUP BY sorter on the key: NULL first, then text
    byte by byte. *)
Definition key_leb (a b : option string) : bool :=
  match a, b with
  | None, _ => true
  | Some _, None => false
  | Some x, Some y =>
      match String.compare x y with
      | Gt => false
      | _ => true
      end
  end.

Fixpoint insert_key (k : option string) (l : list (option string)) : list (option string) :=
  match l with
  | [] => [k]
  | h :: t => if key_leb k h then k :: l else h :: insert_key k t
  end.

Definition sort_keys (l : list (option string)) : list (option string) :=
  fold_right insert_key [] l.

(** One result row per distinct category of the selected rows. *)
Definition group_row (sel : list expense) (k : option string) : option string * option float :=
  (k, sql_sum (e_amount <$> List.filter (fun e => bool_decide (e_category e = k)) sel)).

(** The rows [cur.fetchall()] returns for the query of
    [category_breakdown]. *)
Definition breakdown_query (username : string) (year month : Z) (st : store)
    : list (option string * option float) :=
  let sel := List.filter (in_month username (py_str year) (fmt_02d month))
               (snd <$> tbl_rows (expenses st)) in
  group_row sel <$> sort_keys (remove_dups (e_category <$> sel)).

(** [r["category"] or "Other"]. *)
Definition category_key (category : option string) : string :=
  match category with
  | Some c => if String.eqb c "" then "Other" else c
  | None => "Other"
  end.

(** [float(r["total"] or 0.0)]. *)
Definition total_value (total : option float) : float :=
  match total with
  | Some t => if (t =? 0)%float then 0%float else t
  | None => 0%float
  end.

(** The loop [for r in rows: out[cat] = total]. *)
Definition breakdown_rows (rows : list (option string * option float)) : gmap string float :=
  fold_left (fun out r => <[category_key (fst r) := total_value (snd r)]> out) rows ∅.

(** [category_breakdown(username, year, month)]. *)
Definition category_breakdown (username : string) (year month : Z) (st : store)
    : gmap string float :=
  breakdown_rows (breakdown_query username year month st).

End Accessors.

End Db.

(* ===================================================================== *)
(** * app/pages/1_Dashboard.py: the budget alerts                        *)
(* ===================================================================== *)

Module Dashboard.

(** Which of the two messages [render_alerts] appends for a category. *)
Inductive level : Type :=
| Exceeded
| Nearing.

(** One appended message: the category, its level and the percentage it
    prints. *)
Record alert : Type := {
  alert_category : string;
  alert_level : level;
  alert_percent : float
}.

Section Page.
Context (rt : runtime).

(** [safe_float(value, default)]. *)
Definition safe_float (value : pyval) (default : float) : float :=
  match value with
  | PyNone => default
  | v =>
      match py_float rt v with
      | Some f => f
      | None => default
      end
  end.

(** [(spent_val / limit_val) * 100 if limit_val else 0]. *)
Definition percent (limit_val spent_val : float) : float :=
  if truthy (PyFloat limit_val) then (spent_val / limit_val * 100)%float else 0%float.

(** The body of the loop of [render_alerts] after the two coercions:
    [None] when the category is skipped or stays below 80 percent. *)
Definition alert_level_of (limit_val spent_val : float) : option level :=
  if (limit_val <=? 0)%float then None
  else
    let pct := percent limit_val spent_val in
    if (100 <=? pct)%float then Some Exceeded
    else if (80 <=? pct)%float then Some Nearing
    else None.

(** One iteration of [for cat, limit in category_limits.items()]. *)
Definition category_alert (cat_spend : gmap string float) (item : string * pyval)
    : option alert :=
  let (cat, limit) := item in
  let limit_val := safe_float limit 0%float in
  let spent_val :=
    safe_float
      (match cat_spend !! cat with
       | Some spent => PyFloat spent
       | None => PyInt 0
       end)
      0%float in
  (fun l => {| alert_category := cat;
               alert_level := l;
               alert_percent := percent limit_val spent_val |})
    <$> alert_level_of limit_val spent_val.

(** The list [alerts] that [render_alerts] builds from the parsed
    [category_limits] (its items in order) and [cat_spend]. *)
Definition render_alerts (category_limits : list (string * pyval))
    (cat_spend : gmap string float) : list alert :=
  omap (category_alert cat_spend) category_limits.

End Page.

End Dashboard.

Import Db Dashboard.

(* ===================================================================== *)
(** * Views of the store used to state the properties                    *)
(* ===================================================================== *)

(** The budget rows of one user, in rowid order. *)
Definition budget_rows (u : string) (st : store) : list budget :=
  List.filter (fun b => String.eqb (b_username b) u) (snd <$> tbl_rows (budgets st)).

(** The row one call [set_budget(u, v, c)] inserts. *)
Definition budget_row (rt : runtime) (u : string) (v c : pyval) : budget :=
  {| b_username := u;
     b_main_budget := coerce_main_budget rt v ≫= bind_real;
     b_category_limits_json := Some (coerce_category_limits rt c) |}.

(** A registered user, for the examples. *)
Definition alice : user :=
  {| u_username := "alice";
     u_email := Some "a@example.org";
     u_password_hash := Some "secret";
     u_reset_token := None;
     u_reset_expiry := SqlNull |}.

(** The row the query of [verify_reset_token] fetches for a token. *)
Definition token_row (token : string) (st : store) : option user :=
  fetchone (fun r => text_is (u_reset_token r) token) (users st).

(** The row the query of [create_reset_token] fetches for an identifier. *)
Definition identified (email_or_username : string) (st : store) : option user :=
  fetchone
    (fun r => String.eqb (u_username r) email_or_username
              || text_is (u_email r) email_or_username)
    (users st).

(** alice registered on an empty database. *)
Definition alice_store : store :=
  snd (create_user bare_runtime "salt" "alice" (Some "a@example.org") "secret" empty_store).

(** alice after [create_reset_token("alice", -100)] at clock reading 100:
    the stored expiry is 100 + (-100) = 0. *)
Definition zero_expiry_store : store :=
  snd (create_reset_token "alice" (-100) 100 "tok" alice_store).

(** alice after [create_reset_token("alice")] (ttl 3600) at clock reading
    1000.5: the stored expiry is 4600. *)
Definition pending_reset_store : store :=
  snd (create_reset_token "alice" 3600 (2001 # 2) "tok" alice_store).




(** alice and bob registered, and alice holding a token drawn at clock
    reading 0 with 50 seconds to live (expiry 50). *)
Definition expired_alice_store : store :=
  snd (create_reset_token "alice" 50 0 "tok"
         (snd (create_user bare_runtime "salt" "bob" (Some "b@example.org")
                 "hunter2" alice_store))).


(** The invariant the specification states for a goal row:
    target_amount >= 0 and months_to_complete >= 1. *)
Definition goal_valid (g : goal) : bool :=
  match g_target_amount g, g_months_to_complete g with
  | Some t, Some m => (0 <=? t)%float && (1 <=? m)
  | _, _ => false
  end.

(** The text [add_goal] stores for [created_on]; [None] when the value
    cannot be bound. *)
Definition created_text (rt : runtime) (today : string) (created_on : option created_arg)
    : option string :=
  match created_on with
  | None => Some today
  | Some (CreatedStamp t) =>
      match strftime_local rt t with
      | Some d => Some d
      | None => py_str <$> bind_int t
      end
  | Some (CreatedText s) =>
      match reformat_date rt s with
      | Some d => Some d
      | None => Some s
      end
  end.

(** The text [add_expense] stores for [split]. *)
Definition split_text (rt : runtime) (split : option pyval) : string :=
  match split with
  | None => ""
  | Some v =>
      match json_dumps rt v with
      | Some js => js
      | None => ""
      end
  end.

(** A numeric argument is missing (None, or another false value) or
    [float] rejects it. *)
Definition no_float (rt : runtime) (v : pyval) : Prop :=
  truthy v = false \/ py_float rt v = None.

(** A numeric argument is missing or [int] rejects it. *)
Definition no_int (rt : runtime) (v : pyval) : Prop :=
  truthy v = false \/ py_int rt v = None.

(** The income [add_family_member] stores: the legacy keyword is read
    only when [monthly_income] is None. *)
Definition income_value (rt : runtime) (monthly_income : pyval) (income : option pyval)
    : float :=
  float_or_zero rt
    (match monthly_income, income with
     | PyNone, Some legacy => PyFloat (float_or_zero rt legacy)
     | _, _ => monthly_income
     end).

(** The income argument of [add_family_member] is missing or unparsable:
    [monthly_income] is, and so is the legacy keyword when it is the one
    read. *)
Definition no_income (rt : runtime) (monthly_income : pyval) (income : option pyval) : Prop :=
  match monthly_income, income with
  | PyNone, Some legacy => no_float rt legacy
  | _, _ => no_float rt monthly_income
  end.

(** The row [add_goal("alice", "trip", -5, -3)] stores on 2024-05-01. *)
Definition negative_goal : goal :=
  {| g_username := "alice";
     g_goal_name := Some "trip";
     g_target_amount := Some (-5)%float;
     g_months_to_complete := Some (-3);
     g_created_on := Some "2024-05-01" |}.

(** The row [add_goal("alice", "trip", 100, None)] stores on 2024-05-01. *)
Definition default_months_goal : goal :=
  {| g_username := "alice";
     g_goal_name := Some "trip";
     g_target_amount := Some 100%float;
     g_months_to_complete := Some 1;
     g_created_on := Some "2024-05-01" |}.

(** The expense rows the WHERE clause of [category_breakdown] keeps. *)
Definition selected (username : string) (year month : Z) (st : store) : list expense :=
  List.filter (in_month username (py_str year) (fmt_02d month))
    (snd <$> tbl_rows (expenses st)).

(** The selected rows that GROUP BY puts under the key [k]. *)
Definition with_key (k : option string) (sel : list expense) : list expense :=
  List.filter (fun e => bool_decide (e_category e = k)) sel.

(** The sum of the amounts of the rows grouped under [k], as the returned
    dict holds it; no entry when no row has the key. *)
Definition key_total (rt : runtime) (sel : list expense) (k : option string)
    : option float :=
  match with_key k sel with
  | [] => None
  | rs => Some (total_value (sql_sum rt (e_amount <$> rs)))
  end.

(** The exact sum of whole amounts, the NULL ones ([None]) skipped. *)
Definition whole_sum (amounts : list (option Z)) : Z :=
  fold_right Z.add 0 (omap id amounts).

(** The absolute values of whole amounts added up: below 2^53, every sum
    of some of the amounts is a double. *)
Definition whole_bound (amounts : list (option Z)) : Z :=
  fold_right (fun z acc => Z.abs z + acc) 0 (omap id amounts).

(** The amounts of the rows are the whole numbers given, as doubles, and
    NULL where [None] is given. *)
Definition whole_amounts (rows : list expense) (amounts : list (option Z)) : Prop :=
  e_amount <$> rows = (fun a => a ≫= float_of_Z) <$> amounts.

(** The dict entry one pass of the loop leaves for key [c]. *)
Definition pick (c : string) (o : option float) (r : option string * option float)
    : option float :=
  if decide (category_key (fst r) = c) then Some (total_value (snd r)) else o.




(** One expense as [add_expense] stores it. *)
Definition spent (username date category : string) (amount : float) : expense :=
  {| e_username := username;
     e_date := Some date;
     e_amount := Some amount;
     e_category := Some category;
     e_assigned_member := Some "";
     e_split_json := Some "";
     e_note := Some "" |}.

(** A database holding the given expenses, inserted in order. *)
Definition store_of_expenses (l : list expense) : store :=
  with_expenses (fold_left (fun t e => insert_row e t) l empty_table) empty_store.

(** The three expenses of the specification's example. *)
Definition example_store (username : string) : store :=
  store_of_expenses
    [ spent username "2024-05-01" "Food" 100;
      spent username "2024-05-15" "Food" 50;
      spent username "2024-06-01" "Food" 10 ].





(** An expense with no category and one in the category "Other". *)
Definition other_store : store :=
  store_of_expenses
    [ spent "alice" "2024-05-01" "" 10;
      spent "alice" "2024-05-02" "Other" 20 ].

(* ===================================================================== *)
(** * app/utils/db.py: the remaining accessors                           *)
(* ===================================================================== *)

From Stdlib Require Import Ascii.
From stdpp Require Import sorting.

Local Open Scope string_scope.
Local Open Scope Z_scope.

Module DbMore.

(** What the interpreter computes for the accessors below, next to
    [runtime]. *)
Record builtins : Type := {
  (** [str(v)] on a float or on another object *)
  str_of_value : pyval -> string;
  (** [s.isdigit()] *)
  str_isdigit : string -> bool;
  (** [json.loads(s)]; [None] when it raises *)
  json_loads : string -> option pyval
}.

(** Builtins that print nothing and parse nothing, for the examples whose
    path calls none of them. *)
Definition bare_builtins : builtins := {|
  str_of_value := fun _ => "";
  str_isdigit := fun _ => false;
  json_loads := fun _ => None
|}.

(** [str(v)]. *)
Definition py_str_of (bi : builtins) (v : pyval) : string :=
  match v with
  | PyNone => "None"
  | PyBool true => "True"
  | PyBool false => "False"
  | PyInt z => py_str z
  | PyStr s => s
  | PyFloat _ | PyObj _ => str_of_value bi v
  end.

(** [c.lower()] on one character of a byte string: the letters A-Z. *)
Definition lower_char (c : ascii) : ascii :=
  let n := N_of_ascii c in
  if ((65 <=? n) && (n <=? 90))%N then ascii_of_N (n + 32) else c.

(** [s.lower()]. *)
Fixpoint lower (s : string) : string :=
  match s with
  | EmptyString => EmptyString
  | String c s' => String (lower_char c) (lower s')
  end.

(** DELETE ... WHERE p, with the id in reach of the condition; the first
    component is [cur.rowcount]. *)
Definition delete_rows {R : Type} (p : Z * R -> bool) (t : table R) : nat * table R :=
  (length (List.filter p (tbl_rows t)),
   {| tbl_rows := List.filter (fun r => negb (p r)) (tbl_rows t);
      tbl_seq := tbl_seq t |}).

(** ORDER BY id ASC. *)
Definition id_asc {R : Type} (x y : Z * R) : Prop := fst x <= fst y.

(** ORDER BY id DESC. *)
Definition id_desc {R : Type} (x y : Z * R) : Prop := fst y <= fst x.

#[export] Instance id_asc_dec {R : Type} (x y : Z * R) : Decision (id_asc x y) :=
  Z_le_dec (fst x) (fst y).

#[export] Instance id_desc_dec {R : Type} (x y : Z * R) : Decision (id_desc x y) :=
  Z_le_dec (fst y) (fst x).

(** ORDER BY date DESC, id DESC: NULL dates sort as the smallest, text
    byte by byte. *)
Definition newest_first (x y : Z * expense) : Prop :=
  if bool_decide (e_date (snd x) = e_date (snd y))
  then fst y <= fst x
  else key_leb (e_date (snd y)) (e_date (snd x)) = true.

#[export] Instance newest_first_dec (x y : Z * expense) : Decision (newest_first x y).
Proof.
  unfold newest_first.
  destruct (bool_decide (e_date (snd x) = e_date (snd y))); apply _.
Defined.

(** The argument of the delete operations: an int, or a str. *)
Inductive identifier : Type :=
| IdInt (z : Z)
| IdStr (s : string).

(** How a delete operation reads its identifier: an id for an int and
    for a str of digits, a name otherwise. *)
Inductive target : Type :=
| ById (i : Z)
| ByName (name : string).

Section Accessors.
Context (bi : builtins) (rt : runtime).

(** ** User management *)

(** [get_user_email(username)]. *)
Definition get_user_email (username : string) (st : store) : option string :=
  match fetchone (fun r => String.eqb (u_username r) username) (users st) with
  | None => None
  | Some r =>
      match u_email r with
      | Some e => if String.eqb e "" then None else Some e
      | None => None
      end
  end.

(** [get_username(username)]. *)
Definition get_username (username : string) (st : store) : option string :=
  u_username <$> fetchone (fun r => String.eqb (u_username r) username) (users st).

(** [clear_reset_token(username)]. *)
Definition clear_reset_token (username : string) (st : store) : store :=
  with_users
    (update_where (fun r => String.eqb (u_username r) username)
       (set_reset None SqlNull) (users st))
    st.

Definition set_password (pw_hash : string) (r : user) : user :=
  {| u_username := u_username r;
     u_email := u_email r;
     u_password_hash := Some pw_hash;
     u_reset_token := None;
     u_reset_expiry := SqlNull |}.

(** [reset_password(username, new_password)]; [salt] is what
    [bcrypt.gensalt()] returned. *)
Definition reset_password (salt username new_password : string) (st : store)
    : bool * store :=
  match hash_password rt salt new_password with
  | None => (false, st)
  | Some new_hash =>
      (true,
       with_users
         (update_where (fun r => String.eqb (u_username r) username)
            (set_password new_hash) (users st))
         st)
  end.

(** ** Family helpers *)

(** [r.get(key)] on a dict of the list [save_family] is given. *)
Definition dict_get (r : gmap string pyval) (key : string) : pyval :=
  match r !! key with
  | Some v => v
  | None => PyNone
  end.

(** [str(v or "")]. *)
Definition text_or_empty (v : pyval) : string :=
  py_str_of bi (py_or v (PyStr "")).

(** [1 if str(r.get("is_head", "")).lower() in ("on", "true", "1", "yes")
    else 0]. *)
Definition head_flag (r : gmap string pyval) : Z :=
  let shown :=
    lower (py_str_of bi (match r !! "is_head" with
                         | Some v => v
                         | None => PyStr ""
                         end)) in
  if String.eqb shown "on" || String.eqb shown "true"
     || String.eqb shown "1" || String.eqb shown "yes"
  then 1 else 0.

(** The row [save_family] inserts for one dict; [None] when binding the
    age raises. *)
Definition member_of_dict (family_name : option string) (username : string)
    (r : gmap string pyval) : option member :=
  let monthly_income := float_or_zero rt (dict_get r "monthly_income") in
  let age := int_or_zero rt (dict_get r "age") in
  (fun a =>
     {| f_username := username;
        f_member_name := Some (text_or_empty (dict_get r "member_name"));
        f_relation := Some (text_or_empty (dict_get r "relation"));
        f_monthly_income := bind_real monthly_income;
        f_age := Some a;
        f_notes := Some (text_or_empty (dict_get r "notes"));
        f_is_head := Some (head_flag r);
        f_family_name := Some (str_or_empty family_name) |})
    <$> bind_int age.

(** [save_family(family_name, username, rows)].  An exception in the
    loop leaves the DELETE and the INSERTs before it uncommitted. *)
Definition save_family (family_name : option string) (username : string)
    (rows : list (gmap string pyval)) (st : store) : bool * store :=
  match mapM (member_of_dict family_name username) rows with
  | Some members =>
      (true,
       with_family
         (fold_left (fun t m => insert_row m t) members
            (delete_where (fun m => String.eqb (f_username m) username) (family st)))
         st)
  | None => (false, st)
  end.

(** [load_family(username)]: the rows with their ids. *)
Definition load_family (username : string) (st : store) : list (Z * member) :=
  merge_sort id_asc
    (List.filter (fun x => String.eqb (f_username (snd x)) username)
       (tbl_rows (family st))).

(** The branch the delete operations take on their identifier; [None]
    when [int] raises on a str of digits. *)
Definition read_identifier (ident : identifier) : option target :=
  match ident with
  | IdInt z => Some (ById z)
  | IdStr s =>
      if str_isdigit bi s then ById <$> int_of_str rt s
      else Some (ByName s)
  end.

(** [delete_family_member(username, member_identifier)]. *)
Definition delete_family_member (username : string) (ident : identifier) (st : store)
    : bool * store :=
  match read_identifier ident with
  | Some (ById mid) =>
      match bind_int mid with
      | Some i =>
          let (rc, t) :=
            delete_rows
              (fun x => String.eqb (f_username (snd x)) username && (fst x =? i))
              (family st) in
          (0 <? rc, with_family t st)%nat
      | None => (false, st)
      end
  | Some (ByName name) =>
      let (rc, t) :=
        delete_rows
          (fun x => String.eqb (f_username (snd x)) username
                    && text_is (f_member_name (snd x)) name)
          (family st) in
      (0 <? rc, with_family t st)%nat
  | None => (false, st)
  end.

(** ** Expenses *)

(** One dict of [load_expenses]: the row with its id, and [split] parsed
    from [split_json]. *)
Record expense_view : Type := {
  ev_id : Z;
  ev_row : expense;
  ev_split : option pyval
}.

(** [json.loads(sj) if sj else None], None when it raises. *)
Definition parse_split (split_json : option string) : option pyval :=
  match split_json with
  | Some sj => if String.eqb sj "" then None else json_loads bi sj
  | None => None
  end.

(** [load_expenses(username)]. *)
Definition load_expenses (username : string) (st : store) : list expense_view :=
  (fun x => {| ev_id := fst x; ev_row := snd x; ev_split := parse_split (e_split_json (snd x)) |})
    <$> merge_sort newest_first
          (List.filter (fun x => String.eqb (e_username (snd x)) username)
             (tbl_rows (expenses st))).

(** ** Budgets *)

(** [get_user_budget(username)]. *)
Definition get_user_budget (username : string) (st : store) : option float :=
  main_budget (load_budget username st).

(** ** Goals *)

(** [load_goals(username)]: the rows with their ids. *)
Definition load_goals (username : string) (st : store) : list (Z * goal) :=
  merge_sort id_desc
    (List.filter (fun x => String.eqb (g_username (snd x)) username)
       (tbl_rows (goals st))).

(** [delete_goal(username, goal_identifier)]. *)
Definition delete_goal (username : string) (ident : identifier) (st : store)
    : bool * store :=
  match read_identifier ident with
  | Some (ById gid) =>
      match bind_int gid with
      | Some i =>
          let (rc, t) :=
            delete_rows
              (fun x => String.eqb (g_username (snd x)) username && (fst x =? i))
              (goals st) in
          (0 <? rc, with_goals t st)%nat
      | None => (false, st)
      end
  | Some (ByName name) =>
      let (rc, t) :=
        delete_rows
          (fun x => String.eqb (g_username (snd x)) username
                    && text_is (g_goal_name (snd x)) name)
          (goals st) in
      (0 <? rc, with_goals t st)%nat
  | None => (false, st)
  end.

(** ** Notification helpers *)

(** [get_monthly_family_expenses(username)] when [datetime.now()] falls
    in the given year and month: [IFNULL(SUM(amount), 0)] as a float. *)
Definition get_monthly_family_expenses (username : string) (year month : Z) (st : store)
    : float :=
  match sql_sum rt
          (e_amount <$> List.filter (in_month username (py_str year) (fmt_02d month))
                          (snd <$> tbl_rows (expenses st))) with
  | Some total => total
  | None => 0%float
  end.

End Accessors.

End DbMore.
Import DbMore.

(* ===================================================================== *)
(** * app/pages/1_Dashboard.py: the active goal                          *)
(* ===================================================================== *)

Module DashboardMore.

(** What the page prints under "Active Goal" for [goals =
    load_goals(username)]: the name and [safe_float(target_amount)] of
    [goals[-1]], or nothing when there is no goal. *)
Definition active_goal (rt : runtime) (username : string) (st : store)
    : option (option string * float) :=
  (fun g =>
     (g_goal_name (snd g),
      safe_float rt
        (match g_target_amount (snd g) with
         | Some t => PyFloat t
         | None => PyNone
         end)
        0%float))
    <$> last (load_goals username st).

End DashboardMore.
Import DashboardMore.

(* ===================================================================== *)
(** * Further views of the store                                         *)
(* ===================================================================== *)

(** The usernames of the users table, in rowid order. *)
Definition usernames (st : store) : list string :=
  (fun x => u_username (snd x)) <$> tbl_rows (users st).

(** The row [create_user] inserts. *)
Definition new_user (username : string) (email : option string) (pw_hash : string) : user :=
  {| u_username := username;
     u_email := Some (str_or_empty email);
     u_password_hash := Some pw_hash;
     u_reset_token := None;
     u_reset_expiry := SqlNull |}.

(** Every stored row that holds the token belongs to the user. *)
Definition token_only_of (tok u : string) (st : store) : Prop :=
  forall i r, In (i, r) (tbl_rows (users st)) ->
              u_reset_token r = Some tok -> u_username r = u.

(** The ids of a table, in rowid order. *)
Definition ids {R : Type} (t : table R) : list Z := fst <$> tbl_rows t.

(** What AUTOINCREMENT keeps of a table: a scan meets the ids in
    increasing order. *)
Definition table_ok {R : Type} (t : table R) : Prop := StronglySorted Z.lt (ids t).

(** The WHERE clause of [delete_family_member] after the username, for
    the branch taken. *)
Definition member_hit (tg : target) (x : Z * member) : bool :=
  match tg with
  | ById i => fst x =? i
  | ByName name => text_is (f_member_name (snd x)) name
  end.

(** The WHERE clause of [delete_goal] after the username, for the branch
    taken. *)
Definition goal_hit (tg : target) (x : Z * goal) : bool :=
  match tg with
  | ById i => fst x =? i
  | ByName name => text_is (g_goal_name (snd x)) name
  end.

(** The identifier is one the driver can bind: a name, or an id within
    the signed 64-bit range. *)
Definition bindable (tg : target) : Prop :=
  match tg with
  | ById i => - 2 ^ 63 <= i < 2 ^ 63
  | ByName _ => True
  end.

(** The spellings [save_family] reads as a head of family. *)
Definition head_spellings : list string := ["on"; "true"; "1"; "yes"].

(** One row for [save_family], for the examples. *)
Definition ann_row : gmap string pyval :=
  <["member_name" := PyStr "Ann"]> (<["is_head" := PyBool true]> ∅).

(** alice's family after one [save_family]. *)
Definition ann_store : store :=
  snd (save_family bare_builtins bare_runtime (Some "Home") "alice" [ann_row] empty_store).

(** alice's first goal. *)
Definition goal_store : store :=
  snd (add_goal bare_runtime "2024-05-01" "alice" (Some "Bike") (PyInt 100) (PyInt 2) None
         empty_store).

(* ===================================================================== *)
(** * Facts about the comparisons of doubles                             *)
(* ===================================================================== *)

Section FloatOrder.

Lemma compare_cont_opp (p q : positive) :
  PosDef.Pos.compare_cont Eq q p = CompOpp (PosDef.Pos.compare_cont Eq p q).
Proof. symmetry. exact (Pos.compare_cont_antisym p q Eq). Qed.

Lemma SFcompare_antisym (x y : spec_float) :
  SFcompare y x = CompOpp <$> SFcompare x y.
Proof.
  destruct x as [sx|sx| |sx mx ex], y as [sy|sy| |sy my ey]; simpl;
    try reflexivity;
    try (destruct sx; reflexivity);
    try (destruct sy; reflexivity);
    try (destruct sx, sy; reflexivity).
  destruct sx, sy; simpl; try reflexivity;
    rewrite (Z.compare_antisym ex ey), (compare_cont_opp mx my);
    destruct (ex ?= ey)%Z; simpl; try reflexivity;
    destruct (PosDef.Pos.compare_cont Eq mx my); reflexivity.
Qed.

Lemma SFcompare_refl (x : spec_float) :
  x <> S754_nan -> SFcompare x x = Some Eq.
Proof.
  destruct x as [s|s| |s m e]; simpl; intros Hx; try congruence.
  - destruct s; reflexivity.
  - rewrite Z.compare_refl.
    change (PosDef.Pos.compare_cont Eq m m) with (m ?= m)%positive.
    rewrite Pos.compare_refl. destruct s; reflexivity.
Qed.

Lemma ltb_not_leb (x y : float) : (x <? y)%float = true -> (y <=? x)%float = false.
Proof.
  rewrite FloatAxioms.ltb_spec, FloatAxioms.leb_spec. unfold SFltb, SFleb.
  rewrite (SFcompare_antisym (Prim2SF x) (Prim2SF y)).
  destruct (SFcompare (Prim2SF x) (Prim2SF y)) as [[]|]; simpl; congruence.
Qed.

Lemma eqb_leb (x y : float) : (x =? y)%float = true -> (x <=? y)%float = true.
Proof.
  rewrite FloatAxioms.eqb_spec, FloatAxioms.leb_spec. unfold SFeqb, SFleb.
  destruct (SFcompare (Prim2SF x) (Prim2SF y)) as [[]|]; simpl; congruence.
Qed.

Lemma leb_not_nan (x y : float) : (x <=? y)%float = true -> is_nan y = false.
Proof.
  rewrite FloatAxioms.leb_spec. unfold is_nan.
  rewrite FloatAxioms.eqb_spec. unfold SFleb, SFeqb. intros H.
  rewrite SFcompare_refl; [reflexivity|].
  intros E. rewrite E in H. destruct (Prim2SF x); discriminate.
Qed.

Lemma SFleb_finite_mono (m1 m2 : positive) (e0 : Z) (y : spec_float) :
  (m1 <= m2)%positive ->
  SFleb (S754_finite false m2 e0) y = true ->
  SFleb (S754_finite false m1 e0) y = true.
Proof.
  intros Hm. unfold SFleb.
  destruct y as [s|s| |s m e]; simpl; try congruence.
  destruct s; try congruence.
  destruct (e0 ?= e)%Z; try congruence.
  destruct (PosDef.Pos.compare_cont Eq m2 m) eqn:E2; try discriminate; intros _;
    destruct (PosDef.Pos.compare_cont Eq m1 m) eqn:E1; try reflexivity;
    change (m1 > m)%positive in E1; exfalso.
  - change ((m2 ?= m)%positive = Eq) in E2. apply Pos.compare_eq_iff in E2. lia.
  - change (m2 < m)%positive in E2. lia.
Qed.

Lemma leb_100_80 (x : float) : (100 <=? x)%float = true -> (80 <=? x)%float = true.
Proof.
  rewrite !FloatAxioms.leb_spec.
  change (Prim2SF 100) with (S754_finite false 7036874417766400 (-46)).
  change (Prim2SF 80) with (S754_finite false 5629499534213120 (-46)).
  apply SFleb_finite_mono. lia.
Qed.

End FloatOrder.

(* ===================================================================== *)
(** * Budget alerts                                                      *)
(* ===================================================================== *)

Section Alerts.

Lemma percent_positive_limit (limit_val spent_val : float) :
  (limit_val <=? 0)%float = false ->
  percent limit_val spent_val = (spent_val / limit_val * 100)%float.
Proof.
  intros H. unfold percent, truthy.
  destruct (limit_val =? 0)%float eqn:E; [|reflexivity].
  apply eqb_leb in E. congruence.
Qed.

(** C2: a category whose limit is at most 0 is skipped whatever was
    spent; otherwise, with percent = spent / limit * 100, percent >= 100
    gives the exceeded level, 80 <= percent < 100 the nearing level and
    percent < 80 no alert.  On the page itself, a limit of 100 with 79
    spent gives no alert, with 80 spent a nearing alert, with 100 spent an
    exceeded alert, and a limit of 0 gives none for any spend. *)
Theorem alert_thresholds (rt : runtime) (limit_val spent_val : float) :
  ((limit_val <=? 0)%float = true -> alert_level_of limit_val spent_val = None)
  /\ ((limit_val <=? 0)%float = false ->
      ((100 <=? spent_val / limit_val * 100)%float = true ->
         alert_level_of limit_val spent_val = Some Exceeded)
      /\ ((80 <=? spent_val / limit_val * 100)%float = true ->
          (spent_val / limit_val * 100 <? 100)%float = true ->
          alert_level_of limit_val spent_val = Some Nearing)
      /\ ((spent_val / limit_val * 100 <? 80)%float = true ->
          alert_level_of limit_val spent_val = None))
  /\ render_alerts rt [("Food", PyInt 100)] {["Food" := 79%float]} = []
  /\ render_alerts rt [("Food", PyInt 100)] {["Food" := 80%float]}
     = [ {| alert_category := "Food"; alert_level := Nearing; alert_percent := 80 |} ]
  /\ render_alerts rt [("Food", PyInt 100)] {["Food" := 100%float]}
     = [ {| alert_category := "Food"; alert_level := Exceeded; alert_percent := 100 |} ]
  /\ render_alerts rt [("Food", PyInt 0)] {["Food" := spent_val]} = [].
Proof.
  split; [|split].
  - intros H. unfold alert_level_of. rewrite H. reflexivity.
  - intros H. unfold alert_level_of. rewrite H, (percent_positive_limit _ _ H).
    split; [|split].
    + intros H100. rewrite H100. reflexivity.
    + intros H80 Hlt. rewrite (ltb_not_leb _ _ Hlt), H80. reflexivity.
    + intros Hlt. pose proof (ltb_not_leb _ _ Hlt) as H80.
      destruct (100 <=? spent_val / limit_val * 100)%float eqn:H100.
      * apply leb_100_80 in H100. congruence.
      * rewrite H80. reflexivity.
  - repeat split; vm_compute; reflexivity.
Qed.

(** Which alerts [render_alerts] raises: one for every configured
    category whose limit, read by [safe_float], is not at most 0 and
    whose percentage, its entry of the month's spending (0 without one)
    divided by the limit and times 100, is at least 80; the alert names
    the category, carries that percentage, and is of the exceeded level
    from 100 on and of the nearing level below. *)
Theorem render_alerts_which (rt : runtime) (category_limits : list (string * pyval))
    (cat_spend : gmap string float) (a : alert) :
  a ∈ render_alerts rt category_limits cat_spend
  <-> exists (cat : string) (limit : pyval),
        (cat, limit) ∈ category_limits
        /\ (safe_float rt limit 0 <=? 0)%float = false
        /\ (80 <=? default 0%float (cat_spend !! cat) / safe_float rt limit 0 * 100)%float
           = true
        /\ a = {| alert_category := cat;
                  alert_level :=
                    if (100 <=? default 0%float (cat_spend !! cat)
                                / safe_float rt limit 0 * 100)%float
                    then Exceeded else Nearing;
                  alert_percent :=
                    (default 0%float (cat_spend !! cat)
                     / safe_float rt limit 0 * 100)%float |}.
Proof.
  unfold render_alerts. rewrite list_elem_of_omap.
  assert (Hspent : forall cat,
            safe_float rt
              (match cat_spend !! cat with
               | Some spent => PyFloat spent
               | None => PyInt 0
               end) 0
            = default 0%float (cat_spend !! cat)).
  { intros cat. destruct (cat_spend !! cat); reflexivity. }
  split.
  - intros ([cat limit] & Hin & Ha). exists cat, limit. split; [exact Hin|].
    unfold category_alert in Ha. rewrite Hspent in Ha.
    unfold alert_level_of in Ha.
    destruct (safe_float rt limit 0 <=? 0)%float eqn:Hl; [discriminate|].
    rewrite (percent_positive_limit _ _ Hl) in Ha. split; [reflexivity|].
    destruct (100 <=? _)%float eqn:H100.
    + split; [now apply leb_100_80|]. now injection Ha as <-.
    + destruct (80 <=? _)%float eqn:H80; [|discriminate].
      split; [reflexivity|]. now injection Ha as <-.
  - intros (cat & limit & Hin & Hl & H80 & ->). exists (cat, limit). split; [exact Hin|].
    unfold category_alert. rewrite Hspent. unfold alert_level_of.
    rewrite Hl, (percent_positive_limit _ _ Hl).
    destruct (100 <=? _)%float; [reflexivity|]. rewrite H80. reflexivity.
Qed.

End Alerts.

(* ===================================================================== *)
(** * User registration                                                  *)
(* ===================================================================== *)

Section Registration.
Context (rt : runtime).

Lemma username_taken (u : string) (st : store) (i : Z) (row : user) :
  In (i, row) (tbl_rows (users st)) ->
  u_username row = u ->
  existsb (fun r => String.eqb (u_username (snd r)) u) (tbl_rows (users st)) = true.
Proof.
  intros Hin Hu. apply existsb_exists.
  exists (i, row). split; [exact Hin|]. simpl. now apply String.eqb_eq.
Qed.

(** C6: when a row with username [u] is stored, [create_user(u, e, p)]
    returns False and leaves the store as it was: no row is inserted and
    the stored row keeps its email, password hash and token fields. *)
Theorem create_user_duplicate (salt u : string) (e : option string) (p : string)
    (st : store) (i : Z) (row : user) :
  In (i, row) (tbl_rows (users st)) ->
  u_username row = u ->
  create_user rt salt u e p st = (false, st)
  /\ tbl_rows (users (snd (create_user rt salt u e p st))) = tbl_rows (users st)
  /\ In (i, row) (tbl_rows (users (snd (create_user rt salt u e p st)))).
Proof.
  intros Hin Hu.
  assert (E : create_user rt salt u e p st = (false, st)).
  { unfold create_user.
    destruct (String.eqb u "" || String.eqb p ""); [reflexivity|].
    destruct (hash_password rt salt p); [|reflexivity].
    rewrite (username_taken u st i row Hin Hu). reflexivity. }
  rewrite E. repeat split. exact Hin.
Qed.

End Registration.

(** Registering alice twice: the second call is rejected. *)
Lemma create_user_duplicate_witness :
  create_user bare_runtime "pepper" "alice" (Some "b@example.org") "other"
    (snd (create_user bare_runtime "salt" "alice" (Some "a@example.org") "secret" empty_store))
  = (false, snd (create_user bare_runtime "salt" "alice" (Some "a@example.org") "secret" empty_store)).
Proof.
  refine (proj1 (create_user_duplicate bare_runtime "pepper" "alice" (Some "b@example.org") "other"
           (snd (create_user bare_runtime "salt" "alice" (Some "a@example.org") "secret" empty_store))
           1 alice _ _)).
  - vm_compute. left. reflexivity.
  - reflexivity.
Defined.


(* ===================================================================== *)
(** * Password hashing                                                   *)
(* ===================================================================== *)

Section Passwords.
Context (rt : runtime).

Lemma hash_password_empty (salt : string) : hash_password rt salt "" = Some "".
Proof. reflexivity. Qed.

(** An empty or missing stored hash verifies no plaintext. *)
Lemma verify_password_no_hash (plain : string) (hashed : option string) :
  hashed = None \/ hashed = Some "" ->
  verify_password rt plain hashed = false.
Proof. intros [->| ->]; reflexivity. Qed.

(** The empty password is hashed to the empty string, which then
    verifies nothing, the empty password included. *)
Lemma verify_password_empty (salt : string) :
  verify_password rt "" (hash_password rt salt "") = false.
Proof. reflexivity. Qed.

(** On the SHA-256 path a non-empty password verifies against its own
    hash, the digest being non-empty. *)
Lemma verify_password_sha256_accepts (salt plain : string) :
  HAS_BCRYPT rt = false ->
  plain <> "" ->
  sha256_hexdigest rt plain <> "" ->
  verify_password rt plain (hash_password rt salt plain) = true.
Proof.
  intros Hb Hp Hd. unfold hash_password, verify_password.
  apply String.eqb_neq in Hp. apply String.eqb_neq in Hd.
  rewrite Hp, Hb, Hd. apply String.eqb_refl.
Qed.

(** On the SHA-256 path another plaintext is rejected exactly when its
    digest differs: the code compares digests and nothing else. *)
Lemma verify_password_sha256_rejects (salt plain other : string) :
  HAS_BCRYPT rt = false ->
  plain <> "" ->
  sha256_hexdigest rt plain <> "" ->
  verify_password rt other (hash_password rt salt plain) = false
  <-> sha256_hexdigest rt other <> sha256_hexdigest rt plain.
Proof.
  intros Hb Hp Hd. unfold hash_password, verify_password.
  apply String.eqb_neq in Hp. apply String.eqb_neq in Hd.
  rewrite Hp, Hb, Hd. apply String.eqb_neq.
Qed.

(** On the bcrypt path the answer is the library's: a raised exception
    counts as a mismatch. *)
Lemma verify_password_bcrypt (salt plain other h : string) :
  HAS_BCRYPT rt = true ->
  plain <> "" ->
  bcrypt_hashpw rt plain salt = Some h ->
  h <> "" ->
  hash_password rt salt plain = Some h
  /\ verify_password rt other (Some h)
     = match bcrypt_checkpw rt other h with
       | Some b => b
       | None => false
       end.
Proof.
  intros Hb Hp Hh Hne. unfold hash_password, verify_password.
  apply String.eqb_neq in Hp. apply String.eqb_neq in Hne.
  rewrite Hp, Hb, Hh, Hne. split; reflexivity.
Qed.

(** A user whose stored hash is NULL or empty cannot log in. *)
Lemma login_user_no_hash (username password : string) (st : store) (row : user) :
  fetchone (fun r => String.eqb (u_username r) username) (users st) = Some row ->
  u_password_hash row = None \/ u_password_hash row = Some "" ->
  login_user rt username password st = false.
Proof.
  intros Hrow Hhash. unfold login_user.
  destruct (String.eqb username "" || String.eqb password ""); [reflexivity|].
  rewrite Hrow. apply verify_password_no_hash. right.
  destruct Hhash as [->| ->]; reflexivity.
Qed.

End Passwords.

(** With no stored hash, no password logs in. *)
Lemma verify_password_no_hash_witness :
  verify_password bare_runtime "secret" None = false.
Proof.
  apply (verify_password_no_hash bare_runtime "secret" None). left. reflexivity.
Defined.

(** On the SHA-256 path the password that was hashed logs in. *)
Lemma verify_password_sha256_accepts_witness :
  verify_password bare_runtime "secret" (hash_password bare_runtime "salt" "secret") = true.
Proof.
  apply (verify_password_sha256_accepts bare_runtime "salt" "secret");
    [reflexivity|discriminate|discriminate].
Defined.

(* ===================================================================== *)
(** * Budgets                                                            *)
(* ===================================================================== *)

Section Budgets.
Context (rt : runtime).

Lemma latest_none {R : Type} (p : R -> bool) (l : list (Z * R)) (best : option (Z * R)) :
  Forall (fun r => p (snd r) = false) l ->
  fold_left
    (fun best r =>
       if p (snd r) then
         match best with
         | Some b => if fst b <? fst r then Some r else best
         | None => Some r
         end
       else best) l best = best.
Proof.
  intros H. revert best. induction H as [|r l Hr _ IH]; intros best; simpl.
  - reflexivity.
  - rewrite Hr. apply IH.
Qed.

Lemma latest_single {R : Type} (p : R -> bool) (l : list (Z * R)) (i : Z) (r : R) (s : Z) :
  Forall (fun x => p (snd x) = false) l ->
  p r = true ->
  latest p {| tbl_rows := l ++ [(i, r)]; tbl_seq := s |} = Some r.
Proof.
  intros Hl Hr. unfold latest. simpl.
  rewrite fold_left_app, (latest_none p l None Hl). simpl. rewrite Hr. reflexivity.
Qed.

Lemma deleted_none {R : Type} (p : R -> bool) (l : list (Z * R)) :
  Forall (fun x => p (snd x) = false)
    (List.filter (fun r => negb (p (snd r))) l).
Proof.
  apply List.Forall_forall. intros x Hx. apply List.filter_In in Hx.
  destruct Hx as [_ Hx]. now apply negb_true_iff in Hx.
Qed.

Lemma filter_none {R : Type} (p : R -> bool) (l : list R) :
  Forall (fun x => p x = false) l -> List.filter p l = [].
Proof.
  induction 1 as [|x l Hx _ IH]; simpl; [reflexivity|]. now rewrite Hx.
Qed.

Lemma set_budget_rows (u : string) (v c : pyval) (st : store) :
  set_budget rt u v c st =
    (true,
     with_budgets
       (insert_row (budget_row rt u v c)
          (delete_where (fun b => String.eqb (b_username b) u) (budgets st))) st).
Proof. reflexivity. Qed.

Lemma set_budget_one_row (u : string) (v c : pyval) (st : store) :
  budget_rows u (snd (set_budget rt u v c st)) = [budget_row rt u v c].
Proof.
  unfold budget_rows. rewrite set_budget_rows. simpl.
  rewrite fmap_app. simpl. rewrite List.filter_app. simpl.
  rewrite String.eqb_refl.
  rewrite filter_none; [reflexivity|].
  apply List.Forall_forall. intros b Hb.
  apply list_elem_of_In, list_elem_of_fmap in Hb. destruct Hb as (x & -> & Hx).
  apply list_elem_of_In, List.filter_In in Hx. destruct Hx as [_ Hx].
  now apply negb_true_iff in Hx.
Qed.

Lemma set_budget_others (u u' : string) (v c : pyval) (st : store) :
  u' <> u ->
  budget_rows u' (snd (set_budget rt u v c st)) = budget_rows u' st.
Proof.
  intros Hne. unfold budget_rows. rewrite set_budget_rows. simpl.
  rewrite fmap_app. simpl. rewrite List.filter_app. simpl.
  assert (E : String.eqb u u' = false) by (apply String.eqb_neq; congruence).
  rewrite E, app_nil_r.
  induction (tbl_rows (budgets st)) as [|x l IH]; simpl; [reflexivity|].
  destruct (String.eqb (b_username x.2) u) eqn:Ex; simpl.
  - apply String.eqb_eq in Ex.
    assert (E' : String.eqb (b_username x.2) u' = false) by (apply String.eqb_neq; congruence).
    rewrite E'. exact IH.
  - destruct (String.eqb (b_username x.2) u'); [f_equal|]; exact IH.
Qed.

Lemma load_after_set (u : string) (v c : pyval) (st : store) :
  load_budget u (snd (set_budget rt u v c st)) =
    {| main_budget := coerce_main_budget rt v ≫= bind_real;
       category_limits_json :=
         if String.eqb (coerce_category_limits rt c) "" then "{}"
         else coerce_category_limits rt c |}.
Proof.
  unfold load_budget. rewrite set_budget_rows. simpl.
  unfold insert_row. simpl.
  rewrite (latest_single (fun b => String.eqb (b_username b) u) _ _ (budget_row rt u v c)).
  - reflexivity.
  - apply (deleted_none (fun b => String.eqb (b_username b) u)).
  - simpl. apply String.eqb_refl.
Qed.

(** C3: [set_budget] is a full replace.  Two successive calls for [u]
    both return True and leave exactly one budget row for [u].
    [load_budget(u)] then returns what the second call gave, whatever the
    first call and the rows before it were: as main budget, None for None
    and for the empty text, and else [float(v2)], read back as None when
    it raises or is nan and as 0.0 when it is a zero; as limits, "{}" for
    None, a text itself when [json.loads] accepts it and it is not empty
    and "{}" otherwise, and for another value its [json.dumps], "{}" when
    that raises or is empty.  Calls with 500 and then 700, no limits,
    leave 700.0 and "{}" to read. *)
Theorem set_budget_replaces (u : string) (v1 c1 v2 c2 : pyval) (st : store) :
  fst (set_budget rt u v1 c1 st) = true
  /\ fst (set_budget rt u v2 c2 (snd (set_budget rt u v1 c1 st))) = true
  /\ (exists b,
        budget_rows u (snd (set_budget rt u v2 c2 (snd (set_budget rt u v1 c1 st)))) = [b]
        /\ b_username b = u)
  /\ main_budget
       (load_budget u (snd (set_budget rt u v2 c2 (snd (set_budget rt u v1 c1 st)))))
     = (match v2 with
        | PyNone | PyStr "" => None
        | _ =>
            match py_float rt v2 with
            | None => None
            | Some f =>
                if is_nan f then None
                else if (f =? 0)%float then Some 0%float
                else Some f
            end
        end)
  /\ category_limits_json
       (load_budget u (snd (set_budget rt u v2 c2 (snd (set_budget rt u v1 c1 st)))))
     = (match c2 with
        | PyNone => "{}"
        | PyStr s => if json_loads_ok rt s && negb (String.eqb s "") then s else "{}"
        | _ =>
            match json_dumps rt c2 with
            | Some js => if String.eqb js "" then "{}" else js
            | None => "{}"
            end
        end)
  /\ load_budget u
       (snd (set_budget rt u (PyInt 700) PyNone
               (snd (set_budget rt u (PyInt 500) c1 st))))
     = {| main_budget := Some 700%float; category_limits_json := "{}" |}.
Proof.
  split; [reflexivity|]. split; [reflexivity|]. split; [|split; [|split]].
  - exists (budget_row rt u v2 c2). split; [apply set_budget_one_row|reflexivity].
  - rewrite load_after_set. cbn [main_budget].
    unfold coerce_main_budget, bind_real.
    destruct v2 as [|b|z|f|s|t]; try (destruct (py_float rt _); reflexivity).
    + reflexivity.
    + destruct s as [|a s]; [reflexivity|].
      destruct (py_float rt _); reflexivity.
  - rewrite load_after_set. cbn [category_limits_json].
    unfold coerce_category_limits.
    destruct c2 as [|b|z|f|s|t]; try (destruct (json_dumps rt _); reflexivity).
    + reflexivity.
    + destruct (json_loads_ok rt s); [|reflexivity].
      destruct (String.eqb s ""); reflexivity.
  - rewrite load_after_set. reflexivity.
Qed.

End Budgets.

(** Setting alice's budget leaves bob's row alone. *)
Lemma set_budget_others_witness :
  budget_rows "bob"
    (snd (set_budget bare_runtime "alice" (PyInt 700) PyNone
            (snd (set_budget bare_runtime "bob" (PyInt 500) PyNone empty_store))))
  = budget_rows "bob" (snd (set_budget bare_runtime "bob" (PyInt 500) PyNone empty_store)).
Proof.
  apply (set_budget_others bare_runtime "alice" "bob"). discriminate.
Defined.

(* ===================================================================== *)
(** * Password reset tokens                                              *)
(* ===================================================================== *)

Section ResetTokens.
Context (rt : runtime).

Lemma time_after_spec (now : Q) (expiry : Z) :
  time_after now expiry = true <-> (inject_Z expiry < now)%Q.
Proof.
  unfold time_after. rewrite negb_true_iff.
  split.
  - intros H. apply Qnot_le_lt. intros Hle.
    apply Qle_bool_iff in Hle. congruence.
  - intros H. destruct (Qle_bool now (inject_Z expiry)) eqn:E; [|reflexivity].
    apply Qle_bool_iff in E. exfalso. exact (Qlt_not_le _ _ H E).
Qed.

Lemma int_of_time_floor (now : Q) :
  (0 <= now)%Q -> int_of_time now = Qfloor now.
Proof.
  destruct now as [n d]. unfold Qle, int_of_time, Qfloor. simpl.
  intros H. apply Z.quot_div_nonneg; lia.
Qed.

Lemma not_expired_at_once (now : Q) (ttl : Z) :
  (0 <= now)%Q -> 1 <= ttl -> time_after now (int_of_time now + ttl) = false.
Proof.
  intros Hnow Httl. apply not_true_iff_false. rewrite time_after_spec.
  rewrite (int_of_time_floor now Hnow). apply Qle_not_lt.
  apply Qle_trans with (inject_Z (Qfloor now + 1)).
  - apply Qlt_le_weak, Qlt_floor.
  - rewrite <- Zle_Qle. lia.
Qed.

Lemma coerce_expiry_int (e : Z) : coerce_expiry rt (SqlInt e) = e.
Proof.
  unfold coerce_expiry. simpl. destruct (Z.eqb_spec e 0); simpl; congruence.
Qed.

Lemma fetchone_some {R : Type} (p : R -> bool) (t : table R) (r : R) :
  fetchone p t = Some r -> p r = true /\ exists i, In (i, r) (tbl_rows t).
Proof.
  unfold fetchone. destruct (List.find _ _) as [[i x]|] eqn:E; simpl; [|discriminate].
  intros [= <-]. apply List.find_some in E. simpl in E. destruct E. eauto.
Qed.

(** What [verify_reset_token] returns, by cases on the fetched row. *)
Lemma verify_reset_token_cases (token : string) (now : Q) (st : store) :
  verify_reset_token rt token now st =
    if String.eqb token "" then None
    else
      match token_row token st with
      | None => None
      | Some row =>
          if negb (coerce_expiry rt (u_reset_expiry row) =? 0)
             && time_after now (coerce_expiry rt (u_reset_expiry row))
          then None
          else Some (u_username row)
      end.
Proof. reflexivity. Qed.

Lemma verify_reset_token_none (token : string) (now : Q) (st : store) :
  verify_reset_token rt token now st = None
  <-> token = ""
      \/ token_row token st = None
      \/ exists row,
           token_row token st = Some row
           /\ coerce_expiry rt (u_reset_expiry row) <> 0
           /\ (inject_Z (coerce_expiry rt (u_reset_expiry row)) < now)%Q.
Proof.
  rewrite verify_reset_token_cases.
  destruct (String.eqb_spec token "") as [->|Hne].
  { split; auto. }
  destruct (token_row token st) as [row|].
  2:{ split; auto. }
  destruct (Z.eqb_spec (coerce_expiry rt (u_reset_expiry row)) 0) as [E0|E0]; simpl.
  - split; [discriminate|].
    intros [?|[?|(r & [= <-] & H & _)]]; congruence.
  - destruct (time_after now _) eqn:Et.
    + split; [|reflexivity]. intros _. right. right. exists row.
      repeat split; [exact E0|]. now apply time_after_spec.
    + split; [discriminate|].
      intros [?|[?|(r & [= <-] & _ & H)]]; try congruence.
      apply time_after_spec in H. congruence.
Qed.

(** The stored token after the UPDATE of [create_reset_token]. *)
Lemma fetch_updated_token (u tok : string) (e : Z) (l : list (Z * user)) :
  (exists i r, In (i, r) l /\ u_username r = u) ->
  (forall i r, In (i, r) l -> u_reset_token r = Some tok -> u_username r = u) ->
  exists i r,
    In (i, r) l /\ u_username r = u
    /\ List.find (fun x => text_is (u_reset_token (snd x)) tok)
         (List.map
            (fun x => if String.eqb (u_username (snd x)) u
                      then (fst x, set_reset (Some tok) (SqlInt e) (snd x)) else x)
            l)
       = Some (i, set_reset (Some tok) (SqlInt e) r).
Proof.
  induction l as [|[j x] l IH]; intros (i & r & Hin & Hu) Hfresh.
  - destruct Hin.
  - simpl. destruct (String.eqb_spec (u_username x) u) as [Hx|Hx]; simpl.
    + rewrite String.eqb_refl. exists j, x. auto.
    + destruct (text_is (u_reset_token x) tok) eqn:Et.
      * exfalso. apply Hx. apply (Hfresh j x); [now left|].
        unfold text_is in Et. destruct (u_reset_token x) as [s|]; [|discriminate].
        apply String.eqb_eq in Et. now subst.
      * destruct IH as (i' & r' & Hin' & Hu' & Hf).
        -- destruct Hin as [[= -> ->]|Hin]; [congruence|eauto].
        -- intros i' r' Hin'. apply (Hfresh i' r'). now right.
        -- exists i', r'. split; [now right|]. split; [exact Hu'|exact Hf].
Qed.


(** C4, as amended.  Let [create_reset_token] find a user for the
    identifier (by username or by email) and draw a non-empty token that
    no other user holds, at clock reading [now] with time to live [ttl],
    and let expiry = int(now) + ttl.  When the expiry fits a signed 64-bit
    integer the call returns the token, and otherwise it raises and
    stores nothing.  [verify_reset_token] on the returned token then
    yields the username of the user found at every clock reading that is
    not past the expiry, and at every reading when the expiry is 0; it
    yields None at every reading strictly past an expiry that is not 0.
    So for a clock that is not negative and a time to live of at least
    one second, the verification that follows at once yields the
    username, and every reading past the expiry yields None.  In general
    [verify_reset_token] returns None exactly when the token is empty, or
    no stored row holds it, or the expiry of the fetched row, read as an
    integer, is not zero and the clock is strictly past it. *)
Theorem reset_token_round_trip (email_or_username : string) (ttl : Z) (now : Q)
    (tok : string) (st : store) (row : user) :
  identified email_or_username st = Some row ->
  tok <> "" ->
  (forall i r, In (i, r) (tbl_rows (users st)) ->
               u_reset_token r = Some tok -> u_username r = u_username row) ->
  (String.eqb (u_username row) email_or_username
   || text_is (u_email row) email_or_username = true)
  /\ (~ - 2 ^ 63 <= int_of_time now + ttl < 2 ^ 63 ->
      create_reset_token email_or_username ttl now tok st = (Raised, st))
  /\ (- 2 ^ 63 <= int_of_time now + ttl < 2 ^ 63 ->
      fst (create_reset_token email_or_username ttl now tok st) = Returned (Some tok)
      /\ forall t : Q,
           (int_of_time now + ttl = 0 \/ (t <= inject_Z (int_of_time now + ttl))%Q ->
            verify_reset_token rt tok t
              (snd (create_reset_token email_or_username ttl now tok st))
            = Some (u_username row))
           /\ (int_of_time now + ttl <> 0 ->
               (inject_Z (int_of_time now + ttl) < t)%Q ->
               verify_reset_token rt tok t
                 (snd (create_reset_token email_or_username ttl now tok st))
               = None))
  /\ ((0 <= now)%Q -> 1 <= ttl -> int_of_time now + ttl < 2 ^ 63 ->
      fst (create_reset_token email_or_username ttl now tok st) = Returned (Some tok)
      /\ verify_reset_token rt tok now
           (snd (create_reset_token email_or_username ttl now tok st))
         = Some (u_username row)
      /\ forall later : Q,
           (inject_Z (int_of_time now + ttl) < later)%Q ->
           verify_reset_token rt tok later
             (snd (create_reset_token email_or_username ttl now tok st))
           = None)
  /\ (forall (token : string) (t : Q) (st0 : store),
        verify_reset_token rt token t st0 = None
        <-> token = ""
            \/ token_row token st0 = None
            \/ exists r,
                 token_row token st0 = Some r
                 /\ coerce_expiry rt (u_reset_expiry r) <> 0
                 /\ (inject_Z (coerce_expiry rt (u_reset_expiry r)) < t)%Q).
Proof.
  intros Hid Htok Hfresh.
  pose proof (fetchone_some _ _ _ Hid) as [Hmatch [i0 Hin0]].
  assert (Hne : String.eqb tok "" = false) by now apply String.eqb_neq.
  assert (Hfits : - 2 ^ 63 <= int_of_time now + ttl < 2 ^ 63 ->
            fst (create_reset_token email_or_username ttl now tok st) = Returned (Some tok)
            /\ forall t : Q,
                 verify_reset_token rt tok t
                   (snd (create_reset_token email_or_username ttl now tok st))
                 = if negb (int_of_time now + ttl =? 0)
                      && time_after t (int_of_time now + ttl)
                   then None else Some (u_username row)).
  { intros Hr.
    assert (Hbind : bind_int (int_of_time now + ttl) = Some (int_of_time now + ttl)).
    { unfold bind_int.
      destruct (Z.leb_spec (- 2 ^ 63) (int_of_time now + ttl)); [|lia].
      destruct (Z.ltb_spec (int_of_time now + ttl) (2 ^ 63)); [reflexivity|lia]. }
    assert (Hcreate :
      create_reset_token email_or_username ttl now tok st =
        (Returned (Some tok),
         with_users
           (update_where (fun r => String.eqb (u_username r) (u_username row))
              (set_reset (Some tok) (SqlInt (int_of_time now + ttl))) (users st)) st)).
    { unfold create_reset_token. unfold identified in Hid. rewrite Hid, Hbind. reflexivity. }
    destruct (fetch_updated_token (u_username row) tok (int_of_time now + ttl)
                (tbl_rows (users st))) as (i & r & Hin & Hu & Hfind);
      [eauto|exact Hfresh|].
    rewrite Hcreate. split; [reflexivity|]. intros t.
    rewrite verify_reset_token_cases, Hne.
    replace (token_row tok _)
      with (Some (set_reset (Some tok) (SqlInt (int_of_time now + ttl)) r)).
    2:{ unfold token_row, fetchone, update_where. simpl. rewrite Hfind. reflexivity. }
    cbn [u_reset_expiry set_reset u_username]. rewrite coerce_expiry_int, Hu.
    reflexivity. }
  split; [exact Hmatch|]. split; [|split; [|split]].
  - intros Hover. unfold create_reset_token. unfold identified in Hid. rewrite Hid.
    cbv zeta. unfold bind_int.
    destruct (Z.leb_spec (- 2 ^ 63) (int_of_time now + ttl)); [|reflexivity].
    destruct (Z.ltb_spec (int_of_time now + ttl) (2 ^ 63)); [|reflexivity].
    exfalso. apply Hover. lia.
  - intros Hr. destruct (Hfits Hr) as [Hc Hv]. split; [exact Hc|].
    intros t. rewrite Hv. split.
    + intros [E|Hle].
      * rewrite E. reflexivity.
      * assert (Ht : time_after t (int_of_time now + ttl) = false).
        { apply not_true_iff_false. rewrite time_after_spec. now apply Qle_not_lt. }
        rewrite Ht, andb_false_r. reflexivity.
    + intros Hnz Hlt. apply time_after_spec in Hlt. rewrite Hlt.
      apply Z.eqb_neq in Hnz. rewrite Hnz. reflexivity.
  - intros Hnow Httl Hmax.
    assert (Hfloor : 0 <= int_of_time now).
    { rewrite (int_of_time_floor now Hnow).
      apply (Qfloor_resp_le 0 now) in Hnow. exact Hnow. }
    destruct Hfits as [Hc Hv]; [lia|]. split; [exact Hc|]. split.
    + rewrite Hv, (not_expired_at_once now ttl Hnow Httl), andb_false_r. reflexivity.
    + intros later Hlater. rewrite Hv. apply time_after_spec in Hlater. rewrite Hlater.
      assert (Hnz : (int_of_time now + ttl =? 0) = false) by (apply Z.eqb_neq; lia).
      rewrite Hnz. reflexivity.
  - intros token t st0. apply verify_reset_token_none.
Qed.


End ResetTokens.

(** alice asks for a token at 1000.5 and verifies it at once. *)
Lemma reset_token_round_trip_witness :
  verify_reset_token bare_runtime "tok" (2001 # 2) pending_reset_store = Some "alice".
Proof.
  refine (proj1 (proj2 (proj1 (proj2 (proj2 (proj2
    (reset_token_round_trip bare_runtime "alice" 3600 (2001 # 2) "tok" alice_store alice
       _ _ _)))) _ _ _))).
  - vm_compute. reflexivity.
  - discriminate.
  - intros i r Hin Htok. vm_compute in Hin.
    destruct Hin as [[= <- <-]|[]]. discriminate.
  - unfold Qle. simpl. lia.
  - lia.
  - vm_compute. reflexivity.
Defined.

(** The claim as stated fails in several ways.  On a stored expiry of
    zero the row holds the token, the clock (101) is strictly past the
    stored expiry (0), and the username is returned all the same.  With a
    time to live of 0 at clock reading 1000.5 the token is returned,
    expires at 1000, and the verification that follows at once yields
    None.  With a time to live of 2^63 the call raises.  When the token
    drawn is the empty text, the verification that follows yields None.
    And when the token drawn for bob is one that alice holds, expired,
    the verification that follows fetches alice's row and yields None. *)
Lemma verify_reset_token_zero_expiry :
  token_row "tok" zero_expiry_store = Some (set_reset (Some "tok") (SqlInt 0) alice)
  /\ (inject_Z 0 < 101)%Q
  /\ (forall rt : runtime,
        verify_reset_token rt "tok" 101 zero_expiry_store = Some "alice")
  /\ fst (create_reset_token "alice" 0 (2001 # 2) "tok" alice_store)
     = Returned (Some "tok")
  /\ (forall rt : runtime,
        verify_reset_token rt "tok" (2001 # 2)
          (snd (create_reset_token "alice" 0 (2001 # 2) "tok" alice_store))
        = None)
  /\ create_reset_token "alice" (2 ^ 63) 0 "tok" alice_store = (Raised, alice_store)
  /\ fst (create_reset_token "alice" 3600 1000 "" alice_store) = Returned (Some "")
  /\ (forall rt : runtime,
        verify_reset_token rt "" 1000
          (snd (create_reset_token "alice" 3600 1000 "" alice_store))
        = None)
  /\ fst (create_reset_token "bob" 3600 100 "tok" expired_alice_store)
     = Returned (Some "tok")
  /\ (forall rt : runtime,
        verify_reset_token rt "tok" 100
          (snd (create_reset_token "bob" 3600 100 "tok" expired_alice_store))
        = None).
Proof.
  split; [vm_compute; reflexivity|]. split; [reflexivity|].
  split; [|split; [|split; [|split; [|split; [|split; [|split]]]]]].
  - intros rt. rewrite verify_reset_token_cases.
    change (token_row "tok" zero_expiry_store)
      with (Some (set_reset (Some "tok") (SqlInt 0) alice)).
    reflexivity.
  - vm_compute. reflexivity.
  - intros rt. rewrite verify_reset_token_cases.
    change (token_row "tok" (snd (create_reset_token "alice" 0 (2001 # 2) "tok" alice_store)))
      with (Some (set_reset (Some "tok") (SqlInt 1000) alice)).
    reflexivity.
  - vm_compute. reflexivity.
  - vm_compute. reflexivity.
  - intros rt. reflexivity.
  - vm_compute. reflexivity.
  - intros rt. rewrite verify_reset_token_cases.
    change (token_row "tok"
              (snd (create_reset_token "bob" 3600 100 "tok" expired_alice_store)))
      with (Some (set_reset (Some "tok") (SqlInt 50) alice)).
    reflexivity.
Qed.



(* ===================================================================== *)
(** * Coercion of numeric fields in the add operations                   *)
(* ===================================================================== *)

Section Coercions.
Context (rt : runtime).

Lemma bind_int_some (z m : Z) : bind_int z = Some m -> m = z /\ - 2 ^ 63 <= z < 2 ^ 63.
Proof.
  unfold bind_int.
  destruct (Z.leb_spec (- 2 ^ 63) z); simpl; [|discriminate].
  destruct (Z.ltb_spec z (2 ^ 63)); [|discriminate].
  intros [= <-]. lia.
Qed.

Lemma bind_int_small (z : Z) : - 2 ^ 63 <= z < 2 ^ 63 -> bind_int z = Some z.
Proof.
  intros H. unfold bind_int.
  destruct (Z.leb_spec (- 2 ^ 63) z); [|lia].
  destruct (Z.ltb_spec z (2 ^ 63)); [reflexivity|lia].
Qed.

Lemma bind_real_nonneg (t : float) :
  (0 <=? t)%float = true ->
  exists t', bind_real t = Some t' /\ (0 <=? t')%float = true.
Proof.
  intros H. unfold bind_real. rewrite (leb_not_nan _ _ H).
  destruct (t =? 0)%float; eauto.
Qed.

Lemma float_or_zero_default (v : pyval) : no_float rt v -> float_or_zero rt v = 0%float.
Proof.
  unfold no_float, float_or_zero, py_or.
  destruct (truthy v) eqn:E; intros [H|H]; try discriminate.
  - now rewrite H.
  - reflexivity.
  - reflexivity.
Qed.

Lemma int_or_zero_default (v : pyval) : no_int rt v -> int_or_zero rt v = 0.
Proof.
  unfold no_int, int_or_zero, py_or.
  destruct (truthy v) eqn:E; intros [H|H]; try discriminate.
  - now rewrite H.
  - reflexivity.
  - reflexivity.
Qed.

(** What a successful [add_goal] converted and stored. *)
Lemma add_goal_success (today u : string) (name : option string) (target months : pyval)
    (created : option created_arg) (st st' : store) :
  add_goal rt today u name target months created st = (true, st') ->
  exists (t : float) (m : Z) (c : string),
    py_float rt (py_or target (PyFloat 0)) = Some t
    /\ py_int rt (py_or months (PyInt 1)) = Some m
    /\ created_text rt today created = Some c
    /\ st' = with_goals
               (insert_row
                  {| g_username := u;
                     g_goal_name := Some (str_or_empty name);
                     g_target_amount := bind_real t;
                     g_months_to_complete := Some m;
                     g_created_on := Some c |}
                  (goals st)) st.
Proof.
  unfold add_goal. fold (created_text rt today created).
  destruct (py_float rt (py_or target (PyFloat 0))) as [t|]; [|discriminate].
  destruct (py_int rt (py_or months (PyInt 1))) as [m|]; simpl; [|discriminate].
  destruct (bind_int m) as [m'|] eqn:Em; simpl; [|discriminate].
  destruct (created_text rt today created) as [c|]; [|discriminate].
  intros [= <-]. apply bind_int_some in Em. destruct Em as [-> _].
  exists t, m, c. auto.
Qed.

Lemma py_or_default (v d : pyval) : truthy v = false -> py_or v d = d.
Proof. intros H. unfold py_or. now rewrite H. Qed.

(** C7, as amended: a successful [add_goal] appends one row whose
    target_amount is [float(target_amount or 0.0)] and whose
    months_to_complete is [int(months or 1)]: a missing or zero target is
    stored as 0.0, missing or zero months as 1, and every other value as
    converted, so the stored row has target_amount >= 0 and
    months_to_complete >= 1 whenever the converted values have. *)
Theorem add_goal_stored_values (today u : string) (name : option string)
    (target months : pyval) (created : option created_arg) (st st' : store) :
  add_goal rt today u name target months created st = (true, st') ->
  exists (t : float) (m : Z) (c : string),
    py_float rt (py_or target (PyFloat 0)) = Some t
    /\ py_int rt (py_or months (PyInt 1)) = Some m
    /\ tbl_rows (goals st')
       = (tbl_rows (goals st)
          ++ [(next_id (goals st),
               {| g_username := u;
                  g_goal_name := Some (str_or_empty name);
                  g_target_amount := bind_real t;
                  g_months_to_complete := Some m;
                  g_created_on := Some c |})])%list
    /\ (truthy target = false -> t = 0%float)
    /\ (truthy months = false -> m = 1)
    /\ ((0 <=? t)%float = true -> 1 <= m ->
        goal_valid
          {| g_username := u;
             g_goal_name := Some (str_or_empty name);
             g_target_amount := bind_real t;
             g_months_to_complete := Some m;
             g_created_on := Some c |} = true).
Proof.
  intros H. apply add_goal_success in H.
  destruct H as (t & m & c & Ht & Hm & _ & ->).
  exists t, m, c. repeat split; try assumption.
  - intros E. rewrite (py_or_default _ _ E) in Ht. simpl in Ht. congruence.
  - intros E. rewrite (py_or_default _ _ E) in Hm. simpl in Hm. congruence.
  - intros H0 H1. unfold goal_valid. simpl.
    destruct (bind_real_nonneg t H0) as (t' & -> & ->). simpl. now apply Z.leb_le.
Qed.

(** The conversions of [add_goal] are not guarded: a target that [float]
    rejects makes the whole call fail and store nothing. *)
Lemma add_goal_unparsable_target (today u : string) (name : option string)
    (target months : pyval) (created : option created_arg) (st : store) :
  truthy target = true ->
  py_float rt target = None ->
  add_goal rt today u name target months created st = (false, st).
Proof.
  intros Ht Hf. unfold add_goal, py_or. rewrite Ht, Hf. reflexivity.
Qed.


Lemma income_value_default (income : pyval) (legacy : option pyval) :
  no_income rt income legacy -> income_value rt income legacy = 0%float.
Proof.
  unfold no_income, income_value.
  destruct income, legacy as [l|]; intros H;
    try (now apply float_or_zero_default).
  rewrite (float_or_zero_default l H). reflexivity.
Qed.

Lemma add_family_member_bound (u : string) (name relation : option string)
    (income age : pyval) (notes : option string) (is_head : pyval)
    (family_name : option string) (legacy : option pyval) (st : store) (a : Z) :
  bind_int (int_or_zero rt age) = Some a ->
  add_family_member rt u name relation income age notes is_head family_name legacy st
  = (true,
     with_family
       (insert_row
          {| f_username := u;
             f_member_name := Some (str_or_empty name);
             f_relation := Some (str_or_empty relation);
             f_monthly_income := bind_real (income_value rt income legacy);
             f_age := Some a;
             f_notes := Some (str_or_empty notes);
             f_is_head := Some (if truthy is_head then 1 else 0);
             f_family_name := Some (str_or_empty family_name) |}
          (family st)) st).
Proof.
  intros H. unfold add_family_member. rewrite H. reflexivity.
Qed.

(** C8, as amended.  [add_expense] with an amount that [float] rejects
    (None included) returns True and stores 0.0.  [add_family_member] with
    a missing or unparsable age returns True and stores age 0; with a
    missing or unparsable income it stores 0.0 and returns True when the
    age fits a 64-bit integer.  [add_goal] stores 0.0 for a missing target
    and 1 for missing months, and returns True when the other number
    converts. *)
Theorem add_operations_coerce (today u : string) (st : store) :
  (forall (amount : pyval) (category member : option string) (split : option pyval)
          (note date : option string),
      py_float rt amount = None ->
      add_expense rt today u amount category member split note date st
      = (true,
         with_expenses
           (insert_row
              {| e_username := u;
                 e_date := Some (match date with Some d => d | None => today end);
                 e_amount := Some 0%float;
                 e_category := Some (str_or_empty category);
                 e_assigned_member := Some (str_or_empty member);
                 e_split_json := Some (split_text rt split);
                 e_note := Some (str_or_empty note) |}
              (expenses st)) st))
  /\ (forall (name relation : option string) (income age : pyval) (notes : option string)
             (is_head : pyval) (family_name : option string) (legacy : option pyval),
        no_int rt age ->
        add_family_member rt u name relation income age notes is_head family_name legacy st
        = (true,
           with_family
             (insert_row
                {| f_username := u;
                   f_member_name := Some (str_or_empty name);
                   f_relation := Some (str_or_empty relation);
                   f_monthly_income := bind_real (income_value rt income legacy);
                   f_age := Some 0;
                   f_notes := Some (str_or_empty notes);
                   f_is_head := Some (if truthy is_head then 1 else 0);
                   f_family_name := Some (str_or_empty family_name) |}
                (family st)) st))
  /\ (forall (name relation : option string) (income age : pyval) (notes : option string)
             (is_head : pyval) (family_name : option string) (legacy : option pyval) (a : Z),
        no_income rt income legacy ->
        bind_int (int_or_zero rt age) = Some a ->
        add_family_member rt u name relation income age notes is_head family_name legacy st
        = (true,
           with_family
             (insert_row
                {| f_username := u;
                   f_member_name := Some (str_or_empty name);
                   f_relation := Some (str_or_empty relation);
                   f_monthly_income := Some 0%float;
                   f_age := Some a;
                   f_notes := Some (str_or_empty notes);
                   f_is_head := Some (if truthy is_head then 1 else 0);
                   f_family_name := Some (str_or_empty family_name) |}
                (family st)) st))
  /\ (forall (name : option string) (target months : pyval) (created : option created_arg)
             (m : Z) (c : string),
        truthy target = false ->
        py_int rt (py_or months (PyInt 1)) = Some m ->
        - 2 ^ 63 <= m < 2 ^ 63 ->
        created_text rt today created = Some c ->
        add_goal rt today u name target months created st
        = (true,
           with_goals
             (insert_row
                {| g_username := u;
                   g_goal_name := Some (str_or_empty name);
                   g_target_amount := Some 0%float;
                   g_months_to_complete := Some m;
                   g_created_on := Some c |}
                (goals st)) st))
  /\ (forall (name : option string) (target months : pyval) (created : option created_arg)
             (t : float) (c : string),
        truthy months = false ->
        py_float rt (py_or target (PyFloat 0)) = Some t ->
        created_text rt today created = Some c ->
        add_goal rt today u name target months created st
        = (true,
           with_goals
             (insert_row
                {| g_username := u;
                   g_goal_name := Some (str_or_empty name);
                   g_target_amount := bind_real t;
                   g_months_to_complete := Some 1;
                   g_created_on := Some c |}
                (goals st)) st)).
Proof.
  split; [|split; [|split; [|split]]].
  - intros amount category member split note date H.
    unfold add_expense. rewrite H. reflexivity.
  - intros name relation income age notes is_head family_name legacy H.
    apply add_family_member_bound.
    rewrite (int_or_zero_default age H). reflexivity.
  - intros name relation income age notes is_head family_name legacy a Hi Ha.
    rewrite (add_family_member_bound _ _ _ _ _ _ _ _ _ _ a Ha).
    rewrite (income_value_default income legacy Hi). reflexivity.
  - intros name target months created m c Ht Hm Hr Hc.
    unfold add_goal. fold (created_text rt today created).
    rewrite (py_or_default _ _ Ht), Hm, Hc. simpl.
    rewrite (bind_int_small m Hr). reflexivity.
  - intros name target months created t c Hm Ht Hc.
    unfold add_goal. fold (created_text rt today created).
    rewrite (py_or_default _ _ Hm), Ht, Hc. reflexivity.
Qed.

End Coercions.

(** The claim as stated fails on negative inputs: the call succeeds and
    the stored row has target_amount -5.0 and months_to_complete -3. *)
Lemma add_goal_negative :
  (forall rt : runtime,
     add_goal rt "2024-05-01" "alice" (Some "trip") (PyInt (-5)) (PyInt (-3)) None empty_store
     = (true, with_goals (insert_row negative_goal empty_table) empty_store))
  /\ goal_valid negative_goal = false.
Proof.
  split; [|reflexivity].
  intros rt. vm_compute. reflexivity.
Qed.

(** A goal of 5000 with no months given: stored as 5000.0 over 1 month. *)
Lemma add_goal_stored_values_witness :
  exists (t : float) (m : Z) (c : string),
    py_float bare_runtime (py_or (PyInt 5000) (PyFloat 0)) = Some t
    /\ py_int bare_runtime (py_or PyNone (PyInt 1)) = Some m
    /\ tbl_rows (goals (snd (add_goal bare_runtime "2024-05-01" "alice" (Some "trip")
                               (PyInt 5000) PyNone None empty_store)))
       = (tbl_rows (goals empty_store)
          ++ [(next_id (goals empty_store),
               {| g_username := "alice";
                  g_goal_name := Some (str_or_empty (Some "trip"));
                  g_target_amount := bind_real t;
                  g_months_to_complete := Some m;
                  g_created_on := Some c |})])%list
    /\ (truthy (PyInt 5000) = false -> t = 0%float)
    /\ (truthy PyNone = false -> m = 1)
    /\ ((0 <=? t)%float = true -> 1 <= m ->
        goal_valid
          {| g_username := "alice";
             g_goal_name := Some (str_or_empty (Some "trip"));
             g_target_amount := bind_real t;
             g_months_to_complete := Some m;
             g_created_on := Some c |} = true).
Proof.
  apply (add_goal_stored_values bare_runtime "2024-05-01" "alice" (Some "trip")
           (PyInt 5000) PyNone None empty_store).
  vm_compute. reflexivity.
Defined.

(** The claim as stated fails on the integer field of [add_goal]: for
    missing months the call stores 1, not 0. *)
Lemma add_goal_missing_months :
  (forall rt : runtime,
     add_goal rt "2024-05-01" "alice" (Some "trip") (PyInt 100) PyNone None empty_store
     = (true, with_goals (insert_row default_months_goal empty_table) empty_store))
  /\ g_months_to_complete default_months_goal = Some 1
  /\ g_months_to_complete default_months_goal <> Some 0.
Proof.
  split; [|split; [reflexivity|discriminate]].
  intros rt. vm_compute. reflexivity.
Qed.

(** A list is no number: [add_goal] gives up on it. *)
Lemma add_goal_unparsable_target_witness :
  add_goal bare_runtime "2024-05-01" "alice" (Some "trip") (PyObj true) (PyInt 6) None
    empty_store
  = (false, empty_store).
Proof.
  apply (add_goal_unparsable_target bare_runtime); reflexivity.
Defined.

(* ===================================================================== *)
(** * Whole numbers in binary64                                          *)
(* ===================================================================== *)

Section Exact.

(** The digits of a positive number. *)
Lemma digits2_pos_bounds (p : positive) :
  2 ^ (Zpos (digits2_pos p) - 1) <= Zpos p < 2 ^ Zpos (digits2_pos p).
Proof.
  induction p as [p IH|p IH|]; simpl digits2_pos.
  - rewrite Pos2Z.inj_succ.
    replace (Z.succ (Zpos (digits2_pos p)) - 1) with (Zpos (digits2_pos p)) by lia.
    rewrite Z.pow_succ_r by lia.
    assert (E : 2 ^ Zpos (digits2_pos p) = 2 * 2 ^ (Zpos (digits2_pos p) - 1)).
    { rewrite <- Z.pow_succ_r by lia. f_equal. lia. }
    lia.
  - rewrite Pos2Z.inj_succ.
    replace (Z.succ (Zpos (digits2_pos p)) - 1) with (Zpos (digits2_pos p)) by lia.
    rewrite Z.pow_succ_r by lia.
    assert (E : 2 ^ Zpos (digits2_pos p) = 2 * 2 ^ (Zpos (digits2_pos p) - 1)).
    { rewrite <- Z.pow_succ_r by lia. f_equal. lia. }
    lia.
  - simpl. lia.
Qed.

Lemma digits2_pos_unique (p : positive) (d : Z) :
  2 ^ (d - 1) <= Zpos p < 2 ^ d -> Zpos (digits2_pos p) = d.
Proof.
  intros H. pose proof (digits2_pos_bounds p) as B.
  assert (Hd : 0 < d).
  { destruct (Z.ltb_spec 0 d); [assumption|].
    assert (2 ^ d <= 1).
    { destruct (Z.eq_dec d 0) as [->|]; [simpl; lia|].
      rewrite Z.pow_neg_r by lia. lia. }
    lia. }
  destruct (Z.lt_trichotomy (Zpos (digits2_pos p)) d) as [L|[E|G]]; [|exact E|].
  - assert (2 ^ Zpos (digits2_pos p) <= 2 ^ (d - 1)) by (apply Z.pow_le_mono_r; lia). lia.
  - assert (2 ^ d <= 2 ^ (Zpos (digits2_pos p) - 1)) by (apply Z.pow_le_mono_r; lia). lia.
Qed.

Lemma digits2_pos_shift (p m : positive) (k : Z) :
  0 <= k -> Zpos m = Zpos p * 2 ^ k ->
  Zpos (digits2_pos m) = Zpos (digits2_pos p) + k.
Proof.
  intros Hk E. apply digits2_pos_unique. rewrite E.
  pose proof (digits2_pos_bounds p) as B.
  replace (Zpos (digits2_pos p) + k - 1) with (Zpos (digits2_pos p) - 1 + k) by lia.
  rewrite !Z.pow_add_r by lia.
  assert (0 < 2 ^ k) by (apply Z.pow_pos_nonneg; lia).
  nia.
Qed.

Lemma iter_xO (p d : positive) : Zpos (Pos.iter xO p d) = Zpos p * 2 ^ Zpos d.
Proof.
  revert p. induction d as [|d IH] using Pos.peano_ind; intros p.
  - simpl. lia.
  - rewrite Pos.iter_succ, Pos2Z.inj_succ, Z.pow_succ_r by lia.
    rewrite Pos2Z.inj_xO, IH. lia.
Qed.

Lemma iter_pos_nat {A : Type} (f : A -> A) (p : positive) (x : A) :
  SpecFloat.iter_pos f p x = Nat.iter (Pos.to_nat p) f x.
Proof.
  revert x. induction p as [p IH|p IH|]; intros x; simpl SpecFloat.iter_pos.
  - rewrite !IH.
    assert (E : Pos.to_nat p~1 = (Pos.to_nat p + Pos.to_nat p + 1)%nat) by lia.
    rewrite E, !Nat.iter_add. reflexivity.
  - rewrite !IH.
    assert (E : Pos.to_nat p~0 = (Pos.to_nat p + Pos.to_nat p)%nat) by lia.
    rewrite E, Nat.iter_add. reflexivity.
  - reflexivity.
Qed.

Lemma shr_nat_exact (k : nat) (n m : positive) :
  Zpos m = Zpos n * 2 ^ Z.of_nat k ->
  Nat.iter k shr_1 {| shr_m := Zpos m; shr_r := false; shr_s := false |}
  = {| shr_m := Zpos n; shr_r := false; shr_s := false |}.
Proof.
  revert m. induction k as [|k IH]; intros m E.
  - simpl in *. f_equal. lia.
  - rewrite Nat.iter_succ_r.
    rewrite Nat2Z.inj_succ, Z.pow_succ_r in E by lia.
    destruct m as [m|m|]; try lia.
    simpl. apply IH. lia.
Qed.

Lemma shr_exact (d n m : positive) :
  Zpos m = Zpos n * 2 ^ Zpos d ->
  SpecFloat.iter_pos shr_1 d {| shr_m := Zpos m; shr_r := false; shr_s := false |}
  = {| shr_m := Zpos n; shr_r := false; shr_s := false |}.
Proof.
  intros E. rewrite iter_pos_nat. apply shr_nat_exact.
  now rewrite positive_nat_Z.
Qed.

(** Rounding a mantissa that has exactly [prec] digits changes nothing. *)
Lemma binary_round_aux_canonical (s : bool) (n : positive) (c : Z) :
  Zpos (digits2_pos n) = 53 -> -1074 <= c <= 971 ->
  binary_round_aux prec emax s (Zpos n) c loc_Exact = S754_finite s n c.
Proof.
  intros Hd Hc. unfold binary_round_aux, shr_fexp. simpl Zdigits2.
  assert (F : fexp prec emax (Zpos (digits2_pos n) + c) - c = 0).
  { rewrite Hd. unfold fexp, emin, prec, emax. lia. }
  match goal with
  | |- context [shr _ c ?t] => replace t with 0 by (symmetry; exact F)
  end.
  cbn [shr shr_record_of_loc shr_m loc_of_shr_record round_nearest_even Zdigits2].
  match goal with
  | |- context [shr _ c ?t] => replace t with 0 by (symmetry; exact F)
  end.
  cbn [shr shr_record_of_loc shr_m].
  assert (L : (c <=? emax - prec) = true).
  { apply Z.leb_le. unfold emax, prec. lia. }
  match goal with
  | |- (if ?b then _ else _) = _ => replace b with true by (symmetry; exact L)
  end.
  reflexivity.
Qed.

(** Rounding a mantissa whose low bits beyond [prec] digits are zeros
    drops them. *)
Lemma binary_round_aux_zeros (s : bool) (n m j : positive) (e : Z) :
  Zpos m = Zpos n * 2 ^ Zpos j ->
  Zpos (digits2_pos n) = 53 -> -1074 <= e + Zpos j <= 971 ->
  binary_round_aux prec emax s (Zpos m) e loc_Exact = S754_finite s n (e + Zpos j).
Proof.
  intros E Dn Hc.
  rewrite <- (binary_round_aux_canonical s n (e + Zpos j) Dn Hc).
  assert (Dm : Zpos (digits2_pos m) = 53 + Zpos j).
  { rewrite (digits2_pos_shift n m (Zpos j)); [lia|lia|exact E]. }
  assert (F : fexp prec emax (Zpos (digits2_pos m) + e) - e = Zpos j).
  { rewrite Dm. unfold fexp, emin, prec, emax. lia. }
  assert (F0 : fexp prec emax (Zpos (digits2_pos n) + (e + Zpos j)) - (e + Zpos j) = 0).
  { rewrite Dn. unfold fexp, emin, prec, emax. lia. }
  unfold binary_round_aux at 1 2. unfold shr_fexp at 1 3.
  cbn [Zdigits2].
  match goal with
  | |- context [shr _ e ?t] => replace t with (Zpos j) by (symmetry; exact F)
  end.
  match goal with
  | |- context [shr _ (e + Zpos j) ?t] => replace t with 0 by (symmetry; exact F0)
  end.
  cbn [shr shr_record_of_loc].
  rewrite (shr_exact j n m E). reflexivity.
Qed.

(** A number of at most [prec] digits, scaled by a power of two, rounds
    to itself. *)
Lemma binary_round_exact (s : bool) (p m : positive) (k : Z) :
  0 <= k -> Zpos (digits2_pos p) <= 53 -> Zpos m = Zpos p * 2 ^ k ->
  exists n,
    Zpos n = Zpos p * 2 ^ (53 - Zpos (digits2_pos p))
    /\ binary_round prec emax s m (- k) = S754_finite s n (Zpos (digits2_pos p) - 53).
Proof.
  intros Hk Hd E.
  set (d := Zpos (digits2_pos p)) in *.
  assert (Hd0 : 0 < d) by (unfold d; lia).
  assert (Hn : exists n, Zpos n = Zpos p * 2 ^ (53 - d)).
  { assert (0 < Zpos p * 2 ^ (53 - d)).
    { apply Z.mul_pos_pos; [lia|]. apply Z.pow_pos_nonneg; lia. }
    destruct (Zpos p * 2 ^ (53 - d)) as [|n|n] eqn:En; try lia. now exists n. }
  destruct Hn as [n Hn]. exists n. split; [exact Hn|].
  assert (Dm : Zpos (digits2_pos m) = d + k) by (now apply digits2_pos_shift).
  assert (Dn : Zpos (digits2_pos n) = 53).
  { rewrite (digits2_pos_shift p n (53 - d)); [fold d; lia|lia|exact Hn]. }
  unfold binary_round.
  assert (F : fexp prec emax (Zpos (digits2_pos m) + - k) = d - 53).
  { rewrite Dm. unfold fexp, emin, prec, emax. lia. }
  rewrite F. unfold shl_align.
  destruct (d - 53 - - k) as [|j|j] eqn:Ej.
  - (* already aligned *)
    assert (m = n).
    { assert (Zpos m = Zpos n); [|congruence].
      rewrite E, Hn. f_equal. f_equal. lia. }
    subst m. replace (- k) with (d - 53) by lia.
    apply binary_round_aux_canonical; [exact Dn|lia].
  - (* more than 53 digits: the low bits are zeros *)
    replace (d - 53) with (- k + Zpos j) by lia.
    apply binary_round_aux_zeros; [|exact Dn|lia].
    rewrite E, Hn, <- Z.mul_assoc, <- Z.pow_add_r by lia. f_equal. f_equal. lia.
  - (* fewer than 53 digits: shifted left *)
    assert (Pos.iter xO m j = n).
    { assert (Zpos (Pos.iter xO m j) = Zpos n); [|congruence].
      rewrite iter_xO, E, Hn, <- Z.mul_assoc, <- Z.pow_add_r by lia.
      f_equal. f_equal. lia. }
    rewrite H. apply binary_round_aux_canonical; [exact Dn|lia].
Qed.


Lemma small_digits (p : positive) : Zpos p < 2 ^ 53 -> Zpos (digits2_pos p) <= 53.
Proof.
  intros H. pose proof (digits2_pos_bounds p) as B.
  destruct (Z.leb_spec (Zpos (digits2_pos p)) 53) as [L|L]; [exact L|].
  assert (2 ^ 53 <= 2 ^ (Zpos (digits2_pos p) - 1)) by (apply Z.pow_le_mono_r; lia).
  lia.
Qed.

(** The float of a whole number below 2^53: its sign, a mantissa of 53
    digits and an exponent that give it back exactly. *)
Lemma normalize_int_form (z : Z) :
  z <> 0 -> Z.abs z < 2 ^ 53 ->
  exists n c,
    binary_normalize prec emax z 0 false = S754_finite (z <? 0) n c
    /\ -52 <= c <= 0
    /\ Zpos n = Z.abs z * 2 ^ (- c)
    /\ Zpos (digits2_pos n) = 53.
Proof.
  intros Hz Hb.
  assert (G : forall (s : bool) (p : positive),
            Zpos p < 2 ^ 53 ->
            exists n c, binary_round prec emax s p 0 = S754_finite s n c
                        /\ -52 <= c <= 0 /\ Zpos n = Zpos p * 2 ^ (- c)
                        /\ Zpos (digits2_pos n) = 53).
  { intros s p Hp. pose proof (small_digits p Hp) as Hd.
    destruct (binary_round_exact s p p 0) as (n & Hn & Hr); [lia|exact Hd|simpl; lia|].
    exists n, (Zpos (digits2_pos p) - 53). split; [exact Hr|].
    split; [lia|]. split.
    - rewrite Hn. f_equal. f_equal. lia.
    - rewrite (digits2_pos_shift p n (53 - Zpos (digits2_pos p))); [lia|lia|exact Hn]. }
  destruct z as [|p|p]; [congruence| |]; simpl binary_normalize.
  - apply (G false p). exact Hb.
  - apply (G true p). exact Hb.
Qed.

Lemma normalize_scaled (z k : Z) :
  0 <= k -> z <> 0 -> Z.abs z < 2 ^ 53 ->
  binary_normalize prec emax (z * 2 ^ k) (- k) false
  = binary_normalize prec emax z 0 false.
Proof.
  intros Hk Hz Hb.
  assert (Hp : 0 < 2 ^ k) by (apply Z.pow_pos_nonneg; lia).
  assert (G : forall (s : bool) (p m : positive),
            Zpos p < 2 ^ 53 -> Zpos m = Zpos p * 2 ^ k ->
            binary_round prec emax s m (- k) = binary_round prec emax s p 0).
  { intros s p m Hpb Hm. pose proof (small_digits p Hpb) as Hd.
    destruct (binary_round_exact s p m k Hk Hd Hm) as (n & Hn & ->).
    destruct (binary_round_exact s p p 0) as (n' & Hn' & Hr'); [lia|exact Hd|simpl; lia|].
    change (- 0) with 0 in Hr'. rewrite Hr'.
    assert (n = n') by (assert (Zpos n = Zpos n') by congruence; congruence).
    now subst. }
  destruct z as [|p|p]; [congruence| |].
  - destruct (Zpos p * 2 ^ k) as [|m|m] eqn:Em; try lia.
    simpl binary_normalize. apply G; [exact Hb|now symmetry].
  - destruct (Zneg p * 2 ^ k) as [|m|m] eqn:Em; try lia.
    simpl binary_normalize. apply G; [exact Hb|lia].
Qed.

Lemma shl_align_fst (n : positive) (c ez : Z) :
  ez <= c -> Zpos (fst (shl_align n c ez)) = Zpos n * 2 ^ (c - ez).
Proof.
  intros H. unfold shl_align.
  destruct (ez - c) as [|j|j] eqn:Ej; simpl fst.
  - replace (c - ez) with 0 by lia. simpl. lia.
  - lia.
  - rewrite iter_xO. f_equal. f_equal. lia.
Qed.

Lemma signed_mantissa (z : Z) (n : positive) (c : Z) :
  z <> 0 -> c <= 0 -> Zpos n = Z.abs z * 2 ^ (- c) ->
  forall ez, ez <= c ->
  cond_Zopp (z <? 0) (Zpos (fst (shl_align n c ez))) = z * 2 ^ (- ez).
Proof.
  intros Hz Hc Hn ez He. rewrite (shl_align_fst n c ez He), Hn.
  rewrite <- Z.mul_assoc, <- Z.pow_add_r by lia.
  replace (- c + (c - ez)) with (- ez) by lia.
  unfold cond_Zopp. destruct (Z.ltb_spec z 0); lia.
Qed.

(** Whole numbers below 2^53 add and subtract exactly. *)
Lemma SFadd_int (a b : Z) :
  Z.abs a < 2 ^ 53 -> Z.abs b < 2 ^ 53 -> Z.abs (a + b) < 2 ^ 53 ->
  SFadd prec emax (binary_normalize prec emax a 0 false)
    (binary_normalize prec emax b 0 false)
  = binary_normalize prec emax (a + b) 0 false.
Proof.
  intros Ha Hb Hab.
  destruct (Z.eq_dec a 0) as [->|Na].
  { rewrite Z.add_0_l. simpl binary_normalize at 1.
    destruct (Z.eq_dec b 0) as [->|Nb]; [reflexivity|].
    destruct (normalize_int_form b Nb Hb) as (n & c & -> & _). reflexivity. }
  destruct (Z.eq_dec b 0) as [->|Nb].
  { rewrite Z.add_0_r. simpl binary_normalize at 2.
    destruct (normalize_int_form a Na Ha) as (n & c & -> & _). reflexivity. }
  destruct (normalize_int_form a Na Ha) as (na & ca & -> & Hca & Hna & _).
  destruct (normalize_int_form b Nb Hb) as (nb & cb & -> & Hcb & Hnb & _).
  unfold SFadd.
  rewrite (signed_mantissa a na ca Na) by lia.
  rewrite (signed_mantissa b nb cb Nb) by lia.
  rewrite <- Z.mul_add_distr_r.
  destruct (Z.eq_dec (a + b) 0) as [E|E].
  - rewrite E. reflexivity.
  - replace (Z.min ca cb) with (- - Z.min ca cb) at 2 by lia.
    apply normalize_scaled; [lia|exact E|exact Hab].
Qed.

Lemma normalize_opp (z : Z) :
  z <> 0 -> Z.abs z < 2 ^ 53 ->
  binary_normalize prec emax (- z) 0 false
  = SFopp (binary_normalize prec emax z 0 false).
Proof.
  intros Hz Hb.
  assert (G : forall p, Zpos p < 2 ^ 53 ->
            binary_round prec emax true p 0 = SFopp (binary_round prec emax false p 0)).
  { intros p Hp. pose proof (small_digits p Hp) as Hd.
    destruct (binary_round_exact true p p 0) as (n & Hn & Hr); [lia|exact Hd|simpl; lia|].
    destruct (binary_round_exact false p p 0) as (n' & Hn' & Hr'); [lia|exact Hd|simpl; lia|].
    change (- 0) with 0 in Hr, Hr'. rewrite Hr, Hr'. simpl.
    assert (n = n') by (assert (Zpos n = Zpos n') by congruence; congruence).
    now subst. }
  destruct z as [|p|p]; [congruence| |].
  - change (binary_round prec emax true p 0 = SFopp (binary_round prec emax false p 0)).
    apply G. exact Hb.
  - change (binary_round prec emax false p 0 = SFopp (binary_round prec emax true p 0)).
    rewrite (G p Hb).
    destruct (binary_round prec emax false p 0) as [s|s| |s m e]; cbn [SFopp];
      rewrite ?Bool.negb_involutive; reflexivity.
Qed.

Lemma SFsub_int (a b : Z) :
  Z.abs a < 2 ^ 53 -> Z.abs b < 2 ^ 53 -> Z.abs (a - b) < 2 ^ 53 ->
  SFsub prec emax (binary_normalize prec emax a 0 false)
    (binary_normalize prec emax b 0 false)
  = binary_normalize prec emax (a - b) 0 false.
Proof.
  intros Ha Hb Hab.
  destruct (Z.eq_dec b 0) as [->|Nb].
  { rewrite Z.sub_0_r. simpl binary_normalize at 2.
    destruct (Z.eq_dec a 0) as [->|Na]; [reflexivity|].
    destruct (normalize_int_form a Na Ha) as (n & c & -> & _). reflexivity. }
  destruct (Z.eq_dec a 0) as [->|Na].
  { replace (0 - b) with (- b) by lia. simpl binary_normalize at 1.
    rewrite (normalize_opp b Nb Hb).
    destruct (normalize_int_form b Nb Hb) as (n & c & -> & _). reflexivity. }
  destruct (normalize_int_form a Na Ha) as (na & ca & -> & Hca & Hna & _).
  destruct (normalize_int_form b Nb Hb) as (nb & cb & -> & Hcb & Hnb & _).
  unfold SFsub.
  rewrite (signed_mantissa a na ca Na) by lia.
  rewrite (signed_mantissa b nb cb Nb) by lia.
  rewrite <- Z.mul_sub_distr_r.
  destruct (Z.eq_dec (a - b) 0) as [E|E].
  - rewrite E. reflexivity.
  - replace (Z.min ca cb) with (- - Z.min ca cb) at 2 by lia.
    apply normalize_scaled; [lia|exact E|exact Hab].
Qed.

Lemma normalize_int_valid (z : Z) :
  Z.abs z < 2 ^ 53 -> valid_binary (binary_normalize prec emax z 0 false) = true.
Proof.
  intros Hb. destruct (Z.eq_dec z 0) as [->|Nz]; [reflexivity|].
  destruct (normalize_int_form z Nz Hb) as (n & c & -> & Hc & _ & Dn).
  unfold valid_binary, SpecFloat.valid_binary, bounded, canonical_mantissa.
  rewrite Dn. apply andb_true_intro. split.
  - apply Z.eqb_eq. unfold fexp, emin, prec, emax. lia.
  - apply Z.leb_le. unfold prec, emax. lia.
Qed.

(** The same on the primitive floats. *)
Lemma float_add_int (a b : Z) :
  Z.abs a < 2 ^ 53 -> Z.abs b < 2 ^ 53 -> Z.abs (a + b) < 2 ^ 53 ->
  (SF2Prim (binary_normalize prec emax a 0 false)
   + SF2Prim (binary_normalize prec emax b 0 false))%float
  = SF2Prim (binary_normalize prec emax (a + b) 0 false).
Proof.
  intros Ha Hb Hab. rewrite <- (SF2Prim_Prim2SF (_ + _)%float). f_equal.
  rewrite add_spec, !Prim2SF_SF2Prim by now apply normalize_int_valid.
  now apply SFadd_int.
Qed.

Lemma float_sub_int (a b : Z) :
  Z.abs a < 2 ^ 53 -> Z.abs b < 2 ^ 53 -> Z.abs (a - b) < 2 ^ 53 ->
  (SF2Prim (binary_normalize prec emax a 0 false)
   - SF2Prim (binary_normalize prec emax b 0 false))%float
  = SF2Prim (binary_normalize prec emax (a - b) 0 false).
Proof.
  intros Ha Hb Hab. rewrite <- (SF2Prim_Prim2SF (_ - _)%float). f_equal.
  rewrite sub_spec, !Prim2SF_SF2Prim by now apply normalize_int_valid.
  now apply SFsub_int.
Qed.

End Exact.

(* ===================================================================== *)
(** * The monthly breakdown by category                                  *)
(* ===================================================================== *)

Section Breakdown.
Context (rt : runtime).

Lemma insert_key_In (k a : option string) (l : list (option string)) :
  In k (insert_key a l) <-> k = a \/ In k l.
Proof.
  induction l as [|h t IH]; simpl.
  - intuition.
  - destruct (key_leb a h); simpl; [intuition|]. rewrite IH. intuition.
Qed.

Lemma sort_keys_In (k : option string) (l : list (option string)) :
  In k (sort_keys l) <-> In k l.
Proof.
  induction l as [|h t IH]; simpl; [reflexivity|].
  rewrite insert_key_In, IH. intuition.
Qed.

Lemma group_keys_In (k : option string) (sel : list expense) :
  In k (sort_keys (remove_dups (e_category <$> sel))) <-> exists e, In e sel /\ e_category e = k.
Proof.
  rewrite sort_keys_In, <- list_elem_of_In, elem_of_remove_dups, list_elem_of_fmap.
  split; intros (e & H1 & H2); exists e; rewrite ?list_elem_of_In in *; auto.
Qed.

Lemma breakdown_fold_lookup (rows : list (option string * option float))
    (acc : gmap string float) (c : string) :
  fold_left (fun out r => <[category_key (fst r) := total_value (snd r)]> out) rows acc !! c
  = fold_left (pick c) rows (acc !! c).
Proof.
  revert acc. induction rows as [|r rows IH]; intros acc; simpl; [reflexivity|].
  rewrite IH. f_equal. unfold pick. apply lookup_insert.
Qed.

Lemma pick_absent (c : string) (rows : list (option string * option float))
    (o : option float) :
  (forall r, In r rows -> category_key (fst r) <> c) ->
  fold_left (pick c) rows o = o.
Proof.
  revert o. induction rows as [|r rows IH]; intros o H; simpl; [reflexivity|].
  rewrite IH.
  - unfold pick. destruct (decide _) as [E|]; [|reflexivity].
    exfalso. apply (H r); [now left|exact E].
  - intros r' Hr'. apply H. now right.
Qed.

Lemma pick_present (c : string) (v : float) (rows : list (option string * option float))
    (o : option float) :
  (o = Some v \/ exists r, In r rows /\ category_key (fst r) = c) ->
  (forall r, In r rows -> category_key (fst r) = c -> total_value (snd r) = v) ->
  fold_left (pick c) rows o = Some v.
Proof.
  revert o. induction rows as [|r rows IH]; intros o Hex Hval; simpl.
  - destruct Hex as [H|(r & Hin & _)]; [exact H|destruct Hin].
  - apply IH.
    + unfold pick. destruct (decide (category_key (fst r) = c)) as [E|E].
      * left. f_equal. apply Hval; [now left|exact E].
      * destruct Hex as [?|(r' & [->|Hin] & Hr')]; [now left|contradiction|].
        right. eauto.
    + intros r' Hin. apply Hval. now right.
Qed.




Lemma with_key_nil (k : option string) (sel : list expense) :
  with_key k sel = [] <-> ~ exists e, In e sel /\ e_category e = k.
Proof.
  unfold with_key. split.
  - intros H (e & Hin & He).
    assert (Hf : In e (List.filter (fun e => bool_decide (e_category e = k)) sel)).
    { apply List.filter_In. split; [exact Hin|]. now apply bool_decide_eq_true. }
    rewrite H in Hf. destruct Hf.
  - intros H. destruct (List.filter _ sel) as [|e l] eqn:E; [reflexivity|].
    exfalso. apply H. exists e.
    assert (Hf : In e (e :: l)) by now left.
    rewrite <- E in Hf. apply List.filter_In in Hf. destruct Hf as [Hin He].
    apply bool_decide_eq_true in He. auto.
Qed.

Lemma with_key_head (k : option string) (sel : list expense) (e : expense) (rs : list expense) :
  with_key k sel = e :: rs -> In e sel /\ e_category e = k.
Proof.
  intros E. assert (Hf : In e (with_key k sel)) by (rewrite E; now left).
  apply List.filter_In in Hf. destruct Hf as [Hin He].
  apply bool_decide_eq_true in He. auto.
Qed.

(** The entry of the returned dict for a key [c] that a single SQL key
    [k0] is stored under. *)
Lemma breakdown_rows_lookup (sel : list expense) (keys : list (option string))
    (k0 : option string) (c : string) :
  (forall k, In k keys <-> exists e, In e sel /\ e_category e = k) ->
  (forall k, In k keys -> category_key k = c <-> k = k0) ->
  breakdown_rows (group_row rt sel <$> keys) !! c = key_total rt sel k0.
Proof.
  intros Hkeys Hc. unfold breakdown_rows. rewrite breakdown_fold_lookup, lookup_empty.
  unfold key_total.
  destruct (with_key k0 sel) as [|e0 rs] eqn:E.
  - apply pick_absent. intros r Hr Hk.
    apply list_elem_of_In, list_elem_of_fmap in Hr. destruct Hr as (k & -> & Hin).
    apply list_elem_of_In in Hin. simpl in Hk.
    apply (Hc k Hin) in Hk. subst k.
    apply with_key_nil in E. apply E. now apply Hkeys.
  - assert (Hin0 : In k0 keys).
    { apply Hkeys. exists e0. exact (with_key_head k0 sel e0 rs E). }
    apply pick_present.
    + right. exists (group_row rt sel k0). split.
      * apply list_elem_of_In, list_elem_of_fmap. exists k0. split; [reflexivity|].
        now apply list_elem_of_In.
      * change (category_key k0 = c). now apply (Hc k0 Hin0).
    + intros r Hr Hk.
      apply list_elem_of_In, list_elem_of_fmap in Hr. destruct Hr as (k & -> & Hin).
      apply list_elem_of_In in Hin. simpl in Hk.
      apply (Hc k Hin) in Hk. subst k. simpl.
      unfold with_key in E. rewrite E. reflexivity.
Qed.

Lemma float_of_Z_whole (z : Z) :
  Z.abs z < 2 ^ 53 ->
  float_of_Z z = Some (SF2Prim (binary_normalize prec emax z 0 false)).
Proof.
  intros Hb. unfold float_of_Z. cbv zeta.
  assert (E : is_infinity (SF2Prim (binary_normalize prec emax z 0 false)) = false).
  { unfold is_infinity. rewrite FloatAxioms.eqb_spec, abs_spec.
    rewrite Prim2SF_SF2Prim by now apply normalize_int_valid.
    change (Prim2SF infinity) with (S754_infinity false).
    destruct (Z.eq_dec z 0) as [->|Nz]; [reflexivity|].
    destruct (normalize_int_form z Nz Hb) as (n & c & -> & _). reflexivity. }
  now rewrite E.
Qed.

Lemma whole_not_nan (z : Z) :
  Z.abs z < 2 ^ 53 ->
  is_nan (SF2Prim (binary_normalize prec emax z 0 false)) = false.
Proof.
  intros Hb. unfold is_nan. rewrite FloatAxioms.eqb_spec.
  rewrite Prim2SF_SF2Prim by now apply normalize_int_valid.
  unfold SFeqb. rewrite SFcompare_refl; [reflexivity|].
  destruct (Z.eq_dec z 0) as [->|Nz]; [discriminate|].
  destruct (normalize_int_form z Nz Hb) as (n & c & -> & _). discriminate.
Qed.

Lemma total_value_whole (z : Z) :
  Z.abs z < 2 ^ 53 ->
  total_value (Some (SF2Prim (binary_normalize prec emax z 0 false)))
  = SF2Prim (binary_normalize prec emax z 0 false).
Proof.
  intros Hb. unfold total_value.
  destruct (Z.eq_dec z 0) as [->|Nz]; [reflexivity|].
  rewrite FloatAxioms.eqb_spec.
  rewrite Prim2SF_SF2Prim by now apply normalize_int_valid.
  change (Prim2SF 0) with (S754_zero false).
  destruct (normalize_int_form z Nz Hb) as (n & c & -> & _).
  unfold SFeqb. simpl. now destruct (z <? 0).
Qed.

Lemma sum_plain_whole (zs : list Z) (acc : Z) :
  Z.abs acc + fold_right (fun z b => Z.abs z + b) 0 zs < 2 ^ 53 ->
  fold_left PrimFloat.add
    ((fun z => SF2Prim (binary_normalize prec emax z 0 false)) <$> zs)
    (SF2Prim (binary_normalize prec emax acc 0 false))
  = SF2Prim (binary_normalize prec emax (acc + fold_right Z.add 0 zs) 0 false).
Proof.
  revert acc. induction zs as [|z zs IH]; intros acc Hb; simpl in *.
  - now rewrite Z.add_0_r.
  - pose proof (Z.abs_nonneg z).
    assert (0 <= fold_right (fun z b => Z.abs z + b) 0 zs).
    { clear. induction zs; simpl; lia. }
    rewrite float_add_int by lia. rewrite IH by lia. f_equal. f_equal. lia.
Qed.

Lemma kbn_step_whole (acc z : Z) :
  Z.abs acc + Z.abs z < 2 ^ 53 ->
  kbn_step (SF2Prim (binary_normalize prec emax acc 0 false), 0%float)
    (SF2Prim (binary_normalize prec emax z 0 false))
  = (SF2Prim (binary_normalize prec emax (acc + z) 0 false), 0%float).
Proof.
  intros Hb. unfold kbn_step.
  rewrite float_add_int by lia. f_equal.
  change 0%float with (SF2Prim (binary_normalize prec emax 0 0 false)).
  destruct (_ <? _)%float.
  - rewrite float_sub_int by lia.
    rewrite float_add_int by lia.
    replace (acc - (acc + z) + z) with 0 by lia.
    now rewrite float_add_int by (simpl; lia).
  - rewrite float_sub_int by lia.
    rewrite float_add_int by lia.
    replace (z - (acc + z) + acc) with 0 by lia.
    now rewrite float_add_int by (simpl; lia).
Qed.

Lemma sum_kbn_whole (zs : list Z) (acc : Z) :
  Z.abs acc + fold_right (fun z b => Z.abs z + b) 0 zs < 2 ^ 53 ->
  fold_left kbn_step
    ((fun z => SF2Prim (binary_normalize prec emax z 0 false)) <$> zs)
    (SF2Prim (binary_normalize prec emax acc 0 false), 0%float)
  = (SF2Prim (binary_normalize prec emax (acc + fold_right Z.add 0 zs) 0 false), 0%float).
Proof.
  revert acc. induction zs as [|z zs IH]; intros acc Hb.
  - simpl. now rewrite Z.add_0_r.
  - rewrite fmap_cons. cbn [fold_left fold_right] in *.
    pose proof (Z.abs_nonneg z).
    assert (0 <= fold_right (fun z b => Z.abs z + b) 0 zs).
    { clear. induction zs; simpl; lia. }
    rewrite kbn_step_whole by lia. rewrite IH by lia. f_equal. f_equal. f_equal. lia.
Qed.

(** SUM over whole amounts: the double of their exact sum, however the
    library adds. *)
Lemma sql_sum_whole (amounts : list (option Z)) :
  whole_bound amounts < 2 ^ 53 ->
  total_value (sql_sum rt ((fun a => a ≫= float_of_Z) <$> amounts))
  = SF2Prim (binary_normalize prec emax (whole_sum amounts) 0 false).
Proof.
  unfold whole_bound, whole_sum. intros Hb.
  assert (Hpos : forall zs, 0 <= fold_right (fun z b => Z.abs z + b) 0 zs).
  { induction zs; simpl; lia. }
  assert (E : omap id ((fun a => a ≫= float_of_Z) <$> amounts)
              = (fun z => SF2Prim (binary_normalize prec emax z 0 false))
                  <$> omap id amounts).
  { revert Hb. induction amounts as [|[z|] l IH]; intros Hb.
    - reflexivity.
    - cbn in Hb |- *. pose proof (Hpos (omap id l)).
      rewrite float_of_Z_whole by lia. cbn. f_equal. apply IH. lia.
    - cbn in Hb |- *. apply IH. exact Hb. }
  unfold sql_sum. rewrite E. clear E.
  destruct (omap id amounts) as [|z zs] eqn:Ez; [reflexivity|].
  rewrite <- Ez in *.
  remember (omap id amounts) as zs' eqn:Ezs.
  assert (Hs : Z.abs (fold_right Z.add 0 zs') <= fold_right (fun z b => Z.abs z + b) 0 zs').
  { clear. induction zs'; simpl; lia. }
  remember ((fun z => SF2Prim (binary_normalize prec emax z 0 false)) <$> zs') as l eqn:El.
  assert (T : (if sqlite_compensates rt then sum_compensated l else sum_plain l)
              = SF2Prim (binary_normalize prec emax (fold_right Z.add 0 zs') 0 false)).
  { subst l. destruct (sqlite_compensates rt).
    - unfold sum_compensated.
      change (0%float, 0%float)
        with (SF2Prim (binary_normalize prec emax 0 0 false), 0%float).
      rewrite sum_kbn_whole by (simpl; lia). simpl Z.add.
      change (is_nan 0 || is_infinity 0) with false. cbv iota.
      change 0%float with (SF2Prim (binary_normalize prec emax 0 0 false)) at 1.
      rewrite float_add_int by (simpl; lia). now rewrite Z.add_0_r.
    - unfold sum_plain.
      change 0%float with (SF2Prim (binary_normalize prec emax 0 0 false)).
      now rewrite sum_plain_whole by (simpl; lia). }
  destruct l as [|f fs].
  { rewrite Ez in El. discriminate. }
  cbv zeta. rewrite T.
  rewrite whole_not_nan by lia. apply total_value_whole. lia.
Qed.

Lemma key_total_whole (sel : list expense) (k : option string) (amounts : list (option Z)) :
  with_key k sel <> [] ->
  whole_amounts (with_key k sel) amounts ->
  whole_bound amounts < 2 ^ 53 ->
  key_total rt sel k = float_of_Z (whole_sum amounts).
Proof.
  intros Hne Ha Hb. unfold key_total.
  destruct (with_key k sel) as [|e rs] eqn:E; [congruence|].
  unfold whole_amounts in Ha. rewrite Ha, (sql_sum_whole amounts Hb).
  rewrite float_of_Z_whole; [reflexivity|].
  revert Hb. unfold whole_bound, whole_sum. generalize (omap id amounts).
  intros zs. clear. intros Hb.
  assert (Z.abs (fold_right Z.add 0 zs) <= fold_right (fun z b => Z.abs z + b) 0 zs).
  { clear. induction zs; simpl; lia. }
  lia.
Qed.


Lemma breakdown_query_groups (u : string) (year month : Z) (st : store) :
  breakdown_query rt u year month st
  = group_row rt (selected u year month st)
      <$> sort_keys (remove_dups (e_category <$> selected u year month st)).
Proof. reflexivity. Qed.





(** When the kept rows have a single one of the keys NULL, "" and
    "Other", and the amounts under it are whole numbers whose absolute
    values add up to less than 2^53, the entry "Other" is their exact sum
    as a double, NULL amounts skipped. *)
Theorem category_breakdown_other_single (u : string) (year month : Z) (st : store)
    (k0 : option string) (amounts : list (option Z)) :
  category_key k0 = "Other" ->
  (forall e, In e (selected u year month st) ->
             category_key (e_category e) = "Other" -> e_category e = k0) ->
  with_key k0 (selected u year month st) <> [] ->
  whole_amounts (with_key k0 (selected u year month st)) amounts ->
  whole_bound amounts < 2 ^ 53 ->
  category_breakdown rt u year month st !! "Other" = float_of_Z (whole_sum amounts).
Proof.
  intros Hk0 Honly Hne Ha Hb. unfold category_breakdown. rewrite breakdown_query_groups.
  rewrite (breakdown_rows_lookup (selected u year month st) _ k0 "Other").
  - now apply key_total_whole.
  - intros k. apply group_keys_In.
  - intros k Hk. apply group_keys_In in Hk. destruct Hk as (e & He & <-).
    split; [now apply Honly|]. intros ->. exact Hk0.
Qed.

End Breakdown.


(** The two groups of the query on [other_store]. *)
Lemma other_store_groups (rt : runtime) :
  breakdown_query rt "alice" 2024 5 other_store
  = [(Some "", Some 10%float); (Some "Other", Some 20%float)].
Proof. destruct rt as [? ? ? ? ? ? ? ? ? ? []]; vm_compute; reflexivity. Qed.

(** C10 fails on the code: an expense with an empty category (10) and
    one in the category "Other" (20) give two result rows that the loop
    writes to the same key, and the dict keeps only the second: the 10 of
    the empty category is in no entry. *)
Lemma category_breakdown_other_overwritten :
  selected "alice" 2024 5 other_store
  = [spent "alice" "2024-05-01" "" 10; spent "alice" "2024-05-02" "Other" 20]
  /\ (forall rt : runtime,
        breakdown_query rt "alice" 2024 5 other_store
        = [(Some "", Some 10%float); (Some "Other", Some 20%float)])
  /\ (forall rt : runtime,
        category_breakdown rt "alice" 2024 5 other_store = {["Other" := 20%float]}).
Proof.
  split; [vm_compute; reflexivity|]. split; [apply other_store_groups|].
  intros rt. unfold category_breakdown. rewrite other_store_groups.
  vm_compute. reflexivity.
Qed.

(** The loss does not depend on the order in which SQLite returns the two
    groups: either order leaves one of the two totals, never their sum. *)
Lemma other_overwritten_any_order (rt : runtime)
    (rows : list (option string * option float)) :
  Permutation (breakdown_query rt "alice" 2024 5 other_store) rows ->
  breakdown_rows rows = {["Other" := 20%float]}
  \/ breakdown_rows rows = {["Other" := 10%float]}.
Proof.
  rewrite other_store_groups.
  intros H. apply Permutation_length_2_inv in H.
  destruct H as [->| ->]; [left|right]; vm_compute; reflexivity.
Qed.

(** A month whose only uncategorised rows have an empty category: 10 and
    5 give 15 under "Other". *)
Lemma category_breakdown_other_single_witness :
  category_breakdown bare_runtime "alice" 2024 5
    (store_of_expenses [spent "alice" "2024-05-01" "" 10; spent "alice" "2024-05-03" "" 5])
  !! "Other"
  = Some 15%float.
Proof.
  refine (category_breakdown_other_single bare_runtime "alice" 2024 5
            (store_of_expenses
               [spent "alice" "2024-05-01" "" 10; spent "alice" "2024-05-03" "" 5])
            (Some "") [Some 10; Some 5] _ _ _ _ _).
  - reflexivity.
  - intros e He _. vm_compute in He.
    destruct He as [<-|[<-|[]]]; reflexivity.
  - vm_compute. discriminate.
  - vm_compute. reflexivity.
  - vm_compute. reflexivity.
Defined.

(** The two groups in the order SQLite returns them. *)
Lemma other_overwritten_any_order_witness :
  breakdown_rows (breakdown_query bare_runtime "alice" 2024 5 other_store)
  = {["Other" := 20%float]}
  \/ breakdown_rows (breakdown_query bare_runtime "alice" 2024 5 other_store)
     = {["Other" := 10%float]}.
Proof.
  apply (other_overwritten_any_order bare_runtime
           (breakdown_query bare_runtime "alice" 2024 5 other_store)).
  apply Permutation_refl.
Defined.

(* ===================================================================== *)
(** * Accounts: registration, login and the life of a reset token        *)
(* ===================================================================== *)

Section Tables.
Context {R : Type}.

Lemma fetchone_none (p : R -> bool) (t : table R) :
  fetchone p t = None <-> Forall (fun x => p (snd x) = false) (tbl_rows t).
Proof.
  unfold fetchone. split.
  - destruct (List.find _ _) eqn:E; [discriminate|]. intros _.
    apply List.Forall_forall. intros x Hx. exact (List.find_none _ _ E x Hx).
  - intros H. induction H as [|x l Hx _ IH]; simpl; [reflexivity|].
    rewrite Hx. exact IH.
Qed.

Lemma fetchone_app_fresh (p : R -> bool) (l : list (Z * R)) (s : Z) (i : Z) (r : R) :
  Forall (fun x => p (snd x) = false) l ->
  p r = true ->
  fetchone p {| tbl_rows := l ++ [(i, r)]; tbl_seq := s |} = Some r.
Proof.
  intros Hl Hr. unfold fetchone. simpl.
  induction Hl as [|x l Hx _ IH]; simpl.
  - now rewrite Hr.
  - now rewrite Hx.
Qed.

Lemma fetchone_update (p q : R -> bool) (f : R -> R) (t : table R) :
  (forall r, p (f r) = p r) ->
  fetchone p (update_where q f t)
  = (fun r => if q r then f r else r) <$> fetchone p t.
Proof.
  intros Hp. unfold fetchone, update_where. simpl.
  induction (tbl_rows t) as [|[i x] l IH]; simpl; [reflexivity|].
  destruct (q x) eqn:Eq; simpl.
  - rewrite Hp. destruct (p x); simpl; [now rewrite Eq|exact IH].
  - destruct (p x); simpl; [now rewrite Eq|exact IH].
Qed.

End Tables.

Section UsersMore.
Context (rt : runtime).

Lemma usernames_update (q : user -> bool) (f : user -> user) (st : store) :
  (forall r, u_username (f r) = u_username r) ->
  usernames (with_users (update_where q f (users st)) st) = usernames st.
Proof.
  intros Hf. unfold usernames, update_where. simpl.
  induction (tbl_rows (users st)) as [|[i x] l IH]; simpl; [reflexivity|].
  f_equal; [|exact IH]. destruct (q x); simpl; [apply Hf|reflexivity].
Qed.

Lemma username_free (u : string) (st : store) :
  existsb (fun r => String.eqb (u_username (snd r)) u) (tbl_rows (users st)) = false
  <-> ~ In u (usernames st).
Proof.
  unfold usernames. split.
  - intros H Hin. apply list_elem_of_In, list_elem_of_fmap in Hin.
    destruct Hin as (x & -> & Hx). apply list_elem_of_In in Hx.
    assert (E : existsb (fun r => String.eqb (u_username (snd r)) (u_username (snd x)))
                  (tbl_rows (users st)) = true).
    { apply existsb_exists. exists x. split; [exact Hx|apply String.eqb_refl]. }
    congruence.
  - intros H. apply not_true_iff_false. intros E. apply existsb_exists in E.
    destruct E as (x & Hx & Ex). apply String.eqb_eq in Ex. apply H.
    apply list_elem_of_In, list_elem_of_fmap. exists x.
    split; [now symmetry|now apply list_elem_of_In].
Qed.

(** [create_user] returns True exactly when the username and the password
    are non-empty, the password hashes, and no stored row has the
    username; the new store is then the old one with one user row
    appended, holding [email or ""], the hash and no token. *)
Theorem create_user_succeeds (salt u : string) (e : option string) (p : string)
    (st st' : store) :
  create_user rt salt u e p st = (true, st')
  <-> u <> "" /\ p <> "" /\ ~ In u (usernames st)
      /\ exists h, hash_password rt salt p = Some h
                   /\ st' = with_users (insert_row (new_user u e h) (users st)) st.
Proof.
  unfold create_user.
  destruct (String.eqb_spec u "") as [->|Hu]; simpl.
  { split; [discriminate|]. intros (H & _). congruence. }
  destruct (String.eqb_spec p "") as [->|Hp]; simpl.
  { split; [discriminate|]. intros (_ & H & _). congruence. }
  destruct (hash_password rt salt p) as [h|].
  2:{ split; [discriminate|]. intros (_ & _ & _ & h & H & _). discriminate. }
  destruct (existsb _ _) eqn:Ex.
  - split; [discriminate|]. intros (_ & _ & Hfree & _).
    apply username_free in Hfree. congruence.
  - apply username_free in Ex. split.
    + intros [= <-]. repeat split; try assumption. exists h. split; reflexivity.
    + intros (_ & _ & _ & h' & [= <-] & ->). reflexivity.
Qed.

(** Usernames stay unique: none of [create_user], [create_reset_token],
    [reset_password] and [clear_reset_token] leaves two rows with one
    username when there were none before. *)
Theorem usernames_stay_unique (st : store) :
  NoDup (usernames st) ->
  (forall salt u e p, NoDup (usernames (snd (create_user rt salt u e p st))))
  /\ (forall ident ttl now tok, NoDup (usernames (snd (create_reset_token ident ttl now tok st))))
  /\ (forall salt u p, NoDup (usernames (snd (reset_password rt salt u p st))))
  /\ (forall u, NoDup (usernames (clear_reset_token u st))).
Proof.
  intros Hst. split; [|split; [|split]].
  - intros salt u e p. unfold create_user.
    destruct (_ || _); [exact Hst|].
    destruct (hash_password rt salt p) as [h|]; [|exact Hst].
    destruct (existsb _ _) eqn:Ex; [exact Hst|].
    apply username_free in Ex. simpl.
    unfold usernames, insert_row. simpl. rewrite fmap_app. simpl.
    apply NoDup_app. split; [exact Hst|]. split.
    + intros x Hx [->|[]]%list_elem_of_In. apply Ex. now apply list_elem_of_In.
    + apply NoDup_singleton.
  - intros ident ttl now tok. unfold create_reset_token.
    destruct (fetchone _ _); [|exact Hst].
    destruct (bind_int _); [|exact Hst]. simpl.
    now rewrite usernames_update.
  - intros salt u p. unfold reset_password.
    destruct (hash_password rt salt p); [|exact Hst]. simpl.
    now rewrite usernames_update.
  - intros u. unfold clear_reset_token. now rewrite usernames_update.
Qed.


Lemma usernames_free_rows (u : string) (st : store) :
  ~ In u (usernames st) ->
  Forall (fun x => String.eqb (u_username (snd x)) u = false) (tbl_rows (users st)).
Proof.
  intros H. apply List.Forall_forall. intros x Hx. apply String.eqb_neq. intros E.
  apply H. unfold usernames. apply list_elem_of_In, list_elem_of_fmap.
  exists x. split; [now symmetry|now apply list_elem_of_In].
Qed.

(** The row a successful create_user leaves for the username. *)
Lemma create_user_row (salt u : string) (e : option string) (p : string) (st st' : store) :
  create_user rt salt u e p st = (true, st') ->
  u <> "" /\ p <> ""
  /\ exists h, hash_password rt salt p = Some h
               /\ fetchone (fun r => String.eqb (u_username r) u) (users st')
                  = Some (new_user u e h).
Proof.
  unfold create_user.
  destruct (String.eqb_spec u "") as [->|Hu]; simpl; [discriminate|].
  destruct (String.eqb_spec p "") as [->|Hp]; simpl; [discriminate|].
  destruct (hash_password rt salt p) as [h|]; [|discriminate].
  destruct (existsb _ _) eqn:Ex; [discriminate|].
  intros [= <-]. repeat split; try assumption. exists h. split; [reflexivity|].
  simpl. unfold insert_row.
  apply (fetchone_app_fresh (fun r => String.eqb (u_username r) u)).
  - apply usernames_free_rows. now apply username_free.
  - simpl. apply String.eqb_refl.
Qed.

(** On the SHA-256 path, a user just registered logs in with the password
    given, and with another password exactly when it is non-empty and has
    the same digest. *)
Theorem register_then_login (salt u : string) (e : option string) (p : string)
    (st st' : store) :
  HAS_BCRYPT rt = false ->
  sha256_hexdigest rt p <> "" ->
  create_user rt salt u e p st = (true, st') ->
  login_user rt u p st' = true
  /\ (forall q : string,
        login_user rt u q st' = true
        <-> q <> "" /\ sha256_hexdigest rt q = sha256_hexdigest rt p).
Proof.
  intros Hb Hd Hc. apply create_user_row in Hc.
  destruct Hc as (Hu & Hp & h & Hh & Hrow).
  assert (Eh : h = sha256_hexdigest rt p).
  { revert Hh. unfold hash_password.
    apply String.eqb_neq in Hp. rewrite Hp, Hb. congruence. }
  subst h.
  assert (Hq : forall q, login_user rt u q st' = true
                          <-> q <> "" /\ sha256_hexdigest rt q = sha256_hexdigest rt p).
  { intros q. unfold login_user. apply String.eqb_neq in Hu. rewrite Hu. simpl.
    destruct (String.eqb_spec q "") as [->|Hq]; simpl.
    - split; [discriminate|]. intros [H _]. congruence.
    - rewrite Hrow. simpl. unfold verify_password.
      apply String.eqb_neq in Hd. rewrite Hd, Hb, String.eqb_eq. tauto. }
  split; [|exact Hq]. apply Hq. split; [exact Hp|reflexivity].
Qed.

(** After a successful [create_user], [get_username] finds the user and
    [get_user_email] returns the email given, or None when none or an
    empty one was given. *)
Theorem registered_email (salt u : string) (e : option string) (p : string)
    (st st' : store) :
  create_user rt salt u e p st = (true, st') ->
  get_user_email u st' = (match e with
                          | Some a => if String.eqb a "" then None else Some a
                          | None => None
                          end)
  /\ get_username u st' = Some u.
Proof.
  intros Hc. apply create_user_row in Hc.
  destruct Hc as (_ & _ & h & _ & Hrow).
  unfold get_user_email, get_username. rewrite Hrow. simpl.
  split; [|reflexivity]. destruct e as [a|]; reflexivity.
Qed.

(** [create_reset_token] returns None exactly when no stored row has the
    identifier as its username or as its email, and then it changes
    nothing. *)
Theorem create_reset_token_unknown (ident : string) (ttl : Z) (now : Q) (tok : string)
    (st : store) :
  (fst (create_reset_token ident ttl now tok st) = Returned None
   <-> Forall (fun x => u_username (snd x) <> ident /\ u_email (snd x) <> Some ident)
         (tbl_rows (users st)))
  /\ (fst (create_reset_token ident ttl now tok st) = Returned None ->
      snd (create_reset_token ident ttl now tok st) = st).
Proof.
  assert (Hnone : identified ident st = None
                  <-> Forall (fun x => u_username (snd x) <> ident
                                       /\ u_email (snd x) <> Some ident)
                        (tbl_rows (users st))).
  { unfold identified. rewrite fetchone_none. apply Forall_iff. intros [i r]. simpl.
    rewrite orb_false_iff, String.eqb_neq. unfold text_is.
    destruct (u_email r) as [a|].
    - rewrite String.eqb_neq. split; intros [H1 H2]; split; congruence.
    - split; intros [H1 H2]; split; congruence. }
  unfold create_reset_token. fold (identified ident st).
  destruct (identified ident st) as [row|].
  - destruct (bind_int _); simpl.
    + split; [|discriminate]. split; [discriminate|]. intros H. apply Hnone in H. discriminate.
    + split; [|discriminate]. split; [discriminate|]. intros H. apply Hnone in H. discriminate.
  - simpl. split; [|reflexivity]. split; [intros _; now apply Hnone|reflexivity].
Qed.

(** Rows that hold a token after a token/password update of one user. *)
Lemma token_after_update (tok u : string) (f : user -> user) (st : store) :
  (forall r, u_reset_token (f r) <> Some tok) ->
  token_only_of tok u st ->
  token_row tok (with_users (update_where (fun r => String.eqb (u_username r) u) f (users st)) st)
  = None.
Proof.
  intros Hf Honly. unfold token_row. apply fetchone_none.
  unfold update_where. simpl. apply List.Forall_forall. intros x Hx.
  apply List.in_map_iff in Hx. destruct Hx as ([i r] & <- & Hin). simpl.
  destruct (String.eqb_spec (u_username r) u) as [E|E]; simpl.
  - specialize (Hf r). unfold text_is. destruct (u_reset_token (f r)) as [s|]; [|reflexivity].
    apply String.eqb_neq. congruence.
  - unfold text_is. destruct (u_reset_token r) as [s|] eqn:Es; [|reflexivity].
    apply String.eqb_neq. intros ->. apply E. exact (Honly i r Hin Es).
Qed.

Lemma verify_dead (tok : string) (t : Q) (st : store) :
  token_row tok st = None -> verify_reset_token rt tok t st = None.
Proof.
  intros H. unfold verify_reset_token. fold (token_row tok st). rewrite H.
  now destruct (String.eqb tok "").
Qed.

(** A token that only rows of user [u] hold verifies no more, at any
    clock reading, after [clear_reset_token(u)] and after a successful
    [reset_password(u, p)]. *)
Theorem reset_password_kills_token (salt u p tok : string) (t : Q) (st : store) :
  token_only_of tok u st ->
  verify_reset_token rt tok t (clear_reset_token u st) = None
  /\ (fst (reset_password rt salt u p st) = true ->
      verify_reset_token rt tok t (snd (reset_password rt salt u p st)) = None).
Proof.
  intros Honly. split.
  - apply verify_dead. unfold clear_reset_token.
    apply token_after_update; [discriminate|exact Honly].
  - unfold reset_password. destruct (hash_password rt salt p) as [h|]; [|discriminate].
    intros _. simpl. apply verify_dead.
    apply token_after_update; [discriminate|exact Honly].
Qed.

Lemma fetch_by_username_update (u : string) (f : user -> user) (st : store) :
  (forall r, u_username (f r) = u_username r) ->
  fetchone (fun r => String.eqb (u_username r) u)
    (update_where (fun r => String.eqb (u_username r) u) f (users st))
  = f <$> fetchone (fun r => String.eqb (u_username r) u) (users st).
Proof.
  intros Hf. unfold fetchone, update_where. simpl.
  induction (tbl_rows (users st)) as [|[i x] l IH]; simpl; [reflexivity|].
  destruct (String.eqb (u_username x) u) eqn:E; simpl.
  - rewrite Hf, E. reflexivity.
  - rewrite E. exact IH.
Qed.

(** On the SHA-256 path, after [reset_password(u, p)] for a stored user
    and a non-empty password, [u] logs in with [p]. *)
Theorem reset_password_then_login (salt u p : string) (st : store) :
  HAS_BCRYPT rt = false ->
  u <> "" ->
  p <> "" ->
  sha256_hexdigest rt p <> "" ->
  get_username u st = Some u ->
  fst (reset_password rt salt u p st) = true
  /\ login_user rt u p (snd (reset_password rt salt u p st)) = true.
Proof.
  intros Hb Hu Hp Hd Hex.
  assert (Hh : hash_password rt salt p = Some (sha256_hexdigest rt p)).
  { unfold hash_password. apply String.eqb_neq in Hp. now rewrite Hp, Hb. }
  unfold reset_password. rewrite Hh. simpl. split; [reflexivity|].
  unfold login_user. apply String.eqb_neq in Hu, Hp. rewrite Hu, Hp. simpl.
  rewrite fetch_by_username_update; [|reflexivity].
  unfold get_username in Hex.
  destruct (fetchone _ (users st)) as [row|]; [|discriminate]. simpl.
  unfold verify_password. apply String.eqb_neq in Hd. rewrite Hd, Hb.
  apply String.eqb_refl.
Qed.

(** [reset_password(u, "")] returns True and stores the empty hash:
    afterwards no password logs [u] in. *)
Theorem reset_password_empty_locks (salt u q : string) (st : store) :
  fst (reset_password rt salt u "" st) = true
  /\ login_user rt u q (snd (reset_password rt salt u "" st)) = false.
Proof.
  unfold reset_password. simpl. split; [reflexivity|].
  unfold login_user. destruct (_ || _); [reflexivity|]. simpl.
  rewrite fetch_by_username_update; [|reflexivity].
  destruct (fetchone _ (users st)) as [row|]; reflexivity.
Qed.


Lemma token_only_after_create (ident : string) (ttl : Z) (now : Q) (tok : string)
    (st : store) (row : user) :
  identified ident st = Some row ->
  token_only_of tok (u_username row) st ->
  token_only_of tok (u_username row) (snd (create_reset_token ident ttl now tok st))
  /\ exists row', identified ident (snd (create_reset_token ident ttl now tok st)) = Some row'
                  /\ u_username row' = u_username row.
Proof.
  intros Hid Honly. unfold create_reset_token. fold (identified ident st). rewrite Hid.
  destruct (bind_int _) as [e|]; simpl; [|eauto].
  split.
  - intros i r Hin Htok. unfold update_where in Hin. simpl in Hin.
    apply List.in_map_iff in Hin. destruct Hin as ([j x] & Hx & Hin). simpl in Hx.
    destruct (String.eqb_spec (u_username x) (u_username row)) as [E|E].
    + injection Hx as <- <-. exact E.
    + injection Hx as <- <-. exact (Honly j x Hin Htok).
  - unfold identified in *. simpl.
    rewrite (fetchone_update _ _ (set_reset (Some tok) (SqlInt e))); [|reflexivity].
    rewrite Hid. simpl. eexists. split; [reflexivity|].
    now destruct (String.eqb _ _).
Qed.

(** A second [create_reset_token] for the same identifier overwrites the
    first token: when the second call returns its token, the first one,
    held by no other user, verifies no more at any clock reading. *)
Theorem new_token_replaces_old (ident : string) (ttl1 ttl2 : Z) (now1 now2 t : Q)
    (tok1 tok2 : string) (st : store) (row : user) :
  identified ident st = Some row ->
  token_only_of tok1 (u_username row) st ->
  tok1 <> tok2 ->
  fst (create_reset_token ident ttl2 now2 tok2
         (snd (create_reset_token ident ttl1 now1 tok1 st))) = Returned (Some tok2) ->
  verify_reset_token rt tok1 t
    (snd (create_reset_token ident ttl2 now2 tok2
            (snd (create_reset_token ident ttl1 now1 tok1 st)))) = None.
Proof.
  intros Hid Honly Hne.
  destruct (token_only_after_create ident ttl1 now1 tok1 st row Hid Honly)
    as (Honly1 & row' & Hid1 & Hu).
  set (st1 := snd (create_reset_token ident ttl1 now1 tok1 st)) in *.
  unfold create_reset_token at 1 2. fold (identified ident st1). rewrite Hid1.
  destruct (bind_int _) as [e|]; simpl; [|discriminate].
  intros _. apply verify_dead. rewrite Hu.
  apply token_after_update; [|exact Honly1].
  intros r. simpl. congruence.
Qed.

End UsersMore.

(** alice is the only user: usernames are unique, and stay so. *)
Lemma usernames_stay_unique_witness :
  NoDup (usernames (snd (create_user bare_runtime "salt" "bob" None "pw" alice_store))).
Proof.
  refine (proj1 (usernames_stay_unique bare_runtime alice_store _) "salt" "bob" None "pw").
  change (usernames alice_store) with ["alice"]. apply NoDup_singleton.
Defined.

(** alice logs in with the password she registered with. *)
Lemma register_then_login_witness :
  login_user bare_runtime "alice" "secret" alice_store = true.
Proof.
  refine (proj1 (register_then_login bare_runtime "salt" "alice" (Some "a@example.org")
                   "secret" empty_store alice_store _ _ _)).
  - reflexivity.
  - discriminate.
  - vm_compute. reflexivity.
Defined.

(** alice's email is the one she registered with. *)
Lemma registered_email_witness :
  get_user_email "alice" alice_store = Some "a@example.org".
Proof.
  refine (proj1 (registered_email bare_runtime "salt" "alice" (Some "a@example.org")
                   "secret" empty_store alice_store _)).
  vm_compute. reflexivity.
Defined.

(** alice's pending token is dead once it is cleared. *)
Lemma reset_password_kills_token_witness :
  verify_reset_token bare_runtime "tok" 2000 (clear_reset_token "alice" pending_reset_store)
  = None.
Proof.
  refine (proj1 (reset_password_kills_token bare_runtime "salt" "alice" "new" "tok" 2000
                   pending_reset_store _)).
  intros i r Hin _. vm_compute in Hin. destruct Hin as [[= <- <-]|[]]. reflexivity.
Defined.

(** alice logs in with her new password. *)
Lemma reset_password_then_login_witness :
  login_user bare_runtime "alice" "new"
    (snd (reset_password bare_runtime "salt" "alice" "new" alice_store)) = true.
Proof.
  refine (proj2 (reset_password_then_login bare_runtime "salt" "alice" "new" alice_store
                   _ _ _ _ _)); try discriminate; reflexivity.
Defined.

(** alice asks for a token twice: the first one is dead. *)
Lemma new_token_replaces_old_witness :
  verify_reset_token bare_runtime "tok" 2000
    (snd (create_reset_token "alice" 3600 1500 "tok2" pending_reset_store)) = None.
Proof.
  refine (new_token_replaces_old bare_runtime "alice" 3600 3600 (2001 # 2) 1500 2000
            "tok" "tok2" alice_store alice _ _ _ _).
  - vm_compute. reflexivity.
  - intros i r Hin Htok. vm_compute in Hin. destruct Hin as [[= <- <-]|[]]. discriminate.
  - discriminate.
  - vm_compute. reflexivity.
Defined.

(* ===================================================================== *)
(** * Rows in id order                                                   *)
(* ===================================================================== *)

Section TableOrder.
Context {R : Type}.

Lemma max_id_rows (l : list (Z * R)) (s : Z) :
  Forall (fun x => fst x <= fold_right (fun r acc => Z.max (fst r) acc) s l) l.
Proof.
  induction l as [|x l IH]; simpl; constructor.
  - lia.
  - eapply Forall_impl; [exact IH|]. simpl. intros y Hy. lia.
Qed.

Lemma next_id_fresh (t : table R) (x : Z * R) :
  In x (tbl_rows t) -> fst x < next_id t.
Proof.
  intros Hx. unfold next_id, max_id.
  pose proof (max_id_rows (tbl_rows t) (tbl_seq t)) as H.
  rewrite List.Forall_forall in H. specialize (H x Hx). lia.
Qed.

Lemma table_ok_insert (r : R) (t : table R) : table_ok t -> table_ok (insert_row r t).
Proof.
  unfold table_ok, ids. simpl. intros H. rewrite fmap_app.
  apply StronglySorted_app. split; [|split; [exact H|]].
  - intros i j Hi Hj. apply list_elem_of_fmap in Hi. destruct Hi as (x & -> & Hx).
    apply list_elem_of_fmap in Hj. destruct Hj as (y & -> & Hy).
    apply list_elem_of_singleton in Hy. subst y. simpl.
    apply next_id_fresh, list_elem_of_In, Hx.
  - simpl. repeat constructor.
Qed.

Lemma sorted_filter (p : Z * R -> bool) (l : list (Z * R)) :
  StronglySorted Z.lt (fst <$> l) -> StronglySorted Z.lt (fst <$> List.filter p l).
Proof.
  induction l as [|x l IH]; simpl; [auto|].
  intros H. apply StronglySorted_inv in H. destruct H as [Hl Hx].
  destruct (p x); simpl; [|auto]. constructor; [auto|].
  rewrite List.Forall_forall in *. intros i Hi. apply Hx.
  apply list_elem_of_In, list_elem_of_fmap in Hi. destruct Hi as (y & -> & Hy).
  apply list_elem_of_In, List.filter_In in Hy.
  apply list_elem_of_In, list_elem_of_fmap. exists y. split; [reflexivity|].
  apply list_elem_of_In. tauto.
Qed.

Lemma table_ok_delete_where (p : R -> bool) (t : table R) :
  table_ok t -> table_ok (delete_where p t).
Proof. apply sorted_filter. Qed.

Lemma table_ok_delete_rows (p : Z * R -> bool) (t : table R) :
  table_ok t -> table_ok (snd (delete_rows p t)).
Proof. apply sorted_filter. Qed.

Lemma table_ok_empty : table_ok (@empty_table R).
Proof. constructor. Qed.

(** Rows of one scan with the same id are the same row. *)
Lemma sorted_ids_unique (l : list (Z * R)) (x y : Z * R) :
  StronglySorted Z.lt (fst <$> l) -> In x l -> In y l -> fst x = fst y -> x = y.
Proof.
  induction l as [|z l IH]; simpl; [tauto|].
  intros H. apply StronglySorted_inv in H. destruct H as [Hl Hz].
  rewrite List.Forall_forall in Hz.
  assert (Hlt : forall w, In w l -> fst z < fst w).
  { intros w Hw. apply Hz, list_elem_of_In, list_elem_of_fmap.
    exists w. split; [reflexivity|]. now apply list_elem_of_In. }
  intros [<-|Hx] [<-|Hy] E; auto.
  - specialize (Hlt _ Hy). lia.
  - specialize (Hlt _ Hx). lia.
Qed.

Lemma sorted_asc (l : list (Z * R)) :
  StronglySorted Z.lt (fst <$> l) -> StronglySorted id_asc l.
Proof.
  induction l as [|x l IH]; simpl; intros H; [constructor|].
  apply StronglySorted_inv in H. destruct H as [Hl Hx].
  constructor; [auto|].
  rewrite List.Forall_forall in *. intros y Hy. unfold id_asc.
  assert (fst x < fst y); [|lia].
  apply Hx, list_elem_of_In, list_elem_of_fmap. exists y. split; [reflexivity|].
  now apply list_elem_of_In.
Qed.

Lemma sorted_desc (l : list (Z * R)) :
  StronglySorted Z.lt (fst <$> l) -> StronglySorted id_desc (rev l).
Proof.
  induction l as [|x l IH]; simpl; intros H; [constructor|].
  apply StronglySorted_inv in H. destruct H as [Hl Hx].
  apply StronglySorted_app. split; [|split; [auto|repeat constructor]].
  intros y z Hy Hz. apply list_elem_of_singleton in Hz. subst z.
  unfold id_desc. assert (fst x < fst y); [|lia].
  rewrite List.Forall_forall in Hx.
  apply Hx, list_elem_of_In, list_elem_of_fmap. exists y. split; [reflexivity|].
  apply list_elem_of_In, in_rev. now apply list_elem_of_In.
Qed.

Lemma id_asc_trans : Transitive (@id_asc R).
Proof. intros x y z. unfold id_asc. lia. Qed.

Lemma id_asc_total : Total (@id_asc R).
Proof. intros x y. unfold id_asc. lia. Qed.

Lemma id_desc_trans : Transitive (@id_desc R).
Proof. intros x y z. unfold id_desc. lia. Qed.

Lemma id_desc_total : Total (@id_desc R).
Proof. intros x y. unfold id_desc. lia. Qed.

(** ORDER BY id ASC returns a scan as it is. *)
Lemma sort_asc_scan (l : list (Z * R)) :
  StronglySorted Z.lt (fst <$> l) -> merge_sort id_asc l = l.
Proof.
  intros H. apply (StronglySorted_unique_strong id_asc).
  - intros x y Hx Hy Hxy Hyx. unfold id_asc in *.
    apply (sorted_ids_unique l); auto.
    + apply list_elem_of_In. now rewrite <- (merge_sort_Permutation id_asc l).
    + now apply list_elem_of_In.
    + lia.
  - pose proof id_asc_trans. pose proof id_asc_total.
    apply StronglySorted_merge_sort; apply _.
  - now apply sorted_asc.
  - apply merge_sort_Permutation.
Qed.

(** ORDER BY id DESC returns a scan reversed. *)
Lemma sort_desc_scan (l : list (Z * R)) :
  StronglySorted Z.lt (fst <$> l) -> merge_sort id_desc l = rev l.
Proof.
  intros H. apply (StronglySorted_unique_strong id_desc).
  - intros x y Hx Hy Hxy Hyx. unfold id_desc in *.
    apply (sorted_ids_unique l); auto.
    + apply list_elem_of_In. now rewrite <- (merge_sort_Permutation id_desc l).
    + apply in_rev. now apply list_elem_of_In.
    + lia.
  - pose proof id_desc_trans. pose proof id_desc_total.
    apply StronglySorted_merge_sort; apply _.
  - now apply sorted_desc.
  - rewrite merge_sort_Permutation. apply Permutation_rev.
Qed.

End TableOrder.

(* ===================================================================== *)
(** * Family members                                                     *)
(* ===================================================================== *)

Section Inserts.
Context {R : Type}.

Lemma seq_le_max_id (t : table R) : tbl_seq t <= max_id t.
Proof.
  unfold max_id. induction (tbl_rows t) as [|x l IH]; simpl; lia.
Qed.

Lemma max_id_insert (r : R) (t : table R) : max_id t < max_id (insert_row r t).
Proof.
  pose proof (seq_le_max_id (insert_row r t)) as H. simpl in H.
  unfold next_id in H. lia.
Qed.

(** A run of INSERTs appends the rows in order, under fresh ids. *)
Lemma insert_all_rows (ms : list R) (t : table R) :
  exists new,
    tbl_rows (fold_left (fun t m => insert_row m t) ms t) = (tbl_rows t ++ new)%list
    /\ snd <$> new = ms
    /\ Forall (fun x => max_id t < fst x) new
    /\ (table_ok t -> table_ok (fold_left (fun t m => insert_row m t) ms t)).
Proof.
  revert t. induction ms as [|m ms IH]; intros t; simpl.
  - exists []. rewrite app_nil_r. split; [reflexivity|]. split; [reflexivity|].
    split; [constructor|auto].
  - destruct (IH (insert_row m t)) as (new & E & Hs & Hf & Hok).
    exists ((next_id t, m) :: new).
    split; [|split; [|split]].
    + rewrite E. simpl. now rewrite <- app_assoc.
    + rewrite fmap_cons, Hs. reflexivity.
    + constructor; [unfold next_id; simpl; lia|].
      eapply Forall_impl; [exact Hf|]. simpl. intros x Hx.
      pose proof (max_id_insert m t). lia.
    + intros H. now apply Hok, table_ok_insert.
Qed.

End Inserts.

Section Family.
Context (bi : builtins) (rt : runtime).

Lemma load_family_scan (u : string) (st : store) :
  table_ok (family st) ->
  load_family u st
  = List.filter (fun x => String.eqb (f_username (snd x)) u) (tbl_rows (family st)).
Proof. intros H. apply sort_asc_scan, sorted_filter, H. Qed.

Lemma member_of_dict_owner (fn : option string) (u : string) (r : gmap string pyval)
    (m : member) :
  member_of_dict bi rt fn u r = Some m -> f_username m = u.
Proof.
  unfold member_of_dict. destruct (bind_int _); simpl; [|discriminate].
  now intros [= <-].
Qed.

Lemma members_owner (fn : option string) (u : string) (rows : list (gmap string pyval))
    (ms : list member) :
  mapM (member_of_dict bi rt fn u) rows = Some ms ->
  Forall (fun m => f_username m = u) ms.
Proof.
  revert ms. induction rows as [|r rows IH]; intros ms; simpl.
  - intros [= <-]. constructor.
  - destruct (member_of_dict bi rt fn u r) as [m|] eqn:Em; simpl; [|discriminate].
    destruct (mapM _ rows) as [ms'|]; simpl; [|discriminate].
    intros [= <-]. constructor; [|auto]. eapply member_of_dict_owner, Em.
Qed.

Lemma filter_all {A : Type} (p : A -> bool) (l : list A) :
  Forall (fun x => p x = true) l -> List.filter p l = l.
Proof.
  induction 1 as [|x l Hx _ IH]; simpl; [reflexivity|]. now rewrite Hx, IH.
Qed.

Lemma filter_filter_other {A : Type} (p q : A -> bool) (l : list A) :
  (forall x, q x = true -> p x = false) ->
  List.filter q (List.filter (fun x => negb (p x)) l) = List.filter q l.
Proof.
  intros H. induction l as [|x l IH]; simpl; [reflexivity|].
  destruct (p x) eqn:Ep; simpl.
  - destruct (q x) eqn:Eq; [|exact IH]. apply H in Eq. congruence.
  - now rewrite IH.
Qed.

Lemma owner_other {A : Type} (owner : A -> string) (u v : string) (x : A) :
  v <> u -> String.eqb (owner x) v = true -> String.eqb (owner x) u = false.
Proof.
  intros Hne E. apply String.eqb_eq in E. apply String.eqb_neq. congruence.
Qed.

(** What a successful [save_family] leaves in the table. *)
Lemma save_family_rows (fn : option string) (u : string) (rows : list (gmap string pyval))
    (st st' : store) :
  save_family bi rt fn u rows st = (true, st') ->
  exists ms new,
    mapM (member_of_dict bi rt fn u) rows = Some ms
    /\ snd <$> new = ms
    /\ Forall (fun x => tbl_seq (family st) < fst x) new
    /\ tbl_rows (family st')
       = (List.filter (fun x => negb (String.eqb (f_username (snd x)) u))
            (tbl_rows (family st)) ++ new)%list
    /\ (table_ok (family st) -> table_ok (family st'))
    /\ users st' = users st /\ expenses st' = expenses st
    /\ budgets st' = budgets st /\ goals st' = goals st.
Proof.
  unfold save_family.
  destruct (mapM (member_of_dict bi rt fn u) rows) as [ms|] eqn:Em; [|discriminate].
  intros [= <-].
  destruct (insert_all_rows ms
              (delete_where (fun m => String.eqb (f_username m) u) (family st)))
    as (new & E & Hs & Hf & Hok).
  exists ms, new. simpl.
  split; [reflexivity|]. split; [exact Hs|]. split; [|split; [exact E|]].
  { eapply Forall_impl; [exact Hf|]. simpl. intros x Hx.
    pose proof (seq_le_max_id
                  (delete_where (fun m => String.eqb (f_username m) u) (family st))) as Hm.
    simpl in Hm. lia. }
  split; [|auto]. intros H. now apply Hok, table_ok_delete_where.
Qed.

End Family.

Section FamilyOps.
Context (bi : builtins) (rt : runtime).

(** [save_family] replaces the family of [u]: after a call that returned
    True, [load_family(u)] lists exactly the rows given, converted, in the
    order given and under ids above the table's counter; the family of
    every other user is as before. *)
Theorem save_family_replaces (fn : option string) (u : string)
    (rows : list (gmap string pyval)) (st st' : store) :
  table_ok (family st) ->
  save_family bi rt fn u rows st = (true, st') ->
  mapM (member_of_dict bi rt fn u) rows = Some (snd <$> load_family u st')
  /\ Forall (fun x => tbl_seq (family st) < fst x) (load_family u st')
  /\ (forall v, v <> u -> load_family v st' = load_family v st)
  /\ table_ok (family st').
Proof.
  intros Hok Hs.
  destruct (save_family_rows bi rt fn u rows st st' Hs)
    as (ms & new & Em & Hnew & Hf & E & Hok' & _).
  specialize (Hok' Hok).
  assert (Hown : Forall (fun x => String.eqb (f_username (snd x)) u = true) new).
  { pose proof (members_owner bi rt fn u rows ms Em) as H. rewrite <- Hnew in H.
    apply List.Forall_forall. intros x Hx. rewrite List.Forall_forall in H.
    apply String.eqb_eq, H, list_elem_of_In, list_elem_of_fmap.
    exists x. split; [reflexivity|]. now apply list_elem_of_In. }
  assert (Eu : load_family u st' = new).
  { rewrite (load_family_scan u st' Hok'), E, List.filter_app.
    rewrite (filter_all _ new Hown).
    rewrite filter_none; [reflexivity|]. apply List.Forall_forall. intros x Hx.
    apply List.filter_In in Hx. destruct Hx as [_ Hx].
    now apply negb_true_iff in Hx. }
  rewrite Eu. split; [now rewrite Hnew|]. split; [exact Hf|]. split; [|exact Hok'].
  intros v Hne.
  rewrite (load_family_scan v st' Hok'), (load_family_scan v st Hok), E, List.filter_app.
  rewrite (filter_filter_other
             (fun x => String.eqb (f_username (snd x)) u)
             (fun x => String.eqb (f_username (snd x)) v)).
  2:{ intros x. apply (owner_other (fun x => f_username (snd x))). exact Hne. }
  rewrite (filter_none _ new); [apply app_nil_r|].
  eapply Forall_impl; [exact Hown|]. simpl. intros x Hx.
  apply String.eqb_eq in Hx. apply String.eqb_neq. congruence.
Qed.

Lemma member_of_dict_none (fn : option string) (u : string) (r : gmap string pyval) :
  member_of_dict bi rt fn u r = None
  <-> bind_int (int_or_zero rt (dict_get r "age")) = None.
Proof.
  unfold member_of_dict. destruct (bind_int _); simpl; split; congruence.
Qed.

(** [save_family] is all or nothing: it returns False exactly when the
    age of one of the rows does not fit a 64-bit integer, and then the
    store is as before, its DELETE included. *)
Theorem save_family_all_or_nothing (fn : option string) (u : string)
    (rows : list (gmap string pyval)) (st st' : store) :
  save_family bi rt fn u rows st = (false, st')
  <-> (exists r, In r rows /\ bind_int (int_or_zero rt (dict_get r "age")) = None)
      /\ st' = st.
Proof.
  unfold save_family.
  assert (H : mapM (member_of_dict bi rt fn u) rows = None
              <-> exists r, In r rows /\ bind_int (int_or_zero rt (dict_get r "age")) = None).
  { induction rows as [|r rows IH]; simpl.
    - split; [discriminate|]. intros (r & [] & _).
    - pose proof (member_of_dict_none fn u r) as Hr.
      destruct (member_of_dict bi rt fn u r) as [m|]; simpl.
      + destruct (mapM (member_of_dict bi rt fn u) rows) as [ms|]; simpl.
        * split; [discriminate|]. intros (r' & [<-|Hin] & Hr').
          { apply Hr in Hr'. discriminate. }
          destruct IH as [_ IH].
          specialize (IH (ex_intro _ r' (conj Hin Hr'))). discriminate.
        * split; [|reflexivity]. intros _. destruct IH as [IH _].
          destruct (IH eq_refl) as (r' & Hin & Hr'). eauto.
      + split; [|reflexivity]. intros _. exists r. split; [auto|]. now apply Hr. }
  destruct (mapM (member_of_dict bi rt fn u) rows) as [ms|].
  - split; [discriminate|]. intros [Hex _]. apply H in Hex. discriminate.
  - split.
    + intros [= <-]. split; [|reflexivity]. now apply H.
    + intros [_ ->]. reflexivity.
Qed.

Lemma head_flag_bool (r : gmap string pyval) (b : bool) :
  r !! "is_head" = Some (PyBool b) -> (head_flag bi r =? 1) = b.
Proof.
  intros H. unfold head_flag. rewrite H. destruct b; reflexivity.
Qed.

Lemma head_flag_text (r : gmap string pyval) (s : string) :
  r !! "is_head" = Some (PyStr s) ->
  head_flag bi r = if bool_decide (lower s ∈ head_spellings) then 1 else 0.
Proof.
  intros H. unfold head_flag, head_spellings. rewrite H. simpl py_str_of.
  destruct (bool_decide_reflect (lower s ∈ ["on"; "true"; "1"; "yes"])) as [Hin|Hin].
  - repeat (apply elem_of_cons in Hin; destruct Hin as [->|Hin]); try reflexivity.
    now apply elem_of_nil in Hin.
  - destruct (String.eqb_spec (lower s) "on") as [E|_].
    { exfalso. apply Hin. rewrite E. set_solver. }
    destruct (String.eqb_spec (lower s) "true") as [E|_].
    { exfalso. apply Hin. rewrite E. set_solver. }
    destruct (String.eqb_spec (lower s) "1") as [E|_].
    { exfalso. apply Hin. rewrite E. set_solver. }
    destruct (String.eqb_spec (lower s) "yes") as [E|_].
    { exfalso. apply Hin. rewrite E. set_solver. }
    reflexivity.
Qed.

(** Saving one row is [add_family_member] on the emptied family, with
    [is_head] read from the row's spelling: a bool keeps its value, but a
    non-empty text outside on, true, 1, yes (in any case), which
    [add_family_member] stores as 1, is stored as 0. *)
Theorem save_family_one_row (fn : option string) (u : string) (r : gmap string pyval)
    (st : store) :
  is_Some (bind_int (int_or_zero rt (dict_get r "age"))) ->
  let single (is_head : pyval) :=
    add_family_member rt u
      (Some (text_or_empty bi (dict_get r "member_name")))
      (Some (text_or_empty bi (dict_get r "relation")))
      (dict_get r "monthly_income") (dict_get r "age")
      (Some (text_or_empty bi (dict_get r "notes")))
      is_head fn None (snd (save_family bi rt fn u [] st)) in
  save_family bi rt fn u [r] st = single (PyBool (head_flag bi r =? 1))
  /\ (forall b, r !! "is_head" = Some (PyBool b) ->
        save_family bi rt fn u [r] st = single (PyBool b))
  /\ (forall s, r !! "is_head" = Some (PyStr s) ->
        s <> "" -> lower s ∉ head_spellings ->
        save_family bi rt fn u [r] st <> single (PyStr s)).
Proof.
  intros [a Ha] single.
  assert (E : forall v,
            single v
            = (true,
               with_family
                 (insert_row
                    {| f_username := u;
                       f_member_name := Some (text_or_empty bi (dict_get r "member_name"));
                       f_relation := Some (text_or_empty bi (dict_get r "relation"));
                       f_monthly_income :=
                         bind_real (float_or_zero rt (dict_get r "monthly_income"));
                       f_age := Some a;
                       f_notes := Some (text_or_empty bi (dict_get r "notes"));
                       f_is_head := Some (if truthy v then 1 else 0);
                       f_family_name := Some (str_or_empty fn) |}
                    (delete_where (fun m => String.eqb (f_username m) u) (family st)))
                 st)).
  { intros v. unfold single, add_family_member. rewrite Ha. simpl.
    destruct (dict_get r "monthly_income"); reflexivity. }
  assert (S : forall h, head_flag bi r = h ->
            save_family bi rt fn u [r] st
            = (true,
               with_family
                 (insert_row
                    {| f_username := u;
                       f_member_name := Some (text_or_empty bi (dict_get r "member_name"));
                       f_relation := Some (text_or_empty bi (dict_get r "relation"));
                       f_monthly_income :=
                         bind_real (float_or_zero rt (dict_get r "monthly_income"));
                       f_age := Some a;
                       f_notes := Some (text_or_empty bi (dict_get r "notes"));
                       f_is_head := Some h;
                       f_family_name := Some (str_or_empty fn) |}
                    (delete_where (fun m => String.eqb (f_username m) u) (family st)))
                 st)).
  { intros h <-. unfold save_family. simpl. unfold member_of_dict. rewrite Ha.
    reflexivity. }
  assert (Hh : head_flag bi r = 1 \/ head_flag bi r = 0).
  { unfold head_flag. destruct (_ || _); auto. }
  split; [|split].
  - rewrite E. apply S. destruct Hh as [-> | ->]; reflexivity.
  - intros b Hb. rewrite E. apply S.
    apply head_flag_bool in Hb. destruct Hh as [H|H]; rewrite H in *; subst b; reflexivity.
  - intros s Hs Hne Hout. rewrite E, (S 0).
    + assert (T : truthy (PyStr s) = true) by (destruct s; [congruence|reflexivity]).
      rewrite T. intros [= H]. apply app_inj_tail in H. destruct H as [_ H].
      discriminate.
    + rewrite (head_flag_text r s Hs). now rewrite bool_decide_eq_false_2.
Qed.

(** [add_family_member] appends: after a call that returned True,
    [load_family(u)] is the former list followed by the new member, under
    a fresh id, with the name given and [is_head] stored as 1 or 0; the
    family of every other user is as before. *)
Theorem add_family_member_listed_last (u : string) (name relation : option string)
    (income age : pyval) (notes : option string) (is_head : pyval)
    (family_name : option string) (legacy : option pyval) (st st' : store) :
  table_ok (family st) ->
  add_family_member rt u name relation income age notes is_head family_name legacy st
  = (true, st') ->
  (exists m, load_family u st' = (load_family u st ++ [(next_id (family st), m)])%list
             /\ f_member_name m = Some (str_or_empty name)
             /\ f_is_head m = Some (if truthy is_head then 1 else 0))
  /\ (forall v, v <> u -> load_family v st' = load_family v st)
  /\ table_ok (family st').
Proof.
  intros Hok. unfold add_family_member.
  destruct (bind_int (int_or_zero rt age)) as [a|]; [|discriminate].
  set (m := {| f_username := u; f_member_name := _ |}). intros [= <-].
  assert (Hok' : table_ok (family (with_family (insert_row m (family st)) st))).
  { simpl. now apply table_ok_insert. }
  split; [|split; [|exact Hok']].
  - exists m. rewrite (load_family_scan u _ Hok'), (load_family_scan u st Hok). simpl.
    rewrite List.filter_app. simpl. rewrite String.eqb_refl. repeat split.
  - intros v Hne. rewrite (load_family_scan v _ Hok'), (load_family_scan v st Hok). simpl.
    rewrite List.filter_app. simpl.
    assert (E : String.eqb u v = false) by (apply String.eqb_neq; congruence).
    rewrite E, app_nil_r. reflexivity.
Qed.

End FamilyOps.

(* ===================================================================== *)
(** * Deleting by id or by name                                          *)
(* ===================================================================== *)

Section Deletes.
Context {R : Type} (owner : R -> string) (hit : Z * R -> bool) (u : string).

Lemma delete_rows_hits (t : table R) :
  (0 <? fst (delete_rows (fun x => String.eqb (owner (snd x)) u && hit x) t))%nat = true
  <-> exists x,
        In x (List.filter (fun x => String.eqb (owner (snd x)) u) (tbl_rows t))
        /\ hit x = true.
Proof.
  unfold delete_rows. simpl. rewrite Nat.ltb_lt.
  set (p := fun x : Z * R => String.eqb (owner (snd x)) u && hit x).
  split.
  - destruct (List.filter p (tbl_rows t)) as [|x l] eqn:E; simpl; [lia|].
    intros _. assert (Hx : In x (List.filter p (tbl_rows t))) by (rewrite E; now left).
    apply List.filter_In in Hx. destruct Hx as [Hx Hp].
    unfold p in Hp. apply andb_true_iff in Hp. destruct Hp as [Ho Hh].
    exists x. split; [|exact Hh]. apply List.filter_In. auto.
  - intros (x & Hx & Hh). apply List.filter_In in Hx. destruct Hx as [Hx Ho].
    assert (Hin : In x (List.filter p (tbl_rows t))).
    { apply List.filter_In. split; [exact Hx|]. unfold p. now rewrite Ho, Hh. }
    destruct (List.filter p (tbl_rows t)); [destruct Hin|simpl; lia].
Qed.

Lemma delete_rows_own (t : table R) :
  List.filter (fun x => String.eqb (owner (snd x)) u)
    (tbl_rows (snd (delete_rows (fun x => String.eqb (owner (snd x)) u && hit x) t)))
  = List.filter (fun x => negb (hit x))
      (List.filter (fun x => String.eqb (owner (snd x)) u) (tbl_rows t)).
Proof.
  unfold delete_rows. simpl. induction (tbl_rows t) as [|x l IH]; simpl; [reflexivity|].
  destruct (String.eqb (owner (snd x)) u) eqn:Eo; simpl.
  - destruct (hit x) eqn:Eh; simpl; [exact IH|]. rewrite Eo, IH. reflexivity.
  - rewrite Eo. exact IH.
Qed.

Lemma delete_rows_others (t : table R) (v : string) :
  v <> u ->
  List.filter (fun x => String.eqb (owner (snd x)) v)
    (tbl_rows (snd (delete_rows (fun x => String.eqb (owner (snd x)) u && hit x) t)))
  = List.filter (fun x => String.eqb (owner (snd x)) v) (tbl_rows t).
Proof.
  intros Hne. unfold delete_rows. simpl.
  apply (filter_filter_other (fun x => String.eqb (owner (snd x)) u && hit x)).
  intros x Hx.
  now rewrite (owner_other (fun x => owner (snd x)) u v x Hne Hx).
Qed.

Lemma delete_rows_nothing (t : table R) :
  (0 <? fst (delete_rows (fun x => String.eqb (owner (snd x)) u && hit x) t))%nat = false ->
  snd (delete_rows (fun x => String.eqb (owner (snd x)) u && hit x) t) = t.
Proof.
  unfold delete_rows. simpl. rewrite Nat.ltb_ge.
  set (p := fun x : Z * R => String.eqb (owner (snd x)) u && hit x). intros H.
  assert (E : List.filter p (tbl_rows t) = []).
  { destruct (List.filter p (tbl_rows t)); [reflexivity|simpl in H; lia]. }
  destruct t as [rows s]. simpl in *. f_equal.
  apply filter_all. apply List.Forall_forall. intros x Hx.
  fold (p x). destruct (p x) eqn:Ep; [|reflexivity].
  assert (Hin : In x (List.filter p rows)) by (apply List.filter_In; auto).
  rewrite E in Hin. destruct Hin.
Qed.

End Deletes.

Section DeleteOps.
Context (bi : builtins) (rt : runtime).

Lemma with_family_same (st : store) : with_family (family st) st = st.
Proof. destruct st; reflexivity. Qed.

Lemma with_goals_same (st : store) : with_goals (goals st) st = st.
Proof. destruct st; reflexivity. Qed.

Lemma delete_family_member_rows (u : string) (ident : identifier) (tg : target)
    (st : store) :
  read_identifier bi rt ident = Some tg -> bindable tg ->
  delete_family_member bi rt u ident st
  = let d := delete_rows
               (fun x => String.eqb (f_username (snd x)) u && member_hit tg x)
               (family st) in
    ((0 <? fst d)%nat, with_family (snd d) st).
Proof.
  intros Hr Hb. unfold delete_family_member. rewrite Hr.
  destruct tg as [i|name]; simpl in *; [|reflexivity].
  rewrite (bind_int_small i Hb). reflexivity.
Qed.

(** [delete_family_member] on an identifier it can read and bind, an id
    or a name: it returns True exactly when a member of [u] matches;
    afterwards [load_family(u)] is the former list without the matching
    members, every other user's family is as before, and a call that
    returned False changed nothing. *)
Theorem delete_family_member_removes (u : string) (ident : identifier) (tg : target)
    (st : store) :
  table_ok (family st) ->
  read_identifier bi rt ident = Some tg -> bindable tg ->
  let res := delete_family_member bi rt u ident st in
  (fst res = true <-> exists x, In x (load_family u st) /\ member_hit tg x = true)
  /\ load_family u (snd res)
     = List.filter (fun x => negb (member_hit tg x)) (load_family u st)
  /\ (forall v, v <> u -> load_family v (snd res) = load_family v st)
  /\ (fst res = false -> snd res = st).
Proof.
  intros Hok Hr Hb res. unfold res.
  rewrite (delete_family_member_rows u ident tg st Hr Hb). cbv zeta. cbn [fst snd].
  set (hit := member_hit tg).
  assert (Hok' : table_ok (family (with_family
            (snd (delete_rows (fun x => String.eqb (f_username (snd x)) u && hit x)
                    (family st))) st))).
  { simpl. now apply table_ok_delete_rows. }
  split; [|split; [|split]].
  - rewrite (load_family_scan u st Hok). apply (delete_rows_hits f_username hit u).
  - rewrite (load_family_scan u _ Hok'), (load_family_scan u st Hok).
    apply (delete_rows_own f_username hit u).
  - intros v Hne. rewrite (load_family_scan v _ Hok'), (load_family_scan v st Hok).
    now apply (delete_rows_others f_username hit u).
  - intros H. rewrite (delete_rows_nothing f_username hit u _ H).
    apply with_family_same.
Qed.

End DeleteOps.

(* ===================================================================== *)
(** * Goals                                                              *)
(* ===================================================================== *)

Section Goals.
Context (bi : builtins) (rt : runtime).

Lemma load_goals_scan (u : string) (st : store) :
  table_ok (goals st) ->
  load_goals u st
  = rev (List.filter (fun x => String.eqb (g_username (snd x)) u) (tbl_rows (goals st))).
Proof. intros H. apply sort_desc_scan, sorted_filter, H. Qed.

Lemma last_rev {A : Type} (l : list A) : last (rev l) = head l.
Proof.
  destruct l as [|x l]; simpl; [reflexivity|]. apply last_snoc.
Qed.

Lemma head_filter_find {A : Type} (q : A -> bool) (l : list A) :
  head (List.filter q l) = List.find q l.
Proof.
  induction l as [|x l IH]; simpl; [reflexivity|]. destruct (q x); [reflexivity|exact IH].
Qed.

Lemma delete_goal_rows (u : string) (ident : identifier) (tg : target) (st : store) :
  read_identifier bi rt ident = Some tg -> bindable tg ->
  delete_goal bi rt u ident st
  = let d := delete_rows
               (fun x => String.eqb (g_username (snd x)) u && goal_hit tg x)
               (goals st) in
    ((0 <? fst d)%nat, with_goals (snd d) st).
Proof.
  intros Hr Hb. unfold delete_goal. rewrite Hr.
  destruct tg as [i|name]; simpl in *; [|reflexivity].
  rewrite (bind_int_small i Hb). reflexivity.
Qed.

(** [load_goals] lists the newest goal first: after an [add_goal] that
    returned True, the list of [u] is the new goal, under a fresh id and
    with the name given, followed by the former list; the list of every
    other user is as before. *)
Theorem add_goal_listed_first (today u : string) (name : option string)
    (target months : pyval) (created : option created_arg) (st st' : store) :
  table_ok (goals st) ->
  add_goal rt today u name target months created st = (true, st') ->
  (exists g, load_goals u st' = (next_id (goals st), g) :: load_goals u st
             /\ g_goal_name g = Some (str_or_empty name))
  /\ (forall v, v <> u -> load_goals v st' = load_goals v st)
  /\ table_ok (goals st').
Proof.
  intros Hok Ha.
  destruct (add_goal_success rt today u name target months created st st' Ha)
    as (t & m & c & _ & _ & _ & ->).
  assert (Hok' : table_ok (goals (with_goals
            (insert_row
               {| g_username := u; g_goal_name := Some (str_or_empty name);
                  g_target_amount := bind_real t; g_months_to_complete := Some m;
                  g_created_on := Some c |} (goals st)) st))).
  { simpl. now apply table_ok_insert. }
  split; [|split; [|exact Hok']].
  - eexists. rewrite (load_goals_scan u _ Hok'), (load_goals_scan u st Hok). simpl.
    rewrite List.filter_app. simpl. rewrite String.eqb_refl, rev_app_distr. simpl.
    split; reflexivity.
  - intros v Hne. rewrite (load_goals_scan v _ Hok'), (load_goals_scan v st Hok). simpl.
    rewrite List.filter_app. simpl.
    assert (E : String.eqb u v = false) by (apply String.eqb_neq; congruence).
    rewrite E, app_nil_r. reflexivity.
Qed.

(** The goal the dashboard shows as active, [goals[-1]] of a list that
    comes newest first, is the oldest goal [u] still has: the first of
    [u]'s rows in the table.  Once [u] has a goal, adding goals does not
    change what the page shows. *)
Theorem active_goal_is_oldest (today u : string) (name : option string)
    (target months : pyval) (created : option created_arg) (st st' : store) :
  table_ok (goals st) ->
  active_goal rt u st
  = (fun g => (g_goal_name g,
               safe_float rt
                 (match g_target_amount g with
                  | Some t => PyFloat t
                  | None => PyNone
                  end) 0%float))
      <$> fetchone (fun g => String.eqb (g_username g) u) (goals st)
  /\ (add_goal rt today u name target months created st = (true, st') ->
      load_goals u st <> [] ->
      active_goal rt u st' = active_goal rt u st).
Proof.
  intros Hok. split.
  - unfold active_goal, fetchone. rewrite (load_goals_scan u st Hok), last_rev.
    rewrite (head_filter_find (fun x => String.eqb (g_username (snd x)) u)).
    destruct (List.find _ _); reflexivity.
  - intros Ha Hne.
    destruct (add_goal_success rt today u name target months created st st' Ha)
      as (t & m & c & _ & _ & _ & ->).
    unfold active_goal. f_equal.
    assert (Hok' : table_ok (goals (with_goals
              (insert_row
                 {| g_username := u; g_goal_name := Some (str_or_empty name);
                    g_target_amount := bind_real t; g_months_to_complete := Some m;
                    g_created_on := Some c |} (goals st)) st))).
    { simpl. now apply table_ok_insert. }
    rewrite (load_goals_scan u _ Hok'). rewrite (load_goals_scan u st Hok) in *.
    rewrite !last_rev. simpl. rewrite List.filter_app.
    destruct (List.filter (fun x => String.eqb (g_username (snd x)) u)
                (tbl_rows (goals st))) as [|x l]; [|reflexivity].
    now destruct Hne.
Qed.

(** [delete_goal] on an identifier it can read and bind, an id or a name:
    it returns True exactly when a goal of [u] matches; afterwards
    [load_goals(u)] is the former list without the matching goals, every
    other user's list is as before, and a call that returned False
    changed nothing. *)
Theorem delete_goal_removes (u : string) (ident : identifier) (tg : target)
    (st : store) :
  table_ok (goals st) ->
  read_identifier bi rt ident = Some tg -> bindable tg ->
  let res := delete_goal bi rt u ident st in
  (fst res = true <-> exists x, In x (load_goals u st) /\ goal_hit tg x = true)
  /\ load_goals u (snd res)
     = List.filter (fun x => negb (goal_hit tg x)) (load_goals u st)
  /\ (forall v, v <> u -> load_goals v (snd res) = load_goals v st)
  /\ (fst res = false -> snd res = st).
Proof.
  intros Hok Hr Hb res. unfold res.
  rewrite (delete_goal_rows u ident tg st Hr Hb). cbv zeta. cbn [fst snd].
  set (hit := goal_hit tg).
  assert (Hok' : table_ok (goals (with_goals
            (snd (delete_rows (fun x => String.eqb (g_username (snd x)) u && hit x)
                    (goals st))) st))).
  { simpl. now apply table_ok_delete_rows. }
  split; [|split; [|split]].
  - rewrite (load_goals_scan u st Hok).
    rewrite (delete_rows_hits g_username hit u). split.
    + intros (x & Hx & Hh). exists x. split; [|exact Hh]. now apply in_rev in Hx.
    + intros (x & Hx & Hh). exists x. split; [|exact Hh]. now apply in_rev.
  - rewrite (load_goals_scan u _ Hok'), (load_goals_scan u st Hok).
    rewrite List.filter_rev. f_equal. apply (delete_rows_own g_username hit u).
  - intros v Hne. rewrite (load_goals_scan v _ Hok'), (load_goals_scan v st Hok).
    f_equal. now apply (delete_rows_others g_username hit u).
  - intros H. rewrite (delete_rows_nothing g_username hit u _ H).
    apply with_goals_same.
Qed.

End Goals.

(* ===================================================================== *)
(** * Expenses                                                           *)
(* ===================================================================== *)

Lemma ascii_compare_refl (a : ascii) : Ascii.compare a a = Eq.
Proof. unfold Ascii.compare. apply N.compare_refl. Qed.

Lemma ascii_compare_lt_trans (a b c : ascii) :
  Ascii.compare a b = Lt -> Ascii.compare b c = Lt -> Ascii.compare a c = Lt.
Proof.
  unfold Ascii.compare. rewrite !N.compare_lt_iff. lia.
Qed.

Lemma string_compare_refl (s : string) : String.compare s s = Eq.
Proof.
  induction s as [|a s IH]; simpl; [reflexivity|]. now rewrite ascii_compare_refl.
Qed.

Lemma string_compare_lt_trans (s1 s2 s3 : string) :
  String.compare s1 s2 = Lt -> String.compare s2 s3 = Lt -> String.compare s1 s3 = Lt.
Proof.
  revert s2 s3. induction s1 as [|a s1 IH]; intros [|b s2] [|c s3]; simpl;
    try discriminate; try reflexivity.
  destruct (Ascii.compare a b) eqn:E1; try discriminate;
    destruct (Ascii.compare b c) eqn:E2; try discriminate; intros H1 H2.
  - apply Ascii.compare_eq_iff in E1, E2. subst. rewrite ascii_compare_refl. eauto.
  - apply Ascii.compare_eq_iff in E1. subst. now rewrite E2.
  - apply Ascii.compare_eq_iff in E2. subst. now rewrite E1.
  - now rewrite (ascii_compare_lt_trans a b c E1 E2).
Qed.

Lemma key_leb_total (a b : option string) : key_leb a b = true \/ key_leb b a = true.
Proof.
  destruct a as [x|], b as [y|]; simpl; auto.
  rewrite (String.compare_antisym x y).
  destruct (String.compare y x); simpl; auto.
Qed.

Lemma key_leb_antisym (a b : option string) :
  key_leb a b = true -> key_leb b a = true -> a = b.
Proof.
  destruct a as [x|], b as [y|]; simpl; try discriminate; auto.
  rewrite (String.compare_antisym x y).
  destruct (String.compare y x) eqn:E; simpl; try discriminate.
  intros _ _. f_equal. symmetry. now apply String.compare_eq_iff.
Qed.

Lemma key_leb_trans (a b c : option string) :
  key_leb a b = true -> key_leb b c = true -> key_leb a c = true.
Proof.
  destruct a as [x|], b as [y|], c as [z|]; simpl; try discriminate; auto.
  destruct (String.compare x y) eqn:E1; try discriminate;
    destruct (String.compare y z) eqn:E2; try discriminate; intros _ _.
  - apply String.compare_eq_iff in E1, E2. subst. now rewrite string_compare_refl.
  - apply String.compare_eq_iff in E1. subst. now rewrite E2.
  - apply String.compare_eq_iff in E2. subst. now rewrite E1.
  - now rewrite (string_compare_lt_trans x y z E1 E2).
Qed.

Lemma newest_first_total : Total newest_first.
Proof.
  intros x y. unfold newest_first.
  destruct (bool_decide_reflect (e_date (snd x) = e_date (snd y))) as [E|E].
  - rewrite bool_decide_eq_true_2 by congruence. lia.
  - rewrite bool_decide_eq_false_2 by congruence.
    destruct (key_leb_total (e_date (snd x)) (e_date (snd y))); auto.
Qed.

Lemma newest_first_trans : Transitive newest_first.
Proof.
  intros x y z. unfold newest_first.
  destruct (bool_decide_reflect (e_date (snd x) = e_date (snd y))) as [E1|E1];
    destruct (bool_decide_reflect (e_date (snd y) = e_date (snd z))) as [E2|E2];
    destruct (bool_decide_reflect (e_date (snd x) = e_date (snd z))) as [E3|E3];
    intros H1 H2; try congruence; try lia.
  - exfalso. apply E1. rewrite E3 in *. now apply key_leb_antisym.
  - eapply key_leb_trans; eauto.
Qed.

Lemma newest_first_sorted (l : list (Z * expense)) :
  StronglySorted newest_first (merge_sort newest_first l).
Proof.
  pose proof newest_first_trans. pose proof newest_first_total.
  apply StronglySorted_merge_sort; apply _.
Qed.

Lemma newest_first_same_id (x y : Z * expense) :
  newest_first x y -> newest_first y x -> fst x = fst y.
Proof.
  unfold newest_first.
  destruct (bool_decide_reflect (e_date (snd x) = e_date (snd y))) as [E|E].
  - rewrite bool_decide_eq_true_2 by congruence. lia.
  - rewrite bool_decide_eq_false_2 by congruence. intros H1 H2.
    destruct E. now apply key_leb_antisym.
Qed.

Section Expenses.
Context (bi : builtins) (rt : runtime).

(** [load_expenses(u)] lists the expenses of [u], all of them and each
    once, every one before those dated earlier and, on one date, before
    those entered earlier. *)
Theorem load_expenses_newest_first (u : string) (st : store) :
  (fun v => (ev_id v, ev_row v)) <$> load_expenses bi u st
    ≡ₚ List.filter (fun x => String.eqb (e_username (snd x)) u) (tbl_rows (expenses st))
  /\ StronglySorted newest_first ((fun v => (ev_id v, ev_row v)) <$> load_expenses bi u st)
  /\ Forall (fun v => ev_split v = parse_split bi (e_split_json (ev_row v)))
       (load_expenses bi u st).
Proof.
  unfold load_expenses.
  set (l := List.filter (fun x => String.eqb (e_username (snd x)) u) (tbl_rows (expenses st))).
  assert (E : (fun v => (ev_id v, ev_row v)) <$>
              ((fun x => {| ev_id := fst x; ev_row := snd x;
                            ev_split := parse_split bi (e_split_json (snd x)) |})
                 <$> merge_sort newest_first l)
              = merge_sort newest_first l).
  { rewrite <- list_fmap_compose. rewrite <- (list_fmap_id (merge_sort newest_first l)) at 2.
    apply list_fmap_ext. intros _ [i e] _. reflexivity. }
  rewrite E. split; [apply merge_sort_Permutation|]. split.
  - apply newest_first_sorted.
  - apply Forall_fmap. apply Forall_true. intros x. reflexivity.
Qed.

(** An expense added under a date that is not before any date [u] has
    on record comes first in [load_expenses(u)], under a fresh id and
    followed by the former list. *)
Theorem add_expense_latest_first (today u : string) (amount : pyval)
    (category assigned_member : option string) (split : option pyval)
    (note date : option string) (st : store) :
  table_ok (expenses st) ->
  Forall (fun v => key_leb (e_date (ev_row v))
                     (Some (match date with Some d => d | None => today end)) = true)
    (load_expenses bi u st) ->
  exists v,
    load_expenses bi u
      (snd (add_expense rt today u amount category assigned_member split note date st))
    = v :: load_expenses bi u st
    /\ ev_id v = next_id (expenses st)
    /\ e_date (ev_row v) = Some (match date with Some d => d | None => today end)
    /\ e_category (ev_row v) = Some (str_or_empty category).
Proof.
  intros Hok Hd. unfold add_expense. cbn [snd].
  set (e := {| e_username := u; e_date := _ |}).
  set (new := (next_id (expenses st), e)).
  unfold load_expenses in *. cbn [expenses with_expenses insert_row tbl_rows].
  set (own := fun x : Z * expense => String.eqb (e_username (snd x)) u) in *.
  rewrite List.filter_app. cbn [List.filter]. fold new.
  assert (Hnew : own new = true) by apply String.eqb_refl. rewrite Hnew.
  set (F := List.filter own (tbl_rows (expenses st))) in *.
  assert (HsF : StronglySorted Z.lt (fst <$> (F ++ [new])%list)).
  { pose proof (table_ok_insert e (expenses st) Hok) as H.
    apply (sorted_filter own) in H. unfold insert_row in H. cbn [tbl_rows] in H.
    rewrite List.filter_app in H. cbn [List.filter] in H. fold new in H.
    now rewrite Hnew in H. }
  assert (Es : merge_sort newest_first (F ++ [new])%list
               = new :: merge_sort newest_first F).
  { apply (StronglySorted_unique_strong newest_first).
    - intros x y Hx Hy Hxy Hyx. apply (sorted_ids_unique (F ++ [new])%list); auto.
      + apply list_elem_of_In. now rewrite <- (merge_sort_Permutation newest_first).
      + apply list_elem_of_In.
        rewrite <- (Permutation_cons_append F new).
        now rewrite <- (merge_sort_Permutation newest_first F).
      + now apply newest_first_same_id.
    - apply newest_first_sorted.
    - constructor; [apply newest_first_sorted|].
      apply List.Forall_forall. intros y Hy.
      apply list_elem_of_In in Hy. rewrite (merge_sort_Permutation newest_first F) in Hy.
      unfold newest_first.
      destruct (bool_decide_reflect (e_date (snd new) = e_date (snd y))) as [Ed|Ed].
      + assert (fst y < fst new); [|lia].
        apply next_id_fresh. apply list_elem_of_In in Hy.
        apply List.filter_In in Hy. tauto.
      + rewrite List.Forall_forall in Hd.
        specialize (Hd {| ev_id := fst y; ev_row := snd y;
                          ev_split := parse_split bi (e_split_json (snd y)) |}).
        apply Hd. apply list_elem_of_In, list_elem_of_fmap. exists y.
        split; [reflexivity|]. now rewrite (merge_sort_Permutation newest_first F).
    - rewrite (merge_sort_Permutation newest_first).
      rewrite <- (Permutation_cons_append F new).
      now rewrite (merge_sort_Permutation newest_first F). }
  rewrite Es. eexists. rewrite fmap_cons. split; [reflexivity|].
  split; [reflexivity|]. split; reflexivity.
Qed.

End Expenses.

(* ===================================================================== *)
(** * One user's writes and another user's reads                         *)
(* ===================================================================== *)

Section Others.
Context (bi : builtins) (rt : runtime).

Lemma latest_skips {R : Type} (p q : R -> bool) (l : list (Z * R)) (best : option (Z * R)) :
  (forall r, p r = true -> q r = false) ->
  fold_left
    (fun best r =>
       if p (snd r) then
         match best with
         | Some b => if fst b <? fst r then Some r else best
         | None => Some r
         end
       else best) (List.filter (fun r => negb (q (snd r))) l) best
  = fold_left
      (fun best r =>
         if p (snd r) then
           match best with
           | Some b => if fst b <? fst r then Some r else best
           | None => Some r
           end
         else best) l best.
Proof.
  intros H. revert best. induction l as [|x l IH]; intros best; simpl; [reflexivity|].
  destruct (q (snd x)) eqn:Eq; simpl.
  - destruct (p (snd x)) eqn:Ep; [|apply IH]. apply H in Ep. congruence.
  - apply IH.
Qed.

(** [load_budget] and [get_user_budget] read the caller's own rows only:
    a [set_budget] of another user changes neither, and a user without a
    budget row gets no main budget and the limits "{}".  Whatever is
    stored, the limits returned are never the empty text. *)
Theorem load_budget_own_rows (u u' : string) (v c : pyval) (st : store) :
  (u' <> u ->
   load_budget u' (snd (set_budget rt u v c st)) = load_budget u' st
   /\ get_user_budget u' (snd (set_budget rt u v c st)) = get_user_budget u' st)
  /\ (budget_rows u st = [] ->
      load_budget u st = {| main_budget := None; category_limits_json := "{}" |}
      /\ get_user_budget u st = None)
  /\ category_limits_json (load_budget u st) <> "".
Proof.
  assert (H1 : u' <> u -> load_budget u' (snd (set_budget rt u v c st)) = load_budget u' st).
  { intros Hne. unfold load_budget, set_budget, latest. simpl.
    rewrite fold_left_app. simpl.
    assert (E : String.eqb u u' = false) by (apply String.eqb_neq; congruence).
    rewrite E.
    rewrite (latest_skips (fun b => String.eqb (b_username b) u')
               (fun b => String.eqb (b_username b) u)); [reflexivity|].
    intros r Hr. apply (owner_other b_username u u' r Hne Hr). }
  assert (H2 : budget_rows u st = [] ->
               load_budget u st = {| main_budget := None; category_limits_json := "{}" |}).
  { intros Hrows. unfold load_budget, latest.
    rewrite (latest_none (fun b => String.eqb (b_username b) u)); [reflexivity|].
    apply List.Forall_forall. intros x Hx.
    destruct (String.eqb (b_username (snd x)) u) eqn:Ex; [|reflexivity].
    assert (Hin : In (snd x) (budget_rows u st)).
    { unfold budget_rows. apply List.filter_In. split; [|exact Ex].
      apply list_elem_of_In, list_elem_of_fmap. exists x. split; [reflexivity|].
      now apply list_elem_of_In. }
    rewrite Hrows in Hin. destruct Hin. }
  split; [|split].
  - intros Hne. split; [auto|]. unfold get_user_budget. now rewrite H1.
  - intros Hrows. split; [auto|]. unfold get_user_budget. now rewrite H2.
  - unfold load_budget. destruct (latest _ _) as [row|]; simpl; [|discriminate].
    destruct (b_category_limits_json row) as [js|]; [|discriminate].
    destruct (String.eqb_spec js ""); [discriminate|assumption].
Qed.

Lemma filter_in_month_other (u v y m : string) (e : expense) (l : list expense) :
  e_username e = v -> v <> u ->
  List.filter (in_month u y m) (l ++ [e])%list = List.filter (in_month u y m) l.
Proof.
  intros He Hne. rewrite List.filter_app. simpl. unfold in_month at 2.
  assert (E : String.eqb (e_username e) u = false) by (apply String.eqb_neq; congruence).
  rewrite E. simpl. apply app_nil_r.
Qed.

(** An expense another user adds shows in none of the reads of [u]:
    [load_expenses], [category_breakdown] and
    [get_monthly_family_expenses] return what they returned before. *)
Theorem add_expense_of_another (today u v : string) (amount : pyval)
    (category assigned_member : option string) (split : option pyval)
    (note date : option string) (year month : Z) (st : store) :
  v <> u ->
  let st' := snd (add_expense rt today v amount category assigned_member split note date st) in
  load_expenses bi u st' = load_expenses bi u st
  /\ category_breakdown rt u year month st' = category_breakdown rt u year month st
  /\ get_monthly_family_expenses rt u year month st'
     = get_monthly_family_expenses rt u year month st.
Proof.
  intros Hne st'. unfold st', add_expense. cbn [snd].
  set (e := {| e_username := v; e_date := _ |}).
  assert (Hsel : forall y m,
            List.filter (in_month u y m)
              (snd <$> tbl_rows (expenses (with_expenses (insert_row e (expenses st)) st)))
            = List.filter (in_month u y m) (snd <$> tbl_rows (expenses st))).
  { intros y m. simpl. rewrite fmap_app. simpl.
    now apply (filter_in_month_other u v). }
  split; [|split].
  - unfold load_expenses. simpl. rewrite List.filter_app. simpl.
    assert (E : String.eqb v u = false) by (apply String.eqb_neq; congruence).
    rewrite E, app_nil_r. reflexivity.
  - unfold category_breakdown, breakdown_query. cbv zeta. now rewrite Hsel.
  - unfold get_monthly_family_expenses. now rewrite Hsel.
Qed.

(** An expense dated outside the month asked for, and one whose amount
    is nan (stored as NULL), leave [get_monthly_family_expenses] as it
    was. *)
Theorem monthly_total_unchanged (today u : string) (amount : pyval)
    (category assigned_member : option string) (split : option pyval)
    (note date : option string) (year month : Z) (st : store) :
  let a := match py_float rt amount with Some f => f | None => 0%float end in
  let d := match date with Some d => d | None => today end in
  String.eqb (substr d 1 4) (py_str year) && String.eqb (substr d 6 2) (fmt_02d month)
    && negb (is_nan a) = false ->
  get_monthly_family_expenses rt u year month
    (snd (add_expense rt today u amount category assigned_member split note date st))
  = get_monthly_family_expenses rt u year month st.
Proof.
  intros a d Hout. unfold add_expense. cbn [snd]. fold a. fold d.
  unfold get_monthly_family_expenses. simpl.
  rewrite fmap_app, List.filter_app. simpl. unfold in_month at 2. simpl.
  rewrite String.eqb_refl. simpl.
  destruct (String.eqb (substr d 1 4) (py_str year) && String.eqb (substr d 6 2) (fmt_02d month))
    eqn:Em; simpl; [|now rewrite app_nil_r].
  simpl in Hout. apply negb_false_iff in Hout.
  rewrite fmap_app. simpl. unfold sql_sum. rewrite omap_app. simpl.
  unfold bind_real. rewrite Hout. simpl. now rewrite app_nil_r.
Qed.

End Others.

(* ===================================================================== *)
(** * Alerts and the month's spending                                    *)
(* ===================================================================== *)

Section Unspent.
Context (rt : runtime).

Lemma no_alert_at_zero (limit_val : float) : alert_level_of limit_val 0 = None.
Proof.
  unfold alert_level_of. destruct (limit_val <=? 0)%float; [reflexivity|].
  unfold percent. destruct (truthy (PyFloat limit_val)); [|reflexivity].
  assert (H : forall k : float,
            Prim2SF k = S754_finite false 7036874417766400 (-46)
            \/ Prim2SF k = S754_finite false 5629499534213120 (-46) ->
            (k <=? 0 / limit_val * 100)%float = false).
  { intros k Hk. rewrite FloatAxioms.leb_spec, FloatAxioms.mul_spec, FloatAxioms.div_spec.
    change (Prim2SF 0) with (S754_zero false).
    change (Prim2SF 100) with (S754_finite false 7036874417766400 (-46)).
    destruct Hk as [-> | ->]; destruct (Prim2SF limit_val) as [s|s| |s m e];
      try reflexivity; destruct s; reflexivity. }
  rewrite (H 100%float), (H 80%float); auto.
Qed.

(** [render_alerts] raises an alert only for a category the month's
    spending has an entry for: a configured category without one has
    spent 0 and stays silent, whatever its limit. *)
Theorem alerts_need_spending (category_limits : list (string * pyval))
    (cat_spend : gmap string float) (a : alert) :
  a ∈ render_alerts rt category_limits cat_spend ->
  is_Some (cat_spend !! alert_category a).
Proof.
  unfold render_alerts. intros H. apply list_elem_of_omap in H.
  destruct H as ([cat limit] & _ & H). unfold category_alert in H.
  destruct (cat_spend !! cat) as [spent|] eqn:E.
  - destruct (alert_level_of _ _); simpl in H; [|discriminate].
    injection H as <-. simpl. rewrite E. eauto.
  - change (safe_float rt (PyInt 0) 0) with 0%float in H.
    rewrite no_alert_at_zero in H. discriminate.
Qed.

End Unspent.

(* ===================================================================== *)
(** * Examples on small stores                                           *)
(* ===================================================================== *)

(** After saving Ann as alice's family, the list loaded is the row saved. *)
Lemma save_family_replaces_witness :
  mapM (member_of_dict bare_builtins bare_runtime (Some "Home") "alice") [ann_row]
  = Some (snd <$> load_family "alice" ann_store).
Proof.
  refine (proj1 (save_family_replaces bare_builtins bare_runtime (Some "Home") "alice"
                   [ann_row] empty_store ann_store _ _)).
  - constructor.
  - vm_compute. reflexivity.
Defined.

(** Saving Ann, a head of family, is adding her to the emptied family. *)
Lemma save_family_one_row_witness :
  save_family bare_builtins bare_runtime (Some "Home") "alice" [ann_row] empty_store
  = add_family_member bare_runtime "alice" (Some "Ann") (Some "") PyNone PyNone (Some "")
      (PyBool true) (Some "Home") None
      (snd (save_family bare_builtins bare_runtime (Some "Home") "alice" [] empty_store)).
Proof.
  refine (proj1 (proj2 (save_family_one_row bare_builtins bare_runtime (Some "Home") "alice"
                          ann_row empty_store _)) true _).
  - exists 0. reflexivity.
  - reflexivity.
Defined.

(** Ann, stored under id 1, is deleted by that id. *)
Lemma delete_family_member_removes_witness :
  fst (delete_family_member bare_builtins bare_runtime "alice" (IdInt 1) ann_store) = true.
Proof.
  refine (proj2 (proj1 (delete_family_member_removes bare_builtins bare_runtime "alice"
                          (IdInt 1) (ById 1) ann_store _ _ _)) _).
  - unfold table_ok. vm_compute. repeat constructor.
  - reflexivity.
  - simpl. lia.
  - vm_compute. eexists. split; [left; reflexivity|reflexivity].
Defined.

(** Adding a member for alice leaves bob's family alone. *)
Lemma add_family_member_listed_last_witness :
  load_family "bob"
    (snd (add_family_member bare_runtime "alice" (Some "Ann") None PyNone (PyInt 30) None
            (PyBool true) None None empty_store))
  = load_family "bob" empty_store.
Proof.
  refine (proj1 (proj2 (add_family_member_listed_last bare_runtime "alice" (Some "Ann") None
                          PyNone (PyInt 30) None (PyBool true) None None empty_store _ _ _))
            "bob" _).
  - constructor.
  - vm_compute. reflexivity.
  - discriminate.
Defined.

(** alice's goal does not show among bob's. *)
Lemma add_goal_listed_first_witness :
  load_goals "bob" goal_store = load_goals "bob" empty_store.
Proof.
  refine (proj1 (proj2 (add_goal_listed_first bare_runtime "2024-05-01" "alice" (Some "Bike")
                          (PyInt 100) (PyInt 2) None empty_store goal_store _ _)) "bob" _).
  - constructor.
  - vm_compute. reflexivity.
  - discriminate.
Defined.

(** alice's second goal does not replace the active goal shown. *)
Lemma active_goal_is_oldest_witness :
  active_goal bare_runtime "alice"
    (snd (add_goal bare_runtime "2024-06-01" "alice" (Some "Car") (PyInt 900) (PyInt 12) None
            goal_store))
  = active_goal bare_runtime "alice" goal_store.
Proof.
  refine (proj2 (active_goal_is_oldest bare_runtime "2024-06-01" "alice" (Some "Car")
                   (PyInt 900) (PyInt 12) None goal_store _ _) _ _).
  - unfold table_ok. vm_compute. repeat constructor.
  - vm_compute. reflexivity.
  - vm_compute. discriminate.
Defined.

(** alice's goal is deleted by its name. *)
Lemma delete_goal_removes_witness :
  fst (delete_goal bare_builtins bare_runtime "alice" (IdStr "Bike") goal_store) = true.
Proof.
  refine (proj2 (proj1 (delete_goal_removes bare_builtins bare_runtime "alice"
                          (IdStr "Bike") (ByName "Bike") goal_store _ _ _)) _).
  - unfold table_ok. vm_compute. repeat constructor.
  - reflexivity.
  - exact I.
  - vm_compute. eexists. split; [left; reflexivity|reflexivity].
Defined.

(** An expense of July comes before alice's expenses of May and June. *)
Lemma add_expense_latest_first_witness :
  exists v,
    load_expenses bare_builtins "alice"
      (snd (add_expense bare_runtime "2024-07-01" "alice" (PyInt 5) (Some "Food") None None
              None None (example_store "alice")))
    = v :: load_expenses bare_builtins "alice" (example_store "alice")
    /\ ev_id v = next_id (expenses (example_store "alice"))
    /\ e_date (ev_row v) = Some "2024-07-01"
    /\ e_category (ev_row v) = Some "Food".
Proof.
  refine (add_expense_latest_first bare_builtins bare_runtime "2024-07-01" "alice" (PyInt 5)
            (Some "Food") None None None None (example_store "alice") _ _).
  - unfold table_ok. vm_compute. repeat constructor.
  - vm_compute. repeat constructor.
Defined.

(** bob's expense does not show among alice's. *)
Lemma add_expense_of_another_witness :
  load_expenses bare_builtins "alice"
    (snd (add_expense bare_runtime "2024-07-01" "bob" (PyInt 5) (Some "Food") None None
            None None (example_store "alice")))
  = load_expenses bare_builtins "alice" (example_store "alice").
Proof.
  refine (proj1 (add_expense_of_another bare_builtins bare_runtime "2024-07-01" "alice" "bob"
                   (PyInt 5) (Some "Food") None None None None 2024 5
                   (example_store "alice") _)).
  discriminate.
Defined.

(** An expense of July leaves the total of May as it was. *)
Lemma monthly_total_unchanged_witness :
  get_monthly_family_expenses bare_runtime "alice" 2024 5
    (snd (add_expense bare_runtime "2024-07-01" "alice" (PyInt 5) (Some "Food") None None
            None None (example_store "alice")))
  = get_monthly_family_expenses bare_runtime "alice" 2024 5 (example_store "alice").
Proof.
  refine (monthly_total_unchanged bare_runtime "2024-07-01" "alice" (PyInt 5) (Some "Food")
            None None None None 2024 5 (example_store "alice") _).
  vm_compute. reflexivity.
Defined.

(** The alert for Food comes with an entry for Food in the spending. *)
Lemma alerts_need_spending_witness :
  is_Some (({["Food" := 80%float]} : gmap string float) !! "Food").
Proof.
  refine (alerts_need_spending bare_runtime [("Food", PyInt 100)] {["Food" := 80%float]}
            {| alert_category := "Food"; alert_level := Nearing; alert_percent := 80 |} _).
  assert (E : render_alerts bare_runtime [("Food", PyInt 100)] {["Food" := 80%float]}
              = [ {| alert_category := "Food"; alert_level := Nearing; alert_percent := 80 |} ])
    by (vm_compute; reflexivity).
  rewrite E. constructor.
Defined.
